(** * 75 Hard habit tracker: the core state engine, embedded and verified

    The development follows the TypeScript sources module by module:
    [lib/models] (Task, Attempt, Day), the services (validation, dates,
    storage, backup import), the application context, the [useDay] hook and
    the handlers of the main screen that the specification talks about.

    Conventions of the embedding.
    - An optional field ([photoUri?], [mood?], [weight?]) and a nullable one
      ([timestamp]) are [option]s; [None] is [undefined] (resp. [null]).  A
      weight that a stored text gives back as [null] is [None] as well.
    - The local time zone is a parameter of the functions that use local
      time.
    - [Array.prototype.every], [some], [find], [map], [filter] and [slice]
      are [forallb], [existsb], [find], [map], [List.filter] and [take].
    - [new Date().toISOString()] is a parameter [now] of the functions that
      read the clock.
    - Console logging is dropped. *)

From Stdlib Require Import ZArith QArith Qpower Lia Lqa List Bool Ascii String.
From Stdlib Require Import Decimal DecimalString DecimalPos.
From stdpp Require Import gmap strings list.
Import ListNotations.

Local Open Scope string_scope.
Set Warnings "-register-all".

(** Proof step: name the results of the binds that a successful chain of
    reads went through. *)
Ltac bound_in H :=
  repeat match type of H with
         | (?m ≫= _) = Some _ =>
             let E := fresh "E" in destruct m eqn:E; [|discriminate]; simpl in H
         end.


(** ** JavaScript values shared by the modules *)

(** A JavaScript number, given by the decimal expansion [Number::toString]
    (ECMA-262, 6.1.6.1.20) is defined from: a finite non-zero number is
    [(-1)^neg * s * 10^(n - k)] where [k] is the number of decimal digits of
    [s] and [s] is not divisible by ten.  Both zeros print as ["0"] and
    compare equal, so one constructor stands for them. *)
Inductive jsnumber : Type :=
| NaN
| Infinity (neg : bool)
| Zero
| Finite (neg : bool) (s : positive) (n : Z).

(** How a JavaScript call ends: with a value, or by throwing. *)
Inductive js_error : Type := InvariantViolation | TypeError.

Inductive completion (A : Type) : Type :=
| Normal (v : A)
| Throw (e : js_error).
Arguments Normal {A} v.
Arguments Throw {A} e.

(** [l[i]]: [undefined] when [i] is negative or past the end. *)
Definition array_get {A : Type} (l : list A) (i : Z) : option A :=
  if (i <? 0)%Z then None else l !! Z.to_nat i.

(** [copy[i] = x] on a copy [copy = [...l]], for the writes a list can
    follow: at an index below [length] the element is replaced, at [length]
    the value is appended.  Two writes are outside of what a list holds, and
    the list is then returned as it is, which is not what the array is
    afterwards: a negative [i] names a property that is no element but that
    a later read [copy[i]] returns; a write past [length] leaves holes.  The
    hook and the screen never make such a write: [updateDays] writes the
    indices in increasing order from 0, and [useDay] and [saveTasks] write
    at [length - 1] only after a read at that index has returned an
    attempt.  [updateCurrentAttempt] called on a day without attempts does
    write at -1; nothing is stated about that call. *)
Definition array_set {A : Type} (i : Z) (x : A) (l : list A) : list A :=
  if (i <? 0)%Z then l
  else if (Z.to_nat i =? length l)%nat then l ++ [x]
  else <[ Z.to_nat i := x ]> l.

(** [x > 0] on numbers. *)
Definition gt_zero (x : jsnumber) : bool :=
  match x with
  | Infinity false | Finite false _ _ => true
  | _ => false
  end.

(** [isNaN(x)]. *)
Definition isNaN (x : jsnumber) : bool :=
  match x with NaN => true | _ => false end.

(** The decimal digits of the significand. *)
Definition digits (s : positive) : string :=
  NilEmpty.string_of_uint (Pos.to_uint s).

Fixpoint zeros (n : nat) : string :=
  match n with O => "" | S n => String "0" (zeros n) end.

(** [s.slice(0, n)] and [s.slice(n)] on strings. *)
Fixpoint str_take (n : nat) (s : string) : string :=
  match n, s with
  | S n, String c s => String c (str_take n s)
  | _, _ => ""
  end.

Fixpoint str_drop (n : nat) (s : string) : string :=
  match n, s with
  | S n, String _ s => str_drop n s
  | _, _ => s
  end.

(** The decimal numeral of an integer, as it is printed in an exponent. *)
Definition decimal_of_nat (e : nat) : string :=
  NilZero.string_of_uint (Nat.to_uint e).

(** [Number::toString(x, 10)], step by step as in ECMA-262. *)
Definition toString_pos (s : positive) (n : Z) : string :=
  let ds := digits s in
  let k := Z.of_nat (String.length ds) in
  if (-5 <=? n)%Z && (n <=? 21)%Z then
    if (k <=? n)%Z then ds ++ zeros (Z.to_nat (n - k))
    else if (0 <? n)%Z then
      str_take (Z.to_nat n) ds ++ "." ++ str_drop (Z.to_nat n) ds
    else "0." ++ zeros (Z.to_nat (- n)) ++ ds
  else
    let e := (n - 1)%Z in
    let exponentSign := if (e <? 0)%Z then "-" else "+" in
    let mantissa :=
      if (k =? 1)%Z then ds
      else str_take 1 ds ++ "." ++ str_drop 1 ds in
    mantissa ++ "e" ++ exponentSign ++ decimal_of_nat (Z.abs_nat e).

Definition toString (x : jsnumber) : string :=
  match x with
  | NaN => "NaN"
  | Zero => "0"
  | Infinity false => "Infinity"
  | Infinity true => "-Infinity"
  | Finite false s n => toString_pos s n
  | Finite true s n => "-" ++ toString_pos s n
  end.

(** [str.split(sep)] for a one-character separator. *)
Fixpoint split_on (sep : ascii) (s : string) : list string :=
  match s with
  | EmptyString => [""]
  | String c s' =>
      if Ascii.eqb c sep then "" :: split_on sep s'
      else match split_on sep s' with
           | [] => [String c ""]
           | piece :: rest => String c piece :: rest
           end
  end.

(** [s.includes(c)] for a character [c]. *)
Fixpoint has_char (c : ascii) (s : string) : bool :=
  match s with
  | EmptyString => false
  | String c' rest => Ascii.eqb c' c || has_char c rest
  end.

(** ** lib/models/Task.ts *)
Module Task.

Record Task : Type := mkTask {
  id : string;
  title : string;
  completed : bool;
}.

(** [Omit<Task, 'completed'>]. *)
Record Template : Type := mkTemplate {
  template_id : string;
  template_title : string;
}.

Definition DEFAULT_TASKS : list Template :=
  [ mkTemplate "workout" "45 min workout";
    mkTemplate "rawdogging" "10 min rawdogging";
    mkTemplate "reading" "Read 10 pages";
    mkTemplate "water" "Drink 2L water" ].

(** [createTask(id, title, completed = false)]. *)
Definition createTask (id title : string) (completed : option bool) : Task :=
  mkTask id title (default false completed).

Definition createDefaultTasks : list Task :=
  map (fun task => createTask (template_id task) (template_title task) (Some false))
      DEFAULT_TASKS.

(** [{ ...task, completed: c }]. *)
Definition with_completed (c : bool) (task : Task) : Task :=
  mkTask (id task) (title task) c.

(** [{ ...task, title }]. *)
Definition with_title (t : string) (task : Task) : Task :=
  mkTask (id task) t (completed task).

End Task.

(** ** lib/models/Attempt.ts *)
Module Attempt.

Inductive Mood : Type :=
| happy | sad | angry | fearful | strong | excited | calm | tired.

Record Attempt : Type := mkAttempt {
  number : nat;
  timestamp : option string;
  photoUri : option string;
  mood : option Mood;
  weight : option jsnumber;
  tasks : list Task.Task;
  completed : bool;
}.

Definition createAttempt (number : nat) (tasks : list Task.Task) : Attempt :=
  {| number := number;
     timestamp := None;
     photoUri := None;
     mood := None;
     weight := None;
     tasks := map (Task.with_completed false) tasks;
     completed := false |}.

Definition allTasksCompleted (attempt : Attempt) : bool :=
  forallb Task.completed (tasks attempt).

Definition hasMood (attempt : Attempt) : bool :=
  match mood attempt with Some _ => true | None => false end.

Definition hasPhoto (attempt : Attempt) : bool :=
  match photoUri attempt with
  | Some uri => negb (String.eqb uri "")
  | None => false
  end.

Definition hasWeight (attempt : Attempt) : bool :=
  match weight attempt with
  | Some w => gt_zero w
  | None => false
  end.

Definition isAttemptComplete (attempt : Attempt) : bool :=
  allTasksCompleted attempt && hasMood attempt
  && hasPhoto attempt && hasWeight attempt.

(** [completeAttempt]: [{ ...attempt, completed: true, timestamp: now }]. *)
Definition completeAttempt (now : string) (attempt : Attempt) : Attempt :=
  {| number := number attempt;
     timestamp := Some now;
     photoUri := photoUri attempt;
     mood := mood attempt;
     weight := weight attempt;
     tasks := tasks attempt;
     completed := true |}.

(** Object spreads with one field replaced. *)
Definition with_tasks (ts : list Task.Task) (a : Attempt) : Attempt :=
  mkAttempt (number a) (timestamp a) (photoUri a) (mood a) (weight a) ts (completed a).

Definition with_mood (m : option Mood) (a : Attempt) : Attempt :=
  mkAttempt (number a) (timestamp a) (photoUri a) m (weight a) (tasks a) (completed a).

Definition with_weight (w : option jsnumber) (a : Attempt) : Attempt :=
  mkAttempt (number a) (timestamp a) (photoUri a) (mood a) w (tasks a) (completed a).

Definition with_photoUri (p : option string) (a : Attempt) : Attempt :=
  mkAttempt (number a) (timestamp a) p (mood a) (weight a) (tasks a) (completed a).

(** The two assignments [a.completed = c; a.timestamp = t]. *)
Definition with_completion (c : bool) (t : option string) (a : Attempt) : Attempt :=
  mkAttempt (number a) t (photoUri a) (mood a) (weight a) (tasks a) c.

End Attempt.

(** ** lib/models/Day.ts *)
Module Day.
Import Attempt.

Record Day : Type := mkDay {
  index : nat;
  date : string;
  attempts : list Attempt;
}.

Definition createDay (index : nat) (date : string) : Day :=
  let defaultTasks := Task.createDefaultTasks in
  let initialAttempt := createAttempt 1 defaultTasks in
  {| index := index; date := date; attempts := [initialAttempt] |}.

(** [day.attempts[day.attempts.length - 1]].  The function has no [throw]
    and an array read never throws: the call always ends normally. *)
Definition getCurrentAttempt (day : Day) : completion (option Attempt) :=
  Normal (array_get (attempts day) (Z.of_nat (length (attempts day)) - 1)).

Definition isDayCompleted (day : Day) : bool :=
  existsb completed (attempts day).

Definition getCompletedAttempt (day : Day) : option Attempt :=
  find completed (attempts day).

Definition addNewAttempt (day : Day) : Day :=
  let defaultTasks := Task.createDefaultTasks in
  let newAttemptNumber := length (attempts day) + 1 in
  let newAttempt := createAttempt newAttemptNumber defaultTasks in
  {| index := index day;
     date := date day;
     attempts := attempts day ++ [newAttempt] |}.

(** [attempts[attempts.length - 1] = updatedAttempt] on a copy of the
    array. *)
Definition updateCurrentAttempt (day : Day) (updatedAttempt : Attempt) : Day :=
  let attempts :=
    array_set (Z.of_nat (length (attempts day)) - 1) updatedAttempt (attempts day) in
  {| index := index day; date := date day; attempts := attempts |}.

End Day.

(** ** lib/services/ValidationService.ts *)
Module ValidationService.

Record validation : Type := mkValidation {
  isValid : bool;
  error : option string;
  value : option jsnumber;
}.

(** [validateWeight(weight)].  The argument is a number here, as [setWeight]
    passes it; for a number [numericWeight] is [weight] itself
    ([parseFloat] is applied to text only). *)
Definition validateWeight (weight : jsnumber) : validation :=
  let numericWeight := weight in
  if isNaN numericWeight then
    {| isValid := false;
       error := Some "Please enter a valid number";
       value := None |}
  else
    let decimalPlaces :=
      String.length (default "" (split_on "." (toString numericWeight) !! 1%nat)) in
    if (1 <? decimalPlaces)%nat then
      {| isValid := false;
         error := Some "Weight can have at most 1 decimal place";
         value := None |}
    else
      {| isValid := true; error := None; value := Some numericWeight |}.

End ValidationService.

(** ** Dates: instants in milliseconds since the epoch *)
Module Date.
Local Open Scope Z_scope.

Definition MS_PER_DAY : Z := 1000 * 60 * 60 * 24.

(** What the code needs from the local time zone: [d.setHours(0, 0, 0, 0)],
    the instant of a local civil time ([UTC(t)] of ECMA-262) and the local
    civil time of an instant ([LocalTime(t)]). *)
Record TimeZone : Type := mkTimeZone {
  startOfDay : Z -> Z;
  fromLocal : Z -> Z;
  toLocal : Z -> Z;
}.

(** A zone at a constant offset from UTC. *)
Definition fixedZone (offset : Z) : TimeZone :=
  {| startOfDay := fun t => (t + offset) - (t + offset) mod MS_PER_DAY - offset;
     fromLocal := fun civil => civil - offset;
     toLocal := fun t => t + offset |}.

(** [d.setDate(d.getDate() + n)]: the local civil time of [d] moved by [n]
    calendar days, at the same local time of day, read as an instant again
    (ECMA-262, 21.4.4.20: [MakeDate(MakeDay(year, month, date + n),
    TimeWithinDay(t))] for the local time [t], then [UTC]).  The range
    check ([TimeClip]) is left to the reader of the result. *)
Definition addLocalDays (tz : TimeZone) (n : Z) (d : Z) : Z :=
  fromLocal tz (toLocal tz d + n * MS_PER_DAY).

(** Days between 1970-01-01 and a proleptic Gregorian date. *)
Definition days_from_civil (y m d : Z) : Z :=
  let y' := if m <=? 2 then y - 1 else y in
  let era := y' / 400 in
  let yoe := y' - era * 400 in
  let mp := (m + 9) mod 12 in
  let doy := (153 * mp + 2) / 5 + d - 1 in
  let doe := yoe * 365 + yoe / 4 - yoe / 100 + doy in
  era * 146097 + doe - 719468.

Definition civil (y m d hh mm ss ms : Z) : Z :=
  days_from_civil y m d * MS_PER_DAY
  + hh * 3600000 + mm * 60000 + ss * 1000 + ms.

Definition digit (c : ascii) : option Z :=
  let n := Z.of_N (N_of_ascii c) in
  if (48 <=? n) && (n <=? 57) then Some (n - 48) else None.

(** Reads exactly [width] decimal digits. *)
Fixpoint fixed_digits (width : nat) (acc : Z) (s : string) : option (Z * string) :=
  match width with
  | O => Some (acc, s)
  | S width =>
      match s with
      | String c rest =>
          match digit c with
          | Some d => fixed_digits width (acc * 10 + d) rest
          | None => None
          end
      | EmptyString => None
      end
  end.

Definition expect (c : ascii) (s : string) : option string :=
  match s with
  | String c' rest => if Ascii.eqb c c' then Some rest else None
  | EmptyString => None
  end.

(** The zone designator that ends a date-time: none (local time), [Z], or
    [+HH:mm] / [-HH:mm].  The result is the offset from UTC in ms. *)
Definition parse_designator (s : string) : option (option Z) :=
  match s with
  | EmptyString => Some None
  | String "Z" EmptyString => Some (Some 0)
  | String sign rest =>
      if Ascii.eqb sign "+" || Ascii.eqb sign "-" then
        '(hh, rest) ← fixed_digits 2 0 rest;
        rest ← expect ":" rest;
        '(mm, rest) ← fixed_digits 2 0 rest;
        match rest with
        | EmptyString =>
            if (hh <=? 23) && (mm <=? 59) then
              let off := hh * 3600000 + mm * 60000 in
              Some (Some (if Ascii.eqb sign "-" then - off else off))
            else None
        | _ => None
        end
      else None
  end.

(** [HH:mm], [HH:mm:ss] or [HH:mm:ss.sss], then the designator. *)
Definition parse_time (s : string) : option (Z * option Z) :=
  '(hh, rest) ← fixed_digits 2 0 s;
  rest ← expect ":" rest;
  '(mm, rest) ← fixed_digits 2 0 rest;
  '(ss, ms, rest) ←
    match expect ":" rest with
    | Some rest =>
        '(ss, rest) ← fixed_digits 2 0 rest;
        match expect "." rest with
        | Some rest => '(ms, rest) ← fixed_digits 3 0 rest; Some (ss, ms, rest)
        | None => Some (ss, 0, rest)
        end
    | None => Some (0, 0, rest)
    end;
  zone ← parse_designator rest;
  if (hh <=? 23) && (mm <=? 59) && (ss <=? 59) then
    Some (hh * 3600000 + mm * 60000 + ss * 1000 + ms, zone)
  else None.

(** [new Date(text).getTime()] for the date-time string format of ECMA-262
    (four-digit years): [YYYY-MM-DD] is UTC, a date-time without designator
    is local time.  [None] is the invalid date, whose time value is NaN.
    A day number up to 31 is taken in every month and counts on into the
    next one; text in any other format is read as invalid. *)
Definition parse (tz : TimeZone) (text : string) : option Z :=
  '(y, rest) ← fixed_digits 4 0 text;
  rest ← expect "-" rest;
  '(m, rest) ← fixed_digits 2 0 rest;
  rest ← expect "-" rest;
  '(d, rest) ← fixed_digits 2 0 rest;
  if (1 <=? m) && (m <=? 12) && (1 <=? d) && (d <=? 31) then
    let day := days_from_civil y m d * MS_PER_DAY in
    match rest with
    | EmptyString => Some day
    | String "T" rest =>
        '(time, zone) ← parse_time rest;
        match zone with
        | Some offset => Some (day + time - offset)
        | None => Some (fromLocal tz (day + time))
        end
    | _ => None
    end
  else None.

End Date.

(** ** The service computing the time gate (DateService) *)
Module DateService.
Local Open Scope Z_scope.

(** [getMaxUnlockedDay(startDate)] for a [Date] argument; [now] is the
    instant [new Date()] returns. *)
Definition getMaxUnlockedDayFrom (tz : Date.TimeZone) (now : Z) (challengeStartDate : Z) : Z :=
  let startMidnight := Date.startOfDay tz challengeStartDate in
  let currentMidnight := Date.startOfDay tz now in
  let timeDifference := currentMidnight - startMidnight in
  let daysDifference := timeDifference / (1000 * 60 * 60 * 24) in
  let maxUnlockedDay := Z.max 1 (daysDifference + 1) in
  Z.min 75 maxUnlockedDay.

(** [getMaxUnlockedDay(startDate)] for a string argument.  An invalid date
    makes every step NaN, and the result is NaN: [None]. *)
Definition getMaxUnlockedDay (tz : Date.TimeZone) (now : Z) (startDate : string) : option Z :=
  getMaxUnlockedDayFrom tz now <$> Date.parse tz startDate.

(** [dayIndex <= maxUnlockedDay]; a comparison with NaN is false. *)
Definition isDayUnlockedByTime (tz : Date.TimeZone) (now : Z)
    (dayIndex : Z) (startDate : string) : bool :=
  match getMaxUnlockedDay tz now startDate with
  | Some maxUnlockedDay => dayIndex <=? maxUnlockedDay
  | None => false
  end.

(** [getTimeUntilNextUnlock()]: hours, minutes and seconds until the next
    local midnight.  [setDate(getDate() + 1)] moves to the same local time on
    the next calendar day; [%] is the remainder that takes the sign of the
    dividend. *)
Definition getTimeUntilNextUnlock (tz : Date.TimeZone) (now : Z) : Z * Z * Z :=
  let nextMidnight := Date.startOfDay tz (Date.addLocalDays tz 1 now) in
  let timeRemaining := nextMidnight - now in
  let hours := timeRemaining / (1000 * 60 * 60) in
  let minutes := Z.rem timeRemaining (1000 * 60 * 60) / (1000 * 60) in
  let seconds := Z.rem timeRemaining (1000 * 60) / 1000 in
  (hours, minutes, seconds).

(** [isNewDayAvailable(lastCheckDate)] for a [Date] argument. *)
Definition isNewDayAvailable (tz : Date.TimeZone) (now : Z) (lastCheck : Z) : bool :=
  let lastCheckMidnight := Date.startOfDay tz lastCheck in
  let currentMidnight := Date.startOfDay tz now in
  lastCheckMidnight <? currentMidnight.

End DateService.

(** ** [Date.prototype.toISOString] *)
Module IsoString.
Local Open Scope Z_scope.

(** The largest time value of a valid date, in either direction. *)
Definition MAX_TIME : Z := 8640000000000000.

(** The proleptic Gregorian date of a day number (days since 1970-01-01). *)
Definition civil_from_days (z : Z) : Z * Z * Z :=
  let z := z + 719468 in
  let era := z / 146097 in
  let doe := z - era * 146097 in
  let yoe := (doe - doe / 1460 + doe / 36524 - doe / 146096) / 365 in
  let y := yoe + era * 400 in
  let doy := doe - (365 * yoe + yoe / 4 - yoe / 100) in
  let mp := (5 * doy + 2) / 153 in
  let d := doy - (153 * mp + 2) / 5 + 1 in
  let m := if mp <? 10 then mp + 3 else mp - 9 in
  (if m <=? 2 then y + 1 else y, m, d).

Definition digit_char (d : Z) : ascii := ascii_of_N (Z.to_N (48 + d)).

(** The last [width] decimal digits of [v], with leading zeros. *)
Fixpoint padded (width : nat) (v : Z) : string :=
  match width with
  | O => ""
  | S width => (padded width (v / 10) ++ String (digit_char (v mod 10)) "")%string
  end.

(** Four digits for the years 0 to 9999, a sign and six digits otherwise. *)
Definition year_string (y : Z) : string :=
  if (0 <=? y) && (y <=? 9999) then padded 4 y
  else if y <? 0 then ("-" ++ padded 6 (- y))%string
  else ("+" ++ padded 6 y)%string.

Definition date_string (t : Z) : string :=
  let '(y, m, d) := civil_from_days (t / Date.MS_PER_DAY) in
  (year_string y ++ "-" ++ padded 2 m ++ "-" ++ padded 2 d)%string.

Definition time_string (t : Z) : string :=
  let ms := t mod Date.MS_PER_DAY in
  (padded 2 (ms / 3600000) ++ ":" ++ padded 2 (ms / 60000 mod 60) ++ ":"
   ++ padded 2 (ms / 1000 mod 60) ++ "." ++ padded 3 (ms mod 1000))%string.

(** [date.toISOString()] for the date with time value [t]; beyond
    [MAX_TIME] the date is invalid and the call throws a RangeError:
    [None]. *)
Definition toISOString (t : Z) : option string :=
  if (- MAX_TIME <=? t) && (t <=? MAX_TIME) then
    Some (date_string t ++ "T" ++ time_string t ++ "Z")%string
  else None.

End IsoString.

(** ** lib/models/Day.ts, continued: the days of a new challenge *)
Module InitialDays.

(** The body of the loop of [createInitialDays] for the day [i]:
    [dayDate.setDate(startDate.getDate() + (i - 1))] on a copy of the start
    date moves [i - 1] local calendar days on, at the same local time of
    day; the date of the day is the part of the ISO string, which is in UTC,
    before the ['T'].  A date moved out of the range of [Date] is invalid,
    and [toISOString] throws on it. *)
Definition initialDay (tz : Date.TimeZone) (startDate : Z) (i : nat)
    : option Day.Day :=
  let dayDate := Date.addLocalDays tz (Z.of_nat i - 1) startDate in
  iso ← IsoString.toISOString dayDate;
  Some (Day.createDay i (default "" (split_on "T" iso !! 0%nat))).

(** [createInitialDays(startDate)]; [None] when [toISOString] throws. *)
Definition createInitialDays (tz : Date.TimeZone) (startDate : Z)
    : option (list Day.Day) :=
  mapM (initialDay tz startDate) (seq 1 75).

End InitialDays.

(** ** Values produced by [JSON.parse] *)
Module Json.

(** An object lists its properties as the parser leaves them: one binding
    per key. *)
Inductive json : Type :=
| JNull
| JBool (b : bool)
| JNum (x : jsnumber)
| JStr (s : string)
| JArr (items : list json)
| JObj (fields : list (string * json)).

Fixpoint assoc (key : string) (fields : list (string * json)) : option json :=
  match fields with
  | [] => None
  | (k, v) :: rest => if String.eqb k key then Some v else assoc key rest
  end.

(** [value.key] for the property names the code reads ([version],
    [exportDate], [challengeData], [startDate], [days], [currentDayIndex] and
    the fields of the model): only an object has them; on any other non-null
    value the access yields [undefined], which is [None]. *)
Definition get (key : string) (value : json) : option json :=
  match value with
  | JObj fields => assoc key fields
  | _ => None
  end.

(** [!value]. *)
Definition falsy (value : option json) : bool :=
  match value with
  | None | Some JNull => true
  | Some (JBool b) => negb b
  | Some (JNum x) => match x with Zero | NaN => true | _ => false end
  | Some (JStr s) => String.eqb s ""
  | Some (JArr _) | Some (JObj _) => false
  end.

(** [typeof value === 'number'] and [typeof value === 'string']. *)
Definition is_number (value : option json) : bool :=
  match value with Some (JNum _) => true | _ => false end.

Definition is_string (value : option json) : bool :=
  match value with Some (JStr _) => true | _ => false end.

(** [Array.isArray(value)]. *)
Definition isArray (value : option json) : bool :=
  match value with Some (JArr _) => true | _ => false end.

(** A number that is a natural number. *)
Definition nat_of_number (x : jsnumber) : option nat :=
  match x with
  | Zero => Some O
  | Finite false s n =>
      let k := Z.of_nat (String.length (digits s)) in
      if (k <=? n)%Z then Some (Pos.to_nat s * 10 ^ Z.to_nat (n - k))%nat
      else None
  | _ => None
  end.

Definition as_nat (value : option json) : option nat :=
  match value with Some (JNum x) => nat_of_number x | _ => None end.

Definition as_string (value : option json) : option string :=
  match value with Some (JStr s) => Some s | _ => None end.

Definition as_bool (value : option json) : option bool :=
  match value with Some (JBool b) => Some b | _ => None end.

Definition as_array (value : option json) : option (list json) :=
  match value with Some (JArr items) => Some items | _ => None end.

(** An optional field: absent, or of the expected type. *)
Definition optional {A : Type} (read : option json -> option A)
    (value : option json) : option (option A) :=
  match value with
  | None => Some None
  | Some _ => Some <$> read value
  end.

(** A field that is [null] or of the expected type. *)
Definition nullable {A : Type} (read : option json -> option A)
    (value : option json) : option (option A) :=
  match value with
  | Some JNull => Some None
  | _ => Some <$> read value
  end.

End Json.

(** ** The service owning the persisted challenge (StorageService), with the
       key-value store it writes to *)
Module StorageService.
Import Json.

Definition CHALLENGE_DATA : string := "75hard_state_v1".
Definition CHALLENGE_START_DATE : string := "75hard_start_date_v1".
Definition WEIGHT_UNIT_PREFERENCE : string := "75hard_weight_unit_v1".

Record ChallengeData : Type := mkChallengeData {
  version : nat;
  startDate : string;
  days : list Day.Day;
  currentDayIndex : nat;
}.

Definition CURRENT_VERSION : nat := 1.

Inductive WeightUnit : Type := lbs | kg.

(** The text stored under a key, kept as the value it is the JSON text of:
    [JSON.stringify] of a challenge record, [JSON.stringify] of the challenge
    of an imported payload, or the bare unit name. *)
Inductive blob : Type :=
| BChallenge (challengeData : ChallengeData)
| BImported (payload : json)
| BUnit (unit : WeightUnit).

(** AsyncStorage: the items, and the journal of the writes made so far
    (latest last).  Storage failures are not modelled: every call
    succeeds. *)
Inductive write : Type :=
| SetItem (key : string) (value : blob)
| RemoveItem (key : string).

Record storage : Type := mkStorage {
  items : gmap string blob;
  journal : list write;
}.

Definition getItem (key : string) (st : storage) : option blob :=
  items st !! key.

Definition setItem (key : string) (value : blob) (st : storage) : storage :=
  {| items := <[ key := value ]> (items st);
     journal := journal st ++ [SetItem key value] |}.

Definition removeItem (key : string) (st : storage) : storage :=
  {| items := delete key (items st);
     journal := journal st ++ [RemoveItem key] |}.

(** *** Reading a stored text back: [JSON.parse(data) as ChallengeData] *)

Definition mood_of_string (s : string) : option Attempt.Mood :=
  if String.eqb s "happy" then Some Attempt.happy
  else if String.eqb s "sad" then Some Attempt.sad
  else if String.eqb s "angry" then Some Attempt.angry
  else if String.eqb s "fearful" then Some Attempt.fearful
  else if String.eqb s "strong" then Some Attempt.strong
  else if String.eqb s "excited" then Some Attempt.excited
  else if String.eqb s "calm" then Some Attempt.calm
  else if String.eqb s "tired" then Some Attempt.tired
  else None.

Definition as_mood (value : option json) : option Attempt.Mood :=
  as_string value ≫= mood_of_string.

(** A number as a JSON text holds it: [JSON.stringify] writes a number that
    is not finite as [null]. *)
Definition stored_number (x : jsnumber) : option jsnumber :=
  match x with
  | NaN | Infinity _ => None
  | Zero | Finite _ _ _ => Some x
  end.

(** The weight of an attempt read from a JSON text: absent, [null] or a
    number.  A weight that is [null] is [None] here, as one that is absent:
    the program tests a weight by [weight !== undefined && weight > 0],
    [weight && weight > 0] and [weight || ...] only, which answer alike for
    [null] and [undefined], and [JSON.stringify] writes [null] as it is. *)
Definition as_weight (value : option json) : option (option jsnumber) :=
  match value with
  | None | Some JNull => Some None
  | Some (JNum x) => Some (stored_number x)
  | Some _ => None
  end.

Definition as_task (value : json) : option Task.Task :=
  id ← as_string (get "id" value);
  title ← as_string (get "title" value);
  completed ← as_bool (get "completed" value);
  Some (Task.mkTask id title completed).

Definition as_attempt (value : json) : option Attempt.Attempt :=
  number ← as_nat (get "number" value);
  timestamp ← nullable as_string (get "timestamp" value);
  photoUri ← optional as_string (get "photoUri" value);
  mood ← optional as_mood (get "mood" value);
  weight ← as_weight (get "weight" value);
  tasks ← as_array (get "tasks" value) ≫= mapM as_task;
  completed ← as_bool (get "completed" value);
  Some (Attempt.mkAttempt number timestamp photoUri mood weight tasks completed).

Definition as_day (value : json) : option Day.Day :=
  index ← as_nat (get "index" value);
  date ← as_string (get "date" value);
  attempts ← as_array (get "attempts" value) ≫= mapM as_attempt;
  Some (Day.mkDay index date attempts).

(** The typed view of an untyped payload.  The cast itself checks nothing;
    a payload that is not a challenge record has no counterpart among the
    typed records and is read as [None]. *)
Definition as_challengeData (value : json) : option ChallengeData :=
  version ← as_nat (get "version" value);
  startDate ← as_string (get "startDate" value);
  days ← as_array (get "days" value) ≫= mapM as_day;
  currentDayIndex ← as_nat (get "currentDayIndex" value);
  Some (mkChallengeData version startDate days currentDayIndex).

(** What [JSON.parse(JSON.stringify(x))] makes of a record of the model:
    every field comes back as it was, except a weight that is not a finite
    number, which comes back as [null]. *)
Definition reread_attempt (attempt : Attempt.Attempt) : Attempt.Attempt :=
  Attempt.with_weight (Attempt.weight attempt ≫= stored_number) attempt.

Definition reread_day (day : Day.Day) : Day.Day :=
  Day.mkDay (Day.index day) (Day.date day) (map reread_attempt (Day.attempts day)).

Definition reread (challengeData : ChallengeData) : ChallengeData :=
  mkChallengeData (version challengeData) (startDate challengeData)
                  (map reread_day (days challengeData))
                  (currentDayIndex challengeData).

(** [JSON.parse(data)] of a stored text; [None] when it throws (the unit
    name is no JSON text).  The text of an imported payload that is not a
    challenge record parses to an object that no typed record stands for;
    it is read as [None] as well, so for such a store a load is [null] here
    where the code goes on with that object. *)
Definition JSON_parse (data : blob) : option ChallengeData :=
  match data with
  | BChallenge challengeData => Some (reread challengeData)
  | BImported payload => as_challengeData payload
  | BUnit _ => None
  end.

(** *** The service *)

Definition saveChallengeData (challengeData : ChallengeData) (st : storage) : storage :=
  setItem CHALLENGE_DATA (BChallenge challengeData) st.

(** [saveChallengeData] applied to the challenge of an imported payload. *)
Definition saveImportedChallengeData (payload : json) (st : storage) : storage :=
  setItem CHALLENGE_DATA (BImported payload) st.

Definition migrateData (oldData : ChallengeData) (st : storage)
    : ChallengeData * storage :=
  let migratedData :=
    {| version := CURRENT_VERSION;
       startDate := startDate oldData;
       days := days oldData;
       currentDayIndex := currentDayIndex oldData |} in
  (migratedData, saveChallengeData migratedData st).

Definition loadChallengeData (st : storage) : option ChallengeData * storage :=
  match getItem CHALLENGE_DATA st with
  | None => (None, st)
  | Some data =>
      match JSON_parse data with
      | None => (None, st)
      | Some challengeData =>
          if negb (version challengeData =? CURRENT_VERSION)%nat then
            let '(migrated, st) := migrateData challengeData st in
            (Some migrated, st)
          else (Some challengeData, st)
      end
  end.

Definition getDays (st : storage) : option (list Day.Day) * storage :=
  let '(challengeData, st) := loadChallengeData st in
  (days <$> challengeData, st).

Definition with_days (ds : list Day.Day) (challengeData : ChallengeData) : ChallengeData :=
  {| version := version challengeData;
     startDate := startDate challengeData;
     days := ds;
     currentDayIndex := currentDayIndex challengeData |}.

Definition saveDays (ds : list Day.Day) (st : storage) : storage :=
  let '(challengeData, st) := loadChallengeData st in
  match challengeData with
  | Some challengeData => saveChallengeData (with_days ds challengeData) st
  | None => st
  end.

Definition updateDay (challengeData : ChallengeData) (updatedDay : Day.Day)
    (st : storage) : ChallengeData * storage :=
  let updatedDays :=
    map (fun day => if (Day.index day =? Day.index updatedDay)%nat
                    then updatedDay else day)
        (days challengeData) in
  let updatedChallengeData := with_days updatedDays challengeData in
  (updatedChallengeData, saveChallengeData updatedChallengeData st).

Definition updateDays (challengeData : ChallengeData) (updatedDays : list Day.Day)
    (st : storage) : ChallengeData * storage :=
  let updatedChallengeData := with_days updatedDays challengeData in
  (updatedChallengeData, saveChallengeData updatedChallengeData st).

Definition updateCurrentDayIndex (challengeData : ChallengeData) (newIndex : nat)
    (st : storage) : ChallengeData * storage :=
  let updatedChallengeData :=
    {| version := version challengeData;
       startDate := startDate challengeData;
       days := days challengeData;
       currentDayIndex := Nat.max 1 (Nat.min 75 newIndex) |} in
  (updatedChallengeData, saveChallengeData updatedChallengeData st).

Definition clearChallengeData (st : storage) : storage :=
  removeItem CHALLENGE_START_DATE (removeItem CHALLENGE_DATA st).

Definition isChallengeInitialized (st : storage) : bool * storage :=
  let '(data, st) := loadChallengeData st in
  (bool_decide (is_Some data), st).

Definition saveWeightUnitPreference (unit : WeightUnit) (st : storage) : storage :=
  setItem WEIGHT_UNIT_PREFERENCE (BUnit unit) st.

Definition loadWeightUnitPreference (st : storage) : WeightUnit :=
  match getItem WEIGHT_UNIT_PREFERENCE st with
  | Some (BUnit unit) => unit
  | _ => lbs
  end.

(** [initializeChallenge(startDate)]; [None] when building the days or the
    start date string throws. *)
Definition initializeChallenge (tz : Date.TimeZone) (startDate : Z) (st : storage)
    : option (ChallengeData * storage) :=
  days ← InitialDays.createInitialDays tz startDate;
  startDate ← IsoString.toISOString startDate;
  let challengeData :=
    {| version := CURRENT_VERSION;
       startDate := startDate;
       days := days;
       currentDayIndex := 1 |} in
  Some (challengeData, saveChallengeData challengeData st).

End StorageService.

(** ** contexts/AppContext.tsx *)
Module AppContext.

Record AppState : Type := mkAppState {
  days : list Day.Day;
  currentDayIndex : nat;
  startDate : option string;
  isLoading : bool;
  error : option string;
}.

Inductive AppAction : Type :=
| SET_LOADING (payload : bool)
| SET_ERROR (payload : option string)
| LOAD_DAYS_SUCCESS (payload : list Day.Day)
| UPDATE_DAY (dayIndex : nat) (day : Day.Day)
| SET_CURRENT_DAY (payload : nat)
| SET_START_DATE (payload : string).

Definition initialState : AppState :=
  {| days := []; currentDayIndex := 0; startDate := None;
     isLoading := true; error := None |}.

Definition appReducer (state : AppState) (action : AppAction) : AppState :=
  match action with
  | SET_LOADING payload =>
      mkAppState (days state) (currentDayIndex state) (startDate state)
                 payload (error state)
  | SET_ERROR payload =>
      mkAppState (days state) (currentDayIndex state) (startDate state)
                 false payload
  | LOAD_DAYS_SUCCESS payload =>
      mkAppState payload (currentDayIndex state) (startDate state) false None
  | UPDATE_DAY dayIndex day =>
      let updatedDays := array_set (Z.of_nat dayIndex) day (days state) in
      mkAppState updatedDays (currentDayIndex state) (startDate state)
                 (isLoading state) (error state)
  | SET_CURRENT_DAY payload =>
      mkAppState (days state) payload (startDate state)
                 (isLoading state) (error state)
  | SET_START_DATE payload =>
      mkAppState (days state) (currentDayIndex state) (Some payload)
                 (isLoading state) (error state)
  end.

(** The provider: the reducer state and the store behind it. *)
Record world : Type := mkWorld {
  app : AppState;
  disk : StorageService.storage;
}.

Definition dispatch (action : AppAction) (w : world) : world :=
  {| app := appReducer (app w) action; disk := disk w |}.

Definition updateDay (dayIndex : nat) (day : Day.Day) (w : world) : world :=
  let w := dispatch (UPDATE_DAY dayIndex day) w in
  let '(challengeData, st) := StorageService.loadChallengeData (disk w) in
  match challengeData with
  | Some challengeData =>
      {| app := app w; disk := snd (StorageService.updateDay challengeData day st) |}
  | None => {| app := app w; disk := st |}
  end.

(** [days.forEach((day, index) => dispatch(UPDATE_DAY index day))]. *)
Fixpoint dispatchEach (index : nat) (ds : list Day.Day) (w : world) : world :=
  match ds with
  | [] => w
  | day :: rest => dispatchEach (S index) rest (dispatch (UPDATE_DAY index day) w)
  end.

Definition updateDays (ds : list Day.Day) (w : world) : world :=
  let w := dispatchEach 0 ds w in
  let '(challengeData, st) := StorageService.loadChallengeData (disk w) in
  match challengeData with
  | Some challengeData =>
      {| app := app w; disk := snd (StorageService.updateDays challengeData ds st) |}
  | None => {| app := app w; disk := st |}
  end.

Definition setCurrentDay (dayIndex : nat) (w : world) : world :=
  dispatch (SET_CURRENT_DAY dayIndex) w.

Definition getCurrentDay (state : AppState) : option Day.Day :=
  days state !! currentDayIndex state.

Definition getCompletedDaysCount (state : AppState) : nat :=
  length (List.filter Day.isDayCompleted (days state)).

Fixpoint streak (ds : list Day.Day) : nat :=
  match ds with
  | day :: rest => if Day.isDayCompleted day then S (streak rest) else 0
  | [] => 0
  end.

Definition getStreakCount (state : AppState) : nat := streak (days state).

(** The three dispatches that show a challenge record.  The state holds the
    0-based [currentDayIndex - 1]; for a stored index of 0 that is -1, which
    the state of this development has no value for: [None]. *)
Definition showChallenge (challengeData : StorageService.ChallengeData)
    (w : world) : option world :=
  if (StorageService.currentDayIndex challengeData =? 0)%nat then None
  else
    Some (dispatch (SET_START_DATE (StorageService.startDate challengeData))
            (dispatch (SET_CURRENT_DAY (StorageService.currentDayIndex challengeData - 1))
               (dispatch (LOAD_DAYS_SUCCESS (StorageService.days challengeData)) w))).

(** [loadDays()]; [now] is the instant [new Date()] returns. *)
Definition loadDays (tz : Date.TimeZone) (now : Z) (w : world) : option world :=
  let w := dispatch (SET_LOADING true) w in
  let '(isInitialized, st) := StorageService.isChallengeInitialized (disk w) in
  if isInitialized then
    let '(challengeData, st) := StorageService.loadChallengeData st in
    match challengeData with
    | Some challengeData => showChallenge challengeData {| app := app w; disk := st |}
    | None => Some {| app := app w; disk := st |}
    end
  else
    match StorageService.initializeChallenge tz now st with
    | Some (challengeData, st) => showChallenge challengeData {| app := app w; disk := st |}
    | None => Some (dispatch (SET_ERROR (Some "Failed to load days"))
                      {| app := app w; disk := st |})
    end.

(** [resetChallenge()]. *)
Definition resetChallenge (tz : Date.TimeZone) (now : Z) (w : world) : option world :=
  let w := dispatch (SET_LOADING true) w in
  let st := StorageService.clearChallengeData (disk w) in
  match StorageService.initializeChallenge tz now st with
  | Some (challengeData, st) => showChallenge challengeData {| app := app w; disk := st |}
  | None => Some (dispatch (SET_ERROR (Some "Failed to reset challenge"))
                    {| app := app w; disk := st |})
  end.

End AppContext.

(** ** hooks/useDay.ts *)
Module UseDay.
Import Attempt.

(** What a call of a hook function does: nothing ([if (!day) return], a
    rejected weight, an unmet completion), one [actions.updateDay(dayIndex,
    updatedDay)], or a throw. *)
Inductive outcome : Type :=
| Skipped
| Updated (updatedDay : Day.Day)
| Threw (e : js_error).

(** The common frame of the field updates: read the current attempt (a
    property read on [undefined] throws a TypeError), compute the updated
    attempt, put it back. *)
Definition onCurrentAttempt (day : option Day.Day)
    (update : Attempt -> option Attempt) : outcome :=
  match day with
  | None => Skipped
  | Some day =>
      match Day.getCurrentAttempt day with
      | Normal (Some currentAttempt) =>
          match update currentAttempt with
          | Some updatedAttempt => Updated (Day.updateCurrentAttempt day updatedAttempt)
          | None => Skipped
          end
      | Normal None => Threw TypeError
      | Throw e => Threw e
      end
  end.


(** The body of [toggleTask] between reading the attempt and writing it
    back. *)
Definition toggleTaskAttempt (taskId : string) (currentAttempt : Attempt) : Attempt :=
  let updatedTasks :=
    map (fun task => if String.eqb (Task.id task) taskId
                     then Task.with_completed (negb (Task.completed task)) task
                     else task)
        (tasks currentAttempt) in
  let updatedAttempt := with_tasks updatedTasks currentAttempt in
  let shouldBeCompleted := isAttemptComplete updatedAttempt in
  with_completion shouldBeCompleted
    (if shouldBeCompleted then timestamp updatedAttempt else None)
    updatedAttempt.

(** The object literal shared by [setMood], [setWeight] and the three
    [clear] functions: [changed] is [{ ...currentAttempt, field }]. *)
Definition keepOrUnmark (currentAttempt changed : Attempt) : Attempt :=
  with_completion
    (if completed currentAttempt && isAttemptComplete changed
     then completed currentAttempt else false)
    (if completed currentAttempt && isAttemptComplete changed
     then timestamp currentAttempt else None)
    changed.

(** [if (isAttemptComplete(a) && !a.completed) { a.completed = true;
    a.timestamp = now }]. *)
Definition markIfComplete (now : string) (updatedAttempt : Attempt) : Attempt :=
  if isAttemptComplete updatedAttempt && negb (completed updatedAttempt)
  then with_completion true (Some now) updatedAttempt
  else updatedAttempt.

Definition setMoodAttempt (now : string) (m : Mood) (currentAttempt : Attempt) : Attempt :=
  markIfComplete now (keepOrUnmark currentAttempt (with_mood (Some m) currentAttempt)).

Definition setWeightAttempt (now : string) (w : jsnumber) (currentAttempt : Attempt) : Attempt :=
  markIfComplete now (keepOrUnmark currentAttempt (with_weight (Some w) currentAttempt)).

Definition setPhotoAttempt (now : string) (uri : string) (currentAttempt : Attempt) : Attempt :=
  markIfComplete now (with_photoUri (Some uri) currentAttempt).

Definition clearMoodAttempt (currentAttempt : Attempt) : Attempt :=
  keepOrUnmark currentAttempt (with_mood None currentAttempt).

Definition clearWeightAttempt (currentAttempt : Attempt) : Attempt :=
  keepOrUnmark currentAttempt (with_weight None currentAttempt).

Definition clearPhotoAttempt (currentAttempt : Attempt) : Attempt :=
  keepOrUnmark currentAttempt (with_photoUri None currentAttempt).

(** The hook functions; [day] is [state.days[dayIndex]]. *)
Definition toggleTask (day : option Day.Day) (taskId : string) : outcome :=
  onCurrentAttempt day (fun a => Some (toggleTaskAttempt taskId a)).

Definition setMood (now : string) (day : option Day.Day) (m : Mood) : outcome :=
  onCurrentAttempt day (fun a => Some (setMoodAttempt now m a)).

(** [setWeight] returns [false] without touching anything when the
    validation fails: [Skipped]. *)
Definition setWeight (now : string) (day : option Day.Day) (w : jsnumber) : outcome :=
  match day with
  | None => Skipped
  | Some _ =>
      let validation := ValidationService.validateWeight w in
      if negb (ValidationService.isValid validation) then Skipped
      else onCurrentAttempt day (fun a => Some (setWeightAttempt now w a))
  end.

Definition setPhoto (now : string) (day : option Day.Day) (uri : string) : outcome :=
  onCurrentAttempt day (fun a => Some (setPhotoAttempt now uri a)).

Definition clearMood (day : option Day.Day) : outcome :=
  onCurrentAttempt day (fun a => Some (clearMoodAttempt a)).

Definition clearWeight (day : option Day.Day) : outcome :=
  onCurrentAttempt day (fun a => Some (clearWeightAttempt a)).

Definition clearPhoto (day : option Day.Day) : outcome :=
  onCurrentAttempt day (fun a => Some (clearPhotoAttempt a)).

Definition completeCurrentAttempt (now : string) (day : option Day.Day) : outcome :=
  onCurrentAttempt day (fun currentAttempt =>
    if negb (isAttemptComplete currentAttempt) then None
    else Some (completeAttempt now currentAttempt)).

Definition startNewAttempt (day : option Day.Day) : outcome :=
  match day with
  | None => Skipped
  | Some day => Updated (Day.addNewAttempt day)
  end.

(** The effect of an outcome on the provider. *)
Definition commit (dayIndex : nat) (o : outcome) (w : AppContext.world)
    : completion AppContext.world :=
  match o with
  | Skipped => Normal w
  | Updated updatedDay => Normal (AppContext.updateDay dayIndex updatedDay w)
  | Threw e => Throw e
  end.

(** [getCurrentAttemptData()]: null without a day. *)
Definition getCurrentAttemptData (day : option Day.Day) : completion (option Attempt) :=
  match day with
  | None => Normal None
  | Some day => Day.getCurrentAttempt day
  end.


End UseDay.

(** ** The main screen: bulk task revision and day navigation *)
Module MainScreen.
Import AppContext.

(** White space as [String.prototype.trim] strips it, among the code units
    below 256 that a [string] of this development is made of. *)
Definition is_white_space (c : ascii) : bool :=
  let n := N_of_ascii c in
  ((9 <=? n) && (n <=? 13) || (n =? 32) || (n =? 160))%N.

Fixpoint trim_start (s : string) : string :=
  match s with
  | String c rest => if is_white_space c then trim_start rest else s
  | EmptyString => EmptyString
  end.

Fixpoint str_rev (acc s : string) : string :=
  match s with
  | String c rest => str_rev (String c acc) rest
  | EmptyString => acc
  end.

Definition trim (s : string) : string :=
  str_rev "" (trim_start (str_rev "" (trim_start s))).

(** [editableTasks.filter(task => task.title.trim() !== '')]. *)
Definition validTasksOf (editableTasks : list Task.Task) : list Task.Task :=
  List.filter (fun task => negb (String.eqb (trim (Task.title task)) ""))
              editableTasks.

(** The new task list of an attempt: the template, each task with the
    completion flag of the existing task of the same id, if any. *)
Definition rebuildTasks (validTasks : list Task.Task)
    (currentAttempt : Attempt.Attempt) : list Task.Task :=
  map (fun newTask =>
         let existingTask :=
           find (fun t => String.eqb (Task.id t) (Task.id newTask))
                (Attempt.tasks currentAttempt) in
         Task.with_completed
           (match existingTask with
            | Some t => Task.completed t
            | None => false
            end)
           newTask)
      validTasks.

(** The callback of [state.days.map((day, index) => ...)] in [saveTasks]. *)
Definition reviseDay (validTasks : list Task.Task) (currentDayIndex : nat)
    (index : nat) (day : Day.Day) : completion Day.Day :=
  let isCompletedDay := Day.isDayCompleted day in
  let isFutureDay := (currentDayIndex <? index)%nat in
  if negb isCompletedDay || isFutureDay then
    match Day.getCurrentAttempt day with
    | Normal (Some currentAttempt) =>
        let updatedTasks := rebuildTasks validTasks currentAttempt in
        let updatedAttempt := Attempt.with_tasks updatedTasks currentAttempt in
        Normal (Day.updateCurrentAttempt day updatedAttempt)
    | Normal None => Throw TypeError
    | Throw e => Throw e
    end
  else Normal day.

(** [days.map(callback)] where the callback may throw. *)
Fixpoint mapWithIndex {A B : Type} (f : nat -> A -> completion B)
    (index : nat) (l : list A) : completion (list B) :=
  match l with
  | [] => Normal []
  | x :: rest =>
      match f index x with
      | Throw e => Throw e
      | Normal y =>
          match mapWithIndex f (S index) rest with
          | Throw e => Throw e
          | Normal ys => Normal (y :: ys)
          end
      end
  end.

Inductive saveTasksResult : Type :=
| AlertNoTask        (* 'Please add at least one task.' *)
| TasksSaved         (* the confirmation modal is shown *)
| AlertSaveFailed.   (* 'Failed to save task modifications.' *)

Definition saveTasks (editableTasks : list Task.Task) (w : world)
    : saveTasksResult * world :=
  let validTasks := validTasksOf editableTasks in
  if (length validTasks =? 0)%nat then (AlertNoTask, w)
  else
    match mapWithIndex (reviseDay validTasks (currentDayIndex (app w))) 0
                       (days (app w)) with
    | Normal updatedDays => (TasksSaved, updateDays updatedDays w)
    | Throw _ => (AlertSaveFailed, w)
    end.

(** [handleDayPress(dayIndex)]; [dayIndex] is 0-based. *)
Definition canNavigate (tz : Date.TimeZone) (now : Z) (state : AppState)
    (dayIndex : nat) : bool :=
  match startDate state with
  | None => false
  | Some startDate =>
      let isUnlockedByTime :=
        DateService.isDayUnlockedByTime tz now (Z.of_nat dayIndex + 1) startDate in
      let allPreviousDaysCompleted :=
        forallb Day.isDayCompleted (take dayIndex (days state)) in
      negb (negb isUnlockedByTime || negb allPreviousDaysCompleted)
  end.

Definition handleDayPress (tz : Date.TimeZone) (now : Z) (dayIndex : nat)
    (w : world) : world :=
  if canNavigate tz now (app w) dayIndex then setCurrentDay dayIndex w else w.

(** [removeTask(taskId)] and [updateTaskTitle(taskId, title)] on the list
    being edited. *)
Definition removeTask (taskId : string) (editableTasks : list Task.Task)
    : list Task.Task :=
  List.filter (fun task => negb (String.eqb (Task.id task) taskId)) editableTasks.

Definition updateTaskTitle (taskId title : string) (editableTasks : list Task.Task)
    : list Task.Task :=
  map (fun task => if String.eqb (Task.id task) taskId
                   then Task.with_title title task else task)
      editableTasks.

(** [addTask()]; [now] is [Date.now()], printed in decimal in the id. *)
Definition addTask (now : N) (editableTasks : list Task.Task) : list Task.Task :=
  let newTask :=
    Task.mkTask ("task-" ++ NilZero.string_of_uint (N.to_uint now))%string "" false in
  editableTasks ++ [newTask].

(** [l.find((x, index) => p index x)]. *)
Fixpoint findWithIndex {A : Type} (p : nat -> A -> bool) (index : nat)
    (l : list A) : option A :=
  match l with
  | [] => None
  | x :: rest => if p index x then Some x else findWithIndex p (S index) rest
  end.

(** The task list [openModifyTasksModal] puts into the editor: the tasks of
    the first attempt of the first day after the current one; without such a
    day or attempt, those of the current attempt of the current day; else
    none. *)
Definition openModifyTasksModal (state : AppState) : list Task.Task :=
  let futureDay :=
    findWithIndex (fun index _ => (currentDayIndex state <? index)%nat) 0 (days state) in
  match futureDay ≫= (fun day => head (Day.attempts day)) with
  | Some firstAttempt => Attempt.tasks firstAttempt
  | None =>
      match UseDay.getCurrentAttemptData (days state !! currentDayIndex state) with
      | Normal (Some currentAttempt) => Attempt.tasks currentAttempt
      | _ => []
      end
  end.


End MainScreen.

(** ** lib/services/DataService.ts: import of a backup *)
Module DataService.
Import Json.

Record validationResult : Type := mkValidationResult {
  isValid : bool;
  message : string;
}.

Definition validateImportData (data : json) : validationResult :=
  if falsy (Some data) then
    mkValidationResult false "File is empty or corrupted."
  else if negb (is_number (get "version" data)) then
    mkValidationResult false "Invalid file format: missing version."
  else if falsy (get "exportDate" data) || negb (is_string (get "exportDate" data)) then
    mkValidationResult false "Invalid file format: missing export date."
  else if falsy (get "challengeData" data) then
    mkValidationResult false "Invalid file format: missing challenge data."
  else
    let challengeData := get "challengeData" data in
    let field key := challengeData ≫= get key in
    if negb (is_number (field "version"))
       || falsy (field "startDate")
       || negb (isArray (field "days"))
       || negb (is_number (field "currentDayIndex")) then
      mkValidationResult false "Invalid file format: corrupted challenge data."
    else
      match field "days" with
      | Some (JArr days) =>
          if negb (length days =? 75)%nat then
            mkValidationResult false "Invalid file format: incorrect number of days."
          else mkValidationResult true "Valid import data."
      | _ => mkValidationResult false "Invalid file format: corrupted challenge data."
      end.

(** What reading and parsing the picked file gives. *)
Inductive fileContent : Type :=
| Unreadable          (* [file.text()] throws *)
| NotJson             (* [JSON.parse] throws *)
| Parsed (importData : json).

Record importResult : Type := mkImportResult {
  success : bool;
  result_message : string;
}.

(** [importData(fileUri)]; [confirmed] is the button pressed in the
    confirmation dialog, which is shown only after a successful
    validation. *)
Definition importData (file : fileContent) (confirmed : bool)
    (st : StorageService.storage) : importResult * StorageService.storage :=
  match file with
  | Unreadable =>
      (* 'Import failed: ' followed by the message of the error *)
      (mkImportResult false "Import failed", st)
  | NotJson =>
      (mkImportResult false
         "Invalid file format. Please select a valid 75 Hard backup file.", st)
  | Parsed importData =>
      let validationResult := validateImportData importData in
      if negb (isValid validationResult) then
        (mkImportResult false (message validationResult), st)
      else if confirmed then
        let st := StorageService.clearChallengeData st in
        let st :=
          match get "challengeData" importData with
          | Some challengeData =>
              StorageService.saveImportedChallengeData challengeData st
          | None => st
          end in
        (mkImportResult true
           "Data imported successfully! The app will refresh with your imported data.",
         st)
      else (mkImportResult false "Import cancelled by user.", st)
  end.

End DataService.

(** ** Vocabulary of the specification *)
Module Spec.

(** The rational a zero or finite number stands for. *)
Definition value_of (x : jsnumber) : option Q :=
  match x with
  | Zero => Some 0%Q
  | Finite neg s n =>
      let k := Z.of_nat (String.length (digits s)) in
      let magnitude := (inject_Z (Z.pos s) * 10 ^ (n - k))%Q in
      Some (if neg then - magnitude else magnitude)%Q
  | NaN | Infinity _ => None
  end.

(** Strictly greater than zero: positive infinity, or a positive value. *)
Definition greater_than_zero (x : jsnumber) : Prop :=
  x = Infinity false \/ exists q, value_of x = Some q /\ (0 < q)%Q.

(** The significand of a number in canonical form does not end in 0. *)
Definition canonical (s : positive) : Prop := (Z.pos s mod 10 <> 0)%Z.

(** The digits after the point when [s * 10^(n - k)] is written without an
    exponent. *)
Definition fraction_digits (s : positive) (n : Z) : Z :=
  Z.max 0 (Z.of_nat (String.length (digits s)) - n).

(** At most one decimal place: ten times the value is an integer. *)
Definition at_most_one_decimal (x : jsnumber) : Prop :=
  exists q (z : Z), value_of x = Some q /\ (q * 10 == inject_Z z)%Q.

(** The four requirement categories of an attempt. *)
Definition every_task_completed (a : Attempt.Attempt) : Prop :=
  Forall (fun task => Task.completed task = true) (Attempt.tasks a).

Definition mood_set (a : Attempt.Attempt) : Prop :=
  Attempt.mood a <> None.

Definition photo_set (a : Attempt.Attempt) : Prop :=
  exists uri, Attempt.photoUri a = Some uri /\ uri <> "".

Definition weight_positive (a : Attempt.Attempt) : Prop :=
  exists w, Attempt.weight a = Some w /\ greater_than_zero w.

(** A number that a JSON text holds: zero or a finite number. *)
Definition finite (x : jsnumber) : Prop := exists q, value_of x = Some q.

(** Every weight entered on the day is a number that a JSON text holds. *)
Definition storable (day : Day.Day) : Prop :=
  forall a w, In a (Day.attempts day) -> Attempt.weight a = Some w -> finite w.

(** The timestamp is non-null iff the attempt is marked completed. *)
Definition stamped (a : Attempt.Attempt) : Prop :=
  Attempt.timestamp a <> None <-> Attempt.completed a = true.

(** A task of a rebuilt list answers a task of the template: same id and
    title; completed as the first task of that id in the old list, and not
    completed when the old list has none. *)
Definition carried_over (old : list Task.Task) (template rebuilt : Task.Task) : Prop :=
  Task.id rebuilt = Task.id template
  /\ Task.title rebuilt = Task.title template
  /\ (forall before o after,
        old = (before ++ o :: after)%list ->
        Task.id o = Task.id template ->
        (forall p, In p before -> Task.id p <> Task.id template) ->
        Task.completed rebuilt = Task.completed o)
  /\ ((forall o, In o old -> Task.id o <> Task.id template) ->
      Task.completed rebuilt = false).

(** A day after the revision: everything as before except the task list of
    the current (last) attempt, rebuilt from the template. *)
Definition revised (template : list Task.Task) (day day' : Day.Day) : Prop :=
  Day.index day' = Day.index day
  /\ Day.date day' = Day.date day
  /\ exists earlier current current',
       Day.attempts day = (earlier ++ [current])%list
       /\ Day.attempts day' = (earlier ++ [current'])%list
       /\ Attempt.number current' = Attempt.number current
       /\ Attempt.timestamp current' = Attempt.timestamp current
       /\ Attempt.photoUri current' = Attempt.photoUri current
       /\ Attempt.mood current' = Attempt.mood current
       /\ Attempt.weight current' = Attempt.weight current
       /\ Attempt.completed current' = Attempt.completed current
       /\ Forall2 (carried_over (Attempt.tasks current)) template
                  (Attempt.tasks current').

(** Whole days between two instants, rounded down. *)
Definition floorDays (ms : Z) : Z := (ms / 86400000)%Z.

Definition clamp (lo hi x : Z) : Z :=
  if (x <? lo)%Z then lo else if (hi <? x)%Z then hi else x.

(** The days before the 1-based day [d] are all completed. *)
Definition previous_days_completed (days : list Day.Day) (d : nat) : Prop :=
  forall i day, (1 <= i < d)%nat -> days !! (i - 1)%nat = Some day ->
                Day.isDayCompleted day = true.

End Spec.

(** ** Sample data *)
Module Sample.
Import Attempt.

Definition now : string := "2024-01-03T08:00:00.000Z".

(** 72.5 *)
Definition w72_5 : jsnumber := Finite false 725 2.
(** 1e-7, that is 0.0000001 *)
Definition w1e_7 : jsnumber := Finite false 1 (-6).
(** 1.5e21 *)
Definition w1_5e21 : jsnumber := Finite false 15 22.
(** -3 *)
Definition wminus3 : jsnumber := Finite true 3 1.

(** All requirements met except the task ["water"]. *)
Definition almostDone : Attempt :=
  {| number := 1; timestamp := None;
     photoUri := Some "file:///photo.jpg"; mood := Some happy;
     weight := Some w72_5;
     tasks := [Task.mkTask "workout" "45 min workout" true;
               Task.mkTask "water" "Drink 2L water" false];
     completed := false |}.

(** All requirements met except the mood. *)
Definition noMoodYet : Attempt :=
  {| number := 1; timestamp := None;
     photoUri := Some "file:///photo.jpg"; mood := None;
     weight := Some w72_5;
     tasks := [Task.mkTask "workout" "45 min workout" true;
               Task.mkTask "water" "Drink 2L water" true];
     completed := false |}.

Definition done : Attempt :=
  {| number := 1; timestamp := Some "2024-01-01T21:15:00.000Z";
     photoUri := Some "file:///photo.jpg"; mood := Some calm;
     weight := Some w72_5;
     tasks := [Task.mkTask "workout" "45 min workout" true];
     completed := true |}.

Definition completedDay : Day.Day := Day.mkDay 1 "2024-01-01" [done].
Definition freshDay : Day.Day := Day.createDay 2 "2024-01-02".
Definition emptyDay : Day.Day := Day.mkDay 1 "2024-01-01" [].

Definition emptyStorage : StorageService.storage :=
  StorageService.mkStorage ∅ [].

Definition challenge : StorageService.ChallengeData :=
  StorageService.mkChallengeData 1 "2024-01-01T00:00:00.000Z"
    [completedDay; freshDay] 2.

Definition world : AppContext.world :=
  {| AppContext.app :=
       AppContext.mkAppState [completedDay; freshDay] 1
         (Some "2024-01-01T00:00:00.000Z") false None;
     AppContext.disk := StorageService.saveChallengeData challenge emptyStorage |}.

(** The template of a revision: two tasks, ["a"] and ["b"]. *)
Definition template : list Task.Task :=
  [Task.mkTask "a" "A2" false; Task.mkTask "b" "B" false].

(** A backup payload with [n] days. *)
Definition payload (n : nat) : Json.json :=
  Json.JObj
    [("version", Json.JNum (Finite false 1 1));
     ("exportDate", Json.JStr "2024-02-01T10:00:00.000Z");
     ("appVersion", Json.JStr "1.0.0");
     ("challengeData",
       Json.JObj
         [("version", Json.JNum (Finite false 1 1));
          ("startDate", Json.JStr "2024-01-01T00:00:00.000Z");
          ("days", Json.JArr (replicate n (Json.JObj [])));
          ("currentDayIndex", Json.JNum (Finite false 1 1))])].

(** New York around the clock change of 2024-03-10: five hours behind UTC
    until 07:00 UTC of that day, four hours behind from then on.  A local
    time that the change skips (02:00 to 03:00) is read with the offset
    before it. *)
Definition newYork : Date.TimeZone :=
  let toLocal := fun t =>
    if (t <? 1710054000000)%Z then (t - 18000000)%Z else (t - 14400000)%Z in
  let fromLocal := fun civil =>
    if (civil <? 1710039600000)%Z then (civil + 18000000)%Z
    else (civil + 14400000)%Z in
  {| Date.startOfDay :=
       fun t => fromLocal (toLocal t - toLocal t mod Date.MS_PER_DAY)%Z;
     Date.fromLocal := fromLocal;
     Date.toLocal := toLocal |}.

End Sample.

(** * Theory *)

Local Open Scope list_scope.

(** * Numbers *)
Section Numbers.

Lemma magnitude_positive (s : positive) (e : Z) :
  (0 < inject_Z (Z.pos s) * 10 ^ e)%Q.
Proof.
  apply Qmult_lt_0_compat.
  - unfold Qlt; simpl; lia.
  - apply Qpower_0_lt. reflexivity.
Qed.

Lemma gt_zero_positive (x : jsnumber) :
  gt_zero x = true <-> Spec.greater_than_zero x.
Proof.
  unfold Spec.greater_than_zero. split.
  - destruct x as [ | [] | | [] s n]; simpl; try discriminate; intros _.
    + now left.
    + right. eexists. split; [reflexivity | apply magnitude_positive].
  - intros [-> | (q & Hq & Hpos)]; [reflexivity |].
    destruct x as [ | [] | | [] s n]; simpl in *; try discriminate;
      injection Hq as <-.
    + exfalso. lra.
    + exfalso.
      pose proof (magnitude_positive s (n - Z.of_nat (String.length (digits s)))).
      lra.
    + reflexivity.
Qed.

End Numbers.

(** * The completion engine *)
Section Completion.
Import Attempt.

Lemma allTasksCompleted_spec (a : Attempt) :
  allTasksCompleted a = true <-> Spec.every_task_completed a.
Proof.
  unfold allTasksCompleted, Spec.every_task_completed.
  rewrite forallb_forall, Forall_forall.
  split; intros H x Hx; apply H; now apply list_elem_of_In.
Qed.

Lemma hasMood_spec (a : Attempt) : hasMood a = true <-> Spec.mood_set a.
Proof.
  unfold hasMood, Spec.mood_set. destruct (mood a); split; congruence.
Qed.

Lemma hasPhoto_spec (a : Attempt) : hasPhoto a = true <-> Spec.photo_set a.
Proof.
  unfold hasPhoto, Spec.photo_set. destruct (photoUri a) as [uri|].
  - rewrite negb_true_iff. split.
    + intros H. exists uri. split; [reflexivity|].
      intros ->. discriminate.
    + intros (uri' & [= <-] & Hne). now apply String.eqb_neq.
  - split; [discriminate | intros (? & ? & _); discriminate].
Qed.

Lemma hasWeight_spec (a : Attempt) : hasWeight a = true <-> Spec.weight_positive a.
Proof.
  unfold hasWeight, Spec.weight_positive. destruct (weight a) as [w|].
  - rewrite gt_zero_positive. split.
    + intros H. now exists w.
    + now intros (w' & [= <-] & H).
  - split; [discriminate | intros (? & ? & _); discriminate].
Qed.

(** C1. [isAttemptComplete] returns true exactly when the four requirement
    categories hold together: every task of the attempt is completed (which
    an empty task list satisfies), a mood is set, the photo is set to a
    non-empty string, and the weight is set and strictly greater than
    zero. *)
Theorem isAttemptComplete_iff_four_categories (a : Attempt) :
  isAttemptComplete a = true <->
    Spec.every_task_completed a /\ Spec.mood_set a
    /\ Spec.photo_set a /\ Spec.weight_positive a.
Proof.
  unfold isAttemptComplete. rewrite !andb_true_iff.
  rewrite allTasksCompleted_spec, hasMood_spec, hasPhoto_spec, hasWeight_spec.
  tauto.
Qed.

Lemma isAttemptComplete_no_tasks (a : Attempt) :
  tasks a = [] -> Spec.every_task_completed a.
Proof. unfold Spec.every_task_completed. intros ->. constructor. Qed.

End Completion.

(** * JavaScript arrays *)
Section Arrays.
Context {A : Type}.

Lemma array_get_last (l : list A) :
  array_get l (Z.of_nat (length l) - 1) = last l.
Proof.
  unfold array_get. destruct l as [|x l]; [reflexivity|].
  rewrite last_lookup.
  replace (Z.of_nat (length (x :: l)) - 1)%Z with (Z.of_nat (length l))
    by (simpl; lia).
  destruct (Z.ltb_spec (Z.of_nat (length l)) 0); [lia|].
  now rewrite Nat2Z.id.
Qed.

Lemma array_set_last (l : list A) (x y : A) :
  array_set (Z.of_nat (length (l ++ [x])) - 1) y (l ++ [x]) = l ++ [y].
Proof.
  unfold array_set. rewrite length_app. simpl.
  replace (Z.of_nat (length l + 1) - 1)%Z with (Z.of_nat (length l)) by lia.
  destruct (Z.ltb_spec (Z.of_nat (length l)) 0); [lia|].
  rewrite Nat2Z.id.
  destruct (Nat.eqb_spec (length l) (length l + 1)); [lia|].
  rewrite insert_app_r_alt by lia.
  now rewrite Nat.sub_diag.
Qed.

End Arrays.

(** * Days and their attempts *)
Section Days.
Import Attempt Day.

(** C7 (as the code has it). [getCurrentAttempt] ends normally on every
    day, with the last element of the attempts list; on a day without
    attempts it ends normally with [undefined], and no error is raised. *)
Theorem getCurrentAttempt_last_or_undefined (i : nat) (d : string)
    (earlier : list Attempt) (a : Attempt) (day : Day) :
  getCurrentAttempt day = Normal (last (attempts day))
  /\ getCurrentAttempt (mkDay i d (earlier ++ [a])) = Normal (Some a)
  /\ getCurrentAttempt (mkDay i d []) = Normal None.
Proof.
  unfold getCurrentAttempt. rewrite !array_get_last. simpl attempts.
  now rewrite last_snoc.
Qed.

(** C7, refuted as stated: on a day whose attempts list is empty the call
    returns ([undefined]) and does not fail with [InvariantViolation]. *)
Lemma getCurrentAttempt_empty_does_not_fail :
  attempts Sample.emptyDay = []
  /\ getCurrentAttempt Sample.emptyDay = Normal None
  /\ getCurrentAttempt Sample.emptyDay <> Throw InvariantViolation.
Proof. repeat split. discriminate. Qed.

Lemma isDayCompleted_addNewAttempt (day : Day) :
  isDayCompleted day = true -> isDayCompleted (addNewAttempt day) = true.
Proof.
  unfold isDayCompleted, addNewAttempt. simpl. intros H.
  rewrite existsb_app, H. reflexivity.
Qed.

(** C8. Once [isDayCompleted] holds for a day it holds after any number of
    further [addNewAttempt]: appending attempts never revokes it. *)
Theorem isDayCompleted_monotonic (day : Day) (n : nat) :
  isDayCompleted day = true ->
  isDayCompleted (Nat.iter n addNewAttempt day) = true.
Proof.
  intros H. induction n as [|n IH]; simpl.
  - exact H.
  - now apply isDayCompleted_addNewAttempt.
Qed.

Lemma isDayCompleted_monotonic_witness :
  isDayCompleted Sample.completedDay = true
  /\ isDayCompleted (Nat.iter 3 addNewAttempt Sample.completedDay) = true.
Proof.
  split; [reflexivity|].
  apply (isDayCompleted_monotonic Sample.completedDay 3). reflexivity.
Defined.

Lemma createAttempt_tasks_not_completed (n : nat) (ts : list Task.Task) :
  Forall (fun task => Task.completed task = false) (tasks (createAttempt n ts)).
Proof.
  unfold createAttempt. simpl. induction ts; simpl; constructor; auto.
Qed.

(** C5 (as the code has it). [addNewAttempt] returns a day with the same
    index and date whose attempts are the old ones followed by one new
    attempt, numbered [attempts.length + 1], with nothing recorded, and whose
    tasks are the four built-in default tasks, none completed -- whatever
    the task lists of the earlier attempts are. *)
Theorem addNewAttempt_appends_default_attempt (day : Day) :
  exists newAttempt,
    addNewAttempt day = mkDay (index day) (date day) (attempts day ++ [newAttempt])
    /\ number newAttempt = length (attempts day) + 1
    /\ Forall (fun task => Task.completed task = false) (tasks newAttempt)
    /\ map (fun task => (Task.id task, Task.title task)) (tasks newAttempt)
       = map (fun t => (Task.template_id t, Task.template_title t)) Task.DEFAULT_TASKS
    /\ completed newAttempt = false /\ timestamp newAttempt = None
    /\ mood newAttempt = None /\ weight newAttempt = None
    /\ photoUri newAttempt = None.
Proof.
  eexists. split; [reflexivity|].
  split; [reflexivity|].
  split; [apply createAttempt_tasks_not_completed|].
  repeat split.
Qed.

(** C5, refuted as stated: after a bulk revision has given the current day
    the tasks ["a"] and ["b"], the attempt added by [addNewAttempt] is not
    built from that template (it carries the four default tasks). *)
Lemma addNewAttempt_ignores_revised_template :
  exists day current,
    AppContext.days (AppContext.app
      (snd (MainScreen.saveTasks Sample.template Sample.world))) !! 1%nat = Some day
    /\ last (attempts day) = Some current
    /\ map Task.id (tasks current) = map Task.id Sample.template
    /\ last (attempts (addNewAttempt day))
       <> Some (createAttempt (length (attempts day) + 1) Sample.template).
Proof.
  eexists. eexists.
  split; [vm_compute; reflexivity|].
  split; [reflexivity|].
  split; [reflexivity|].
  vm_compute. discriminate.
Qed.

End Days.

(** * Field updates of the current attempt *)
Section FieldUpdates.
Import Attempt UseDay.

Lemma isAttemptComplete_with_completion (c : bool) (t : option string) (a : Attempt) :
  isAttemptComplete (with_completion c t a) = isAttemptComplete a.
Proof. reflexivity. Qed.

Lemma keepOrUnmark_stamped (currentAttempt changed : Attempt) :
  Spec.stamped currentAttempt -> Spec.stamped (keepOrUnmark currentAttempt changed).
Proof.
  unfold Spec.stamped, keepOrUnmark. simpl.
  destruct (completed currentAttempt), (isAttemptComplete changed); simpl;
    intros H; try exact H; split; congruence.
Qed.

Lemma markIfComplete_stamped (now : string) (a : Attempt) :
  Spec.stamped a -> Spec.stamped (markIfComplete now a).
Proof.
  unfold markIfComplete.
  destruct (isAttemptComplete a && negb (completed a)); [|trivial].
  intros _. unfold Spec.stamped. simpl. split; congruence.
Qed.

(** Promotion by the updates that go through [markIfComplete]. *)
Lemma markIfComplete_promotes (now : string) (a : Attempt) :
  completed a = false -> isAttemptComplete a = true ->
  completed (markIfComplete now a) = true
  /\ timestamp (markIfComplete now a) = Some now.
Proof.
  unfold markIfComplete. intros -> ->. simpl. split; reflexivity.
Qed.

(** The six updates other than the task toggle keep "timestamp non-null iff
    completed". *)
Lemma other_updates_keep_stamped (now : string) (a : Attempt) :
  Spec.stamped a ->
  (forall m, Spec.stamped (setMoodAttempt now m a))
  /\ (forall w, Spec.stamped (setWeightAttempt now w a))
  /\ (forall uri, Spec.stamped (setPhotoAttempt now uri a))
  /\ Spec.stamped (clearMoodAttempt a)
  /\ Spec.stamped (clearWeightAttempt a)
  /\ Spec.stamped (clearPhotoAttempt a).
Proof.
  intros H.
  unfold setMoodAttempt, setWeightAttempt, setPhotoAttempt,
    clearMoodAttempt, clearWeightAttempt, clearPhotoAttempt.
  refine (conj _ (conj _ (conj _ (conj _ (conj _ _))))); intros.
  - now apply markIfComplete_stamped, keepOrUnmark_stamped.
  - now apply markIfComplete_stamped, keepOrUnmark_stamped.
  - now apply markIfComplete_stamped.
  - now apply keepOrUnmark_stamped.
  - now apply keepOrUnmark_stamped.
  - now apply keepOrUnmark_stamped.
Qed.

(** ... and they mark a newly complete attempt with the current time. *)
Lemma setMood_promotes (now : string) (m : Mood) (a : Attempt) :
  completed a = false -> isAttemptComplete (with_mood (Some m) a) = true ->
  completed (setMoodAttempt now m a) = true
  /\ timestamp (setMoodAttempt now m a) = Some now.
Proof.
  intros Hc Hi. unfold setMoodAttempt. apply markIfComplete_promotes.
  - unfold keepOrUnmark. simpl. now rewrite Hc.
  - unfold keepOrUnmark. now rewrite isAttemptComplete_with_completion.
Qed.

Lemma setWeight_promotes (now : string) (w : jsnumber) (a : Attempt) :
  completed a = false -> isAttemptComplete (with_weight (Some w) a) = true ->
  completed (setWeightAttempt now w a) = true
  /\ timestamp (setWeightAttempt now w a) = Some now.
Proof.
  intros Hc Hi. unfold setWeightAttempt. apply markIfComplete_promotes.
  - unfold keepOrUnmark. simpl. now rewrite Hc.
  - unfold keepOrUnmark. now rewrite isAttemptComplete_with_completion.
Qed.

Lemma setPhoto_promotes (now : string) (uri : string) (a : Attempt) :
  completed a = false -> isAttemptComplete (with_photoUri (Some uri) a) = true ->
  completed (setPhotoAttempt now uri a) = true
  /\ timestamp (setPhotoAttempt now uri a) = Some now.
Proof.
  intros Hc Hi. unfold setPhotoAttempt. now apply markIfComplete_promotes.
Qed.

(** The task toggle sets [completed] from the new field combination and
    keeps the old timestamp when that is complete. *)
Lemma toggleTask_promotes_keeping_timestamp (taskId : string) (a : Attempt) :
  isAttemptComplete (toggleTaskAttempt taskId a) = true ->
  completed (toggleTaskAttempt taskId a) = true
  /\ timestamp (toggleTaskAttempt taskId a) = timestamp a.
Proof.
  unfold toggleTaskAttempt. rewrite isAttemptComplete_with_completion.
  intros H. simpl. rewrite H. split; reflexivity.
Qed.

(** C2, where the code departs from it. The attempt [Sample.almostDone] is
    not completed, has no timestamp, and lacks only the task ["water"].
    Toggling that task makes the field combination complete and sets
    [completed], but leaves the timestamp null: the result has
    [completed = true] with [timestamp = null].  Setting the last missing
    field through [setMood] on [Sample.noMoodYet] stamps the current
    time. *)
Theorem toggleTask_completes_without_timestamp :
  let before := Sample.almostDone in
  let after := toggleTaskAttempt "water" before in
  completed before = false /\ Spec.stamped before
  /\ isAttemptComplete after = true
  /\ completed after = true /\ timestamp after = None
  /\ ~ Spec.stamped after
  /\ toggleTask (Some (Day.mkDay 1 "2024-01-01" [before])) "water"
     = Updated (Day.mkDay 1 "2024-01-01" [after])
  /\ timestamp (setMoodAttempt Sample.now happy Sample.noMoodYet) = Some Sample.now.
Proof.
  cbv zeta.
  refine (conj _ (conj _ (conj _ (conj _ (conj _ (conj _ (conj _ _))))))).
  - reflexivity.
  - unfold Spec.stamped. simpl. split; [congruence | discriminate].
  - reflexivity.
  - reflexivity.
  - reflexivity.
  - unfold Spec.stamped. intros [_ H]. now apply H.
  - reflexivity.
  - reflexivity.
Qed.

End FieldUpdates.

(** * Decimal numerals *)
Section Numerals.

Lemma has_char_append (c : ascii) (a b : string) :
  has_char c (a ++ b)%string = has_char c a || has_char c b.
Proof.
  induction a as [|x a IH]; simpl; [reflexivity|].
  now rewrite IH, orb_assoc.
Qed.

Lemma split_on_no_sep (sep : ascii) (s : string) :
  has_char sep s = false -> split_on sep s = [s].
Proof.
  induction s as [|c s IH]; simpl; [reflexivity|].
  intros [Hc Hs]%orb_false_elim. rewrite Hc, (IH Hs). reflexivity.
Qed.

Lemma split_on_append_sep (sep : ascii) (a b : string) :
  has_char sep a = false ->
  split_on sep (a ++ String sep b)%string = a :: split_on sep b.
Proof.
  induction a as [|c a IH]; simpl.
  - intros _. now rewrite Ascii.eqb_refl.
  - intros [Hc Ha]%orb_false_elim. rewrite Hc, (IH Ha). reflexivity.
Qed.

Lemma split_on_cons_other (sep c : ascii) (s : string) :
  Ascii.eqb c sep = false ->
  split_on sep (String c s) !! 1%nat = split_on sep s !! 1%nat.
Proof.
  intros Hc. simpl. rewrite Hc.
  destruct (split_on sep s) as [|piece rest] eqn:E; [|reflexivity].
  destruct s; simpl in E; [discriminate|].
  destruct (Ascii.eqb a sep); [discriminate|].
  destruct (split_on sep s); discriminate.
Qed.

Lemma string_of_uint_no_dot (d : Decimal.uint) :
  has_char "." (NilEmpty.string_of_uint d) = false.
Proof. induction d; simpl; auto. Qed.

Lemma digits_no_dot (s : positive) : has_char "." (digits s) = false.
Proof. apply string_of_uint_no_dot. Qed.

Lemma zeros_no_dot (n : nat) : has_char "." (zeros n) = false.
Proof. induction n; simpl; auto. Qed.

Lemma zeros_length (n : nat) : String.length (zeros n) = n.
Proof. induction n; simpl; auto. Qed.

Lemma str_take_no_dot (n : nat) (s : string) :
  has_char "." s = false -> has_char "." (str_take n s) = false.
Proof.
  revert s. induction n as [|n IH]; intros [|c s]; simpl; auto.
  intros [Hc Hs]%orb_false_elim. rewrite Hc. now apply IH.
Qed.

Lemma str_drop_no_dot (n : nat) (s : string) :
  has_char "." s = false -> has_char "." (str_drop n s) = false.
Proof.
  revert s. induction n as [|n IH]; intros [|c s]; simpl; auto.
  intros [Hc Hs]%orb_false_elim. now apply IH.
Qed.

Lemma str_drop_length (n : nat) (s : string) :
  String.length (str_drop n s) = (String.length s - n)%nat.
Proof.
  revert s. induction n as [|n IH]; intros [|c s]; simpl; auto.
Qed.

Lemma string_length_append (a b : string) :
  String.length (a ++ b)%string = (String.length a + String.length b)%nat.
Proof. induction a; simpl; auto. Qed.

Lemma digits_length_positive (s : positive) : (0 < String.length (digits s))%nat.
Proof.
  unfold digits.
  assert (H : Pos.to_uint s <> Decimal.Nil).
  { pose proof (DecimalPos.Unsigned.to_uint_nonnil s) as H. exact H. }
  destruct (Pos.to_uint s); simpl; try lia. congruence.
Qed.

End Numerals.

(** * Weight validation *)
Section WeightValidation.
Import ValidationService UseDay.

Lemma validateWeight_NaN : isValid (validateWeight NaN) = false.
Proof. reflexivity. Qed.

Lemma validateWeight_zero : isValid (validateWeight Zero) = true.
Proof. reflexivity. Qed.

Lemma validateWeight_negative :
  isValid (validateWeight Sample.wminus3) = true
  /\ toString Sample.wminus3 = "-3".
Proof. split; reflexivity. Qed.

(** A rejected weight: [setWeight] returns [false] before it reads the
    attempt, and nothing is dispatched or written. *)
Lemma setWeight_rejected (now : string) (day : option Day.Day) (w : jsnumber)
    (dayIndex : nat) (world : AppContext.world) :
  isValid (validateWeight w) = false ->
  setWeight now day w = Skipped
  /\ commit dayIndex (setWeight now day w) world = Normal world.
Proof.
  intros H. unfold setWeight. rewrite H. destruct day; simpl; auto.
Qed.

(** An accepted weight is stored as it is, positive or not. *)
Lemma setWeightAttempt_stores (now : string) (w : jsnumber) (a : Attempt.Attempt) :
  Attempt.weight (setWeightAttempt now w a) = Some w.
Proof.
  unfold setWeightAttempt, markIfComplete.
  destruct (_ && _); reflexivity.
Qed.

Lemma non_positive_weight_never_completes (now : string) (w : jsnumber)
    (a : Attempt.Attempt) :
  gt_zero w = false ->
  Attempt.isAttemptComplete (setWeightAttempt now w a) = false
  /\ Attempt.completed (setWeightAttempt now w a) = false.
Proof.
  intros Hw.
  assert (Hc : Attempt.isAttemptComplete (Attempt.with_weight (Some w) a) = false).
  { unfold Attempt.isAttemptComplete, Attempt.hasWeight. simpl. rewrite Hw.
    now rewrite andb_false_r. }
  unfold setWeightAttempt, markIfComplete, keepOrUnmark.
  rewrite !isAttemptComplete_with_completion, Hc, andb_false_r. simpl.
  split; [exact Hc | reflexivity].
Qed.

End WeightValidation.

Section DecimalPlaces.
Import ValidationService.

Lemma ten_power_shift (e : Z) : (10 ^ e * 10 == 10 ^ (e + 1))%Q.
Proof.
  rewrite Qpower_plus by discriminate. reflexivity.
Qed.

Lemma scaled_integer (s e : Z) :
  (0 <= e)%Z -> (inject_Z s * 10 ^ e == inject_Z (s * 10 ^ e))%Q.
Proof.
  intros He. rewrite inject_Z_mult, Zpower_Qpower by exact He. reflexivity.
Qed.

Lemma scaled_fraction (s z m : Z) :
  (0 < m)%Z -> (inject_Z s * 10 ^ (- m) == inject_Z z)%Q -> s = (z * 10 ^ m)%Z.
Proof.
  intros Hm H. apply inject_Z_injective.
  rewrite <- scaled_integer by lia. rewrite <- H.
  rewrite <- Qmult_assoc, <- Qpower_plus by discriminate.
  replace (- m + m)%Z with 0%Z by lia. simpl. now rewrite Qmult_1_r.
Qed.

Lemma multiple_of_power_of_ten (s z m : Z) :
  (0 < m)%Z -> s = (z * 10 ^ m)%Z -> (s mod 10 = 0)%Z.
Proof.
  intros Hm ->. replace m with (1 + (m - 1))%Z by lia.
  rewrite Z.pow_add_r by lia.
  replace (z * (10 ^ 1 * 10 ^ (m - 1)))%Z with (z * 10 ^ (m - 1) * 10)%Z by ring.
  apply Z.mod_mul. discriminate.
Qed.

(** For a number in canonical form, "at most one decimal place" is a
    statement about its exponent. *)
Lemma at_most_one_decimal_canonical (neg : bool) (s : positive) (n : Z) :
  Spec.canonical s ->
  Spec.at_most_one_decimal (Finite neg s n) <-> (Spec.fraction_digits s n <= 1)%Z.
Proof.
  intros Hs. unfold Spec.at_most_one_decimal, Spec.fraction_digits. simpl.
  set (k := Z.of_nat (String.length (digits s))).
  split.
  - intros (q & z & [= <-] & H).
    destruct (Z_le_gt_dec (k - n) 1) as [|Hgt]; [lia|]. exfalso.
    apply Hs.
    assert (H' : (inject_Z (Z.pos s) * 10 ^ (- (k - n - 1))
                  == inject_Z (if neg then - z else z))%Q).
    { replace (- (k - n - 1))%Z with (n - k + 1)%Z by lia.
      rewrite <- ten_power_shift, Qmult_assoc.
      destruct neg.
      - rewrite inject_Z_opp, <- H. ring.
      - exact H. }
    apply scaled_fraction in H'; [|lia].
    eapply multiple_of_power_of_ten; [|exact H']. lia.
  - intros Hle. assert (He : (0 <= n - k + 1)%Z) by lia.
    eexists. exists ((if neg then -1 else 1) * (Z.pos s * 10 ^ (n - k + 1)))%Z.
    split; [reflexivity|].
    rewrite inject_Z_mult, <- scaled_integer, <- ten_power_shift by exact He.
    destruct neg; simpl; ring.
Qed.

(** The digits after the point in the text of a number that prints without
    an exponent. *)
Lemma decimal_places_fixed_notation (s : positive) (n : Z) :
  (-5 <= n <= 21)%Z ->
  Z.of_nat (String.length (default "" (split_on "." (toString_pos s n) !! 1%nat)))
  = Spec.fraction_digits s n.
Proof.
  intros Hn. unfold toString_pos, Spec.fraction_digits.
  pose proof (digits_length_positive s) as Hk.
  pose proof (digits_no_dot s) as Hd.
  set (ds := digits s) in *. set (k := Z.of_nat (String.length ds)).
  destruct (Z.leb_spec (-5) n); [|lia].
  destruct (Z.leb_spec n 21); [|lia]. simpl andb. cbv iota.
  destruct (Z.leb_spec k n).
  - rewrite split_on_no_sep.
    + simpl. lia.
    + now rewrite has_char_append, Hd, zeros_no_dot.
  - destruct (Z.ltb_spec 0 n).
    + change ("." ++ str_drop (Z.to_nat n) ds)%string
        with (String "." (str_drop (Z.to_nat n) ds)).
      rewrite split_on_append_sep by now apply str_take_no_dot.
      rewrite split_on_no_sep by now apply str_drop_no_dot.
      simpl. rewrite str_drop_length. lia.
    + change ("0." ++ zeros (Z.to_nat (- n)) ++ ds)%string
        with (String "0" (String "." (zeros (Z.to_nat (- n)) ++ ds)%string)).
      rewrite split_on_cons_other by reflexivity.
      change (String "." ?x) with ("" ++ String "." x)%string.
      rewrite split_on_append_sep by reflexivity.
      rewrite split_on_no_sep by now rewrite has_char_append, Hd, zeros_no_dot.
      simpl. rewrite string_length_append, zeros_length. lia.
Qed.

(** Weights that print without an exponent (from 0.000001 up to, but not
    including, 1e21 in magnitude): the validation accepts exactly those
    with at most one digit after the point. *)
Lemma validateWeight_fixed_notation (neg : bool) (s : positive) (n : Z) :
  (-5 <= n <= 21)%Z ->
  isValid (validateWeight (Finite neg s n)) = (Spec.fraction_digits s n <=? 1)%Z.
Proof.
  intros Hn. unfold validateWeight. simpl isNaN. cbv iota.
  assert (Hplaces :
    Z.of_nat (String.length
                (default "" (split_on "." (toString (Finite neg s n)) !! 1%nat)))
    = Spec.fraction_digits s n).
  { destruct neg; simpl toString.
    - change ("-" ++ toString_pos s n)%string with (String "-" (toString_pos s n)).
      rewrite split_on_cons_other by reflexivity.
      now apply decimal_places_fixed_notation.
    - now apply decimal_places_fixed_notation. }
  set (places := String.length
    (default "" (split_on "." (toString (Finite neg s n)) !! 1%nat))) in *.
  rewrite <- Hplaces.
  destruct (Nat.ltb_spec 1 places); cbn [isValid];
    symmetry; [apply Z.leb_gt | apply Z.leb_le]; lia.
Qed.

Lemma validateWeight_fixed_notation_iff (neg : bool) (s : positive) (n : Z) :
  Spec.canonical s -> (-5 <= n <= 21)%Z ->
  isValid (validateWeight (Finite neg s n)) = true
  <-> Spec.at_most_one_decimal (Finite neg s n).
Proof.
  intros Hs Hn.
  rewrite validateWeight_fixed_notation, at_most_one_decimal_canonical by assumption.
  apply Z.leb_le.
Qed.

(** C10, where the code departs from it. The number 1e-7 (0.0000001) has
    seven decimal places; its text is ["1e-7"], which has no point, so the
    validation accepts it and [setWeight] stores it.  The number 1.5e21 is
    an integer; its text is ["1.5e+21"], and the validation rejects it for
    having more than one decimal place. *)
Theorem validateWeight_misjudges_exponent_notation :
  toString Sample.w1e_7 = "1e-7"
  /\ isValid (validateWeight Sample.w1e_7) = true
  /\ ~ Spec.at_most_one_decimal Sample.w1e_7
  /\ (exists day' a,
        UseDay.setWeight Sample.now (Some Sample.freshDay) Sample.w1e_7
        = UseDay.Updated day'
        /\ last (Day.attempts day') = Some a
        /\ Attempt.weight a = Some Sample.w1e_7)
  /\ toString Sample.w1_5e21 = "1.5e+21"
  /\ isValid (validateWeight Sample.w1_5e21) = false
  /\ Spec.at_most_one_decimal Sample.w1_5e21.
Proof.
  refine (conj _ (conj _ (conj _ (conj _ (conj _ (conj _ _)))))).
  - reflexivity.
  - reflexivity.
  - unfold Sample.w1e_7. rewrite at_most_one_decimal_canonical by discriminate.
    vm_compute. intros H. now apply H.
  - eexists. eexists. split; [reflexivity|]. split; reflexivity.
  - reflexivity.
  - reflexivity.
  - unfold Sample.w1_5e21. rewrite at_most_one_decimal_canonical by discriminate.
    vm_compute. discriminate.
Qed.

End DecimalPlaces.

(** * The day unlock policy *)
Section Unlock.
Import Date DateService MainScreen.

Lemma getMaxUnlockedDayFrom_clamped (tz : TimeZone) (now start : Z) :
  getMaxUnlockedDayFrom tz now start
  = Spec.clamp 1 75
      (Z.max 1 (Spec.floorDays (startOfDay tz now - startOfDay tz start) + 1)).
Proof.
  unfold getMaxUnlockedDayFrom, Spec.clamp, Spec.floorDays.
  change (1000 * 60 * 60 * 24)%Z with 86400000%Z.
  set (x := Z.max 1 _).
  destruct (Z.ltb_spec x 1), (Z.ltb_spec 75 x); lia.
Qed.

Lemma getMaxUnlockedDayFrom_range (tz : TimeZone) (now start : Z) :
  (1 <= getMaxUnlockedDayFrom tz now start <= 75)%Z.
Proof. unfold getMaxUnlockedDayFrom. lia. Qed.

Lemma forallb_take_lookup {A : Type} (f : A -> bool) (d : nat) (l : list A) :
  forallb f (take d l) = true
  <-> forall i x, (i < d)%nat -> l !! i = Some x -> f x = true.
Proof.
  revert d. induction l as [|y l IH]; intros d.
  - rewrite take_nil. simpl. split; [|reflexivity].
    intros _ i x _ H. now rewrite lookup_nil in H.
  - destruct d as [|d]; simpl.
    + split; [|reflexivity]. intros _ i x Hi. lia.
    + rewrite andb_true_iff, IH. split.
      * intros [Hy Hl] [|i] x Hi; simpl; [now intros [= <-]|].
        apply Hl. lia.
      * intros H. split; [now apply (H 0%nat); [lia|]|].
        intros i x Hi Hx. apply (H (S i)); [lia | exact Hx].
Qed.

Lemma previous_days_completed_take (days : list Day.Day) (d : nat) :
  forallb Day.isDayCompleted (take d days) = true
  <-> Spec.previous_days_completed days (S d).
Proof.
  rewrite forallb_take_lookup. unfold Spec.previous_days_completed. split.
  - intros H i day Hi. apply H. lia.
  - intros H i day Hi Hday. apply (H (S i)); [lia|].
    now replace (S i - 1)%nat with i by lia.
Qed.

Lemma canNavigate_iff (tz : TimeZone) (now : Z) (state : AppContext.AppState)
    (startDate : string) (start : Z) (dayIndex : nat) :
  AppContext.startDate state = Some startDate ->
  Date.parse tz startDate = Some start ->
  canNavigate tz now state dayIndex = true
  <-> (Z.of_nat (S dayIndex) <= getMaxUnlockedDayFrom tz now start)%Z
      /\ Spec.previous_days_completed (AppContext.days state) (S dayIndex).
Proof.
  intros Hs Hp. unfold canNavigate, isDayUnlockedByTime, getMaxUnlockedDay.
  rewrite Hs, Hp. simpl.
  rewrite negb_true_iff, orb_false_iff, !negb_false_iff.
  rewrite previous_days_completed_take, Z.leb_le. intuition lia.
Qed.

Lemma parse_new_year (tz : TimeZone) :
  Date.parse tz "2024-01-01T00:00" = Some (fromLocal tz (civil 2024 1 1 0 0 0 0)).
Proof. reflexivity. Qed.

Lemma startOfDay_fromLocal_fixed (offset c : Z) :
  startOfDay (fixedZone offset) (fromLocal (fixedZone offset) c)
  = (c - c mod MS_PER_DAY - offset)%Z.
Proof. simpl. now rewrite Z.sub_add. Qed.

Lemma third_day_example (offset : Z) :
  let tz := fixedZone offset in
  getMaxUnlockedDayFrom tz (fromLocal tz (civil 2024 1 3 8 0 0 0))
                        (fromLocal tz (civil 2024 1 1 0 0 0 0)) = 3%Z.
Proof.
  cbv zeta. unfold getMaxUnlockedDayFrom.
  rewrite !startOfDay_fromLocal_fixed.
  match goal with
  | |- context [(?a - offset - (?b - offset))%Z] =>
      replace (a - offset - (b - offset))%Z with (a - b)%Z by lia
  end.
  reflexivity.
Qed.

(** C4. With a start date that denotes the instant [start]:
    [maxUnlockedDay] is [max(1, floorDays(today_midnight -
    startDate_midnight) + 1)] clamped to 1..75; the 1-based day
    [dayIndex + 1] is navigable iff it is at most [maxUnlockedDay] and every
    day before it is completed; [handleDayPress] moves to the day exactly
    then.  With the start date 2024-01-01T00:00 and the current time
    2024-01-03T08:00, in a zone at any constant offset, [maxUnlockedDay] is
    3 and day 4 is locked whatever the days hold. *)
Theorem day_unlock_policy :
  (forall (tz : TimeZone) (now : Z) (w : AppContext.world)
          (startDate : string) (start : Z) (dayIndex : nat),
      AppContext.startDate (AppContext.app w) = Some startDate ->
      Date.parse tz startDate = Some start ->
      let maxUnlockedDay :=
        Spec.clamp 1 75
          (Z.max 1 (Spec.floorDays (startOfDay tz now - startOfDay tz start) + 1)) in
      let navigable :=
        (Z.of_nat (dayIndex + 1) <= maxUnlockedDay)%Z
        /\ Spec.previous_days_completed
             (AppContext.days (AppContext.app w)) (dayIndex + 1) in
      getMaxUnlockedDay tz now startDate = Some maxUnlockedDay
      /\ (1 <= maxUnlockedDay <= 75)%Z
      /\ (canNavigate tz now (AppContext.app w) dayIndex = true <-> navigable)
      /\ (navigable ->
          handleDayPress tz now dayIndex w = AppContext.setCurrentDay dayIndex w)
      /\ (~ navigable -> handleDayPress tz now dayIndex w = w))
  /\ (forall (offset : Z) (state : AppContext.AppState),
        AppContext.startDate state = Some "2024-01-01T00:00" ->
        let tz := fixedZone offset in
        let now := fromLocal tz (civil 2024 1 3 8 0 0 0) in
        getMaxUnlockedDay tz now "2024-01-01T00:00" = Some 3%Z
        /\ canNavigate tz now state 3 = false).
Proof.
  split.
  - intros tz now w startDate start dayIndex Hs Hp. cbv zeta.
    rewrite <- getMaxUnlockedDayFrom_clamped.
    replace (dayIndex + 1)%nat with (S dayIndex) by lia.
    pose proof (canNavigate_iff tz now (AppContext.app w) startDate start dayIndex Hs Hp)
      as Hnav.
    refine (conj _ (conj _ (conj Hnav (conj _ _)))).
    + unfold getMaxUnlockedDay. now rewrite Hp.
    + apply getMaxUnlockedDayFrom_range.
    + intros H. unfold handleDayPress. apply Hnav in H. now rewrite H.
    + intros H. unfold handleDayPress.
      destruct (canNavigate tz now (AppContext.app w) dayIndex) eqn:E;
        [|reflexivity].
      exfalso. apply H, Hnav. reflexivity.
  - intros offset state Hs. cbv zeta. split.
    + unfold getMaxUnlockedDay. rewrite parse_new_year. simpl fmap.
      f_equal. apply third_day_example.
    + apply not_true_is_false. intros H.
      apply (canNavigate_iff _ _ _ _ _ _ Hs (parse_new_year _)) in H.
      destruct H as [H _]. rewrite third_day_example in H. lia.
Qed.

Lemma day_unlock_policy_witness :
  AppContext.startDate (AppContext.app Sample.world)
    = Some "2024-01-01T00:00:00.000Z"
  /\ Date.parse (fixedZone 0) "2024-01-01T00:00:00.000Z" = Some 1704067200000%Z
  /\ getMaxUnlockedDay (fixedZone 0) 1704268800000 "2024-01-01T00:00:00.000Z"
     = Some 3%Z
  /\ canNavigate (fixedZone 0) 1704268800000 (AppContext.app Sample.world) 1 = true
  /\ canNavigate (fixedZone 0) 1704268800000 (AppContext.app Sample.world) 2 = false.
Proof.
  pose proof (proj1 day_unlock_policy (fixedZone 0) 1704268800000%Z Sample.world
                "2024-01-01T00:00:00.000Z" 1704067200000%Z) as H.
  refine (conj eq_refl (conj eq_refl _)).
  destruct (H 1%nat eq_refl eq_refl) as (Hmax & _ & Hnav & _).
  destruct (H 2%nat eq_refl eq_refl) as (_ & _ & Hnav2 & _).
  refine (conj Hmax (conj _ _)).
  - apply Hnav. split; [vm_compute; discriminate|].
    intros i day Hi. assert (i = 1)%nat as -> by lia.
    intros [= <-]. reflexivity.
  - apply not_true_is_false. intros Ht. apply Hnav2 in Ht.
    destruct Ht as [_ Ht]. specialize (Ht 2%nat Sample.freshDay).
    discriminate Ht; [lia | reflexivity].
Defined.

End Unlock.

(** * The persisted challenge *)
Section Storage.
Import StorageService.

Lemma getItem_setItem (key : string) (value : blob) (st : storage) :
  getItem key (setItem key value st) = Some value.
Proof. unfold getItem, setItem. simpl. apply lookup_insert_eq. Qed.

Lemma getItem_setItem_other (key key' : string) (value : blob) (st : storage) :
  key <> key' -> getItem key' (setItem key value st) = getItem key' st.
Proof. intros H. unfold getItem, setItem. simpl. now apply lookup_insert_ne. Qed.

(** *** What a stored text gives back *)

Lemma stored_number_finite (x : jsnumber) :
  stored_number x = Some x <-> Spec.finite x.
Proof.
  unfold Spec.finite. destruct x; simpl; split; try discriminate;
    try (intros [q Hq]; discriminate); try reflexivity; intros _; eexists;
    reflexivity.
Qed.

Lemma stored_number_twice (w : option jsnumber) :
  (w ≫= stored_number) ≫= stored_number = w ≫= stored_number.
Proof. destruct w as [[| | |]|]; reflexivity. Qed.

Lemma reread_attempt_twice (a : Attempt.Attempt) :
  reread_attempt (reread_attempt a) = reread_attempt a.
Proof.
  unfold reread_attempt, Attempt.with_weight. simpl.
  now rewrite stored_number_twice.
Qed.

Lemma reread_day_twice (day : Day.Day) : reread_day (reread_day day) = reread_day day.
Proof.
  unfold reread_day. simpl. f_equal. rewrite map_map.
  apply map_ext. apply reread_attempt_twice.
Qed.

Lemma reread_days_twice (ds : list Day.Day) :
  map reread_day (map reread_day ds) = map reread_day ds.
Proof. rewrite map_map. apply map_ext. apply reread_day_twice. Qed.

Lemma reread_day_storable (day : Day.Day) :
  Spec.storable day -> reread_day day = day.
Proof.
  intros H. destruct day as [i d l]. unfold reread_day. simpl. f_equal.
  unfold Spec.storable in H. simpl in H.
  induction l as [|a l IH]; [reflexivity|]. simpl. f_equal.
  - destruct a as [n t p m w ts c]. unfold reread_attempt, Attempt.with_weight.
    simpl. f_equal. destruct w as [w|]; [|reflexivity]. simpl.
    apply stored_number_finite. apply (H _ w (or_introl eq_refl)). reflexivity.
  - apply IH. intros a' w' Ha'. apply H. now right.
Qed.

Lemma reread_days_storable (ds : list Day.Day) :
  Forall Spec.storable ds -> map reread_day ds = ds.
Proof.
  induction 1 as [|day ds Hday _ IH]; [reflexivity|].
  simpl. now rewrite reread_day_storable, IH.
Qed.

Lemma mapM_fixed {A B : Type} (f : A -> option B) (g : B -> B) (l : list A)
    (k : list B) :
  (forall x y, f x = Some y -> g y = y) ->
  mapM f l = Some k -> map g k = k.
Proof.
  intros Hf. revert k. induction l as [|x l IH]; intros k; simpl.
  - now intros [= <-].
  - destruct (f x) as [y|] eqn:Hx; [|discriminate]. simpl.
    destruct (mapM f l) as [k'|]; [|discriminate]. simpl.
    intros [= <-]. simpl. now rewrite (Hf x y Hx), (IH k' eq_refl).
Qed.

Lemma as_weight_stored (value : option Json.json) (w : option jsnumber) :
  as_weight value = Some w -> w ≫= stored_number = w.
Proof.
  destruct value as [[| |x| | |]|]; simpl; try discriminate;
    try (now intros [= <-]).
  intros [= <-]. destruct x; reflexivity.
Qed.

Lemma as_attempt_reread (value : Json.json) (a : Attempt.Attempt) :
  as_attempt value = Some a -> reread_attempt a = a.
Proof.
  unfold as_attempt. intros H. bound_in H.
  injection H as <-. unfold reread_attempt, Attempt.with_weight. simpl.
  f_equal. eapply as_weight_stored. eassumption.
Qed.

Lemma mapM_array_fixed {B : Type} (f : Json.json -> option B) (g : B -> B)
    (value : option Json.json) (k : list B) :
  (forall x y, f x = Some y -> g y = y) ->
  Json.as_array value ≫= mapM f = Some k -> map g k = k.
Proof.
  intros Hf H. destruct (Json.as_array value) as [items|]; [|discriminate].
  exact (mapM_fixed f g items k Hf H).
Qed.

Lemma as_day_reread (value : Json.json) (day : Day.Day) :
  as_day value = Some day -> reread_day day = day.
Proof.
  unfold as_day. intros H. bound_in H.
  injection H as <-. unfold reread_day. simpl. f_equal.
  eapply mapM_array_fixed; [apply as_attempt_reread | eassumption].
Qed.

(** A record read from a stored text is read back as it is when it is
    stored again. *)
Lemma JSON_parse_reread (data : blob) (challengeData : ChallengeData) :
  JSON_parse data = Some challengeData ->
  map reread_day (days challengeData) = days challengeData.
Proof.
  destruct data as [c|payload|unit]; cbn [JSON_parse]; [| |discriminate].
  - intros [= <-]. simpl. apply reread_days_twice.
  - unfold as_challengeData. intros H. bound_in H.
    injection H as <-. simpl.
    eapply mapM_array_fixed; [apply as_day_reread | eassumption].
Qed.


(** A load after a save: the saved record as the stored text gives it
    back, at the current schema version. *)
Lemma loadChallengeData_saveChallengeData (challengeData : ChallengeData)
    (st : storage) :
  fst (loadChallengeData (saveChallengeData challengeData st))
  = Some (mkChallengeData CURRENT_VERSION (startDate challengeData)
            (map reread_day (days challengeData)) (currentDayIndex challengeData)).
Proof.
  unfold loadChallengeData, saveChallengeData.
  rewrite getItem_setItem. simpl JSON_parse. cbv iota.
  change (version (reread challengeData)) with (version challengeData).
  destruct (Nat.eqb_spec (version challengeData) CURRENT_VERSION) as [Hv|Hv].
  - cbn [negb fst]. unfold reread. now rewrite Hv.
  - reflexivity.
Qed.

(** A load after the save of a record at the current version writes
    nothing. *)
Lemma loadChallengeData_saved_current (challengeData : ChallengeData) (st : storage) :
  version challengeData = CURRENT_VERSION ->
  loadChallengeData (saveChallengeData challengeData st)
  = (Some (reread challengeData), saveChallengeData challengeData st).
Proof.
  intros Hv. unfold loadChallengeData, saveChallengeData.
  rewrite getItem_setItem. cbn [JSON_parse].
  change (version (reread challengeData)) with (version challengeData).
  now rewrite Hv, Nat.eqb_refl.
Qed.

(** A record at the current version whose weights a JSON text holds is
    loaded as it was saved. *)
Lemma loadChallengeData_saved (challengeData : ChallengeData) (st : storage) :
  version challengeData = CURRENT_VERSION ->
  map reread_day (days challengeData) = days challengeData ->
  loadChallengeData (saveChallengeData challengeData st)
  = (Some challengeData, saveChallengeData challengeData st).
Proof.
  intros Hv Hdays. rewrite loadChallengeData_saved_current by exact Hv.
  unfold reread. rewrite Hdays. now destruct challengeData.
Qed.

(** Loading looks at one key only. *)
Lemma loadChallengeData_reads_one_key (st st' : storage) :
  getItem CHALLENGE_DATA st' = getItem CHALLENGE_DATA st ->
  fst (loadChallengeData st') = fst (loadChallengeData st).
Proof.
  intros H. unfold loadChallengeData. rewrite H.
  destruct (getItem CHALLENGE_DATA st) as [data|]; [|reflexivity].
  destruct (JSON_parse data) as [c|]; [|reflexivity].
  destruct (negb _); reflexivity.
Qed.

(** Loading writes nothing, or re-persists the migrated record once. *)
Lemma loadChallengeData_journal (st0 st : storage) (c : ChallengeData) :
  loadChallengeData st0 = (Some c, st) ->
  st = st0 \/ st = saveChallengeData c st0.
Proof.
  unfold loadChallengeData.
  destruct (getItem CHALLENGE_DATA st0) as [data|]; [|discriminate].
  destruct (JSON_parse data) as [c0|]; [|discriminate].
  destruct (negb _); simpl; intros [= <- <-]; auto.
Qed.

(** C9 (as the code has it). The challenge record is written under the key
    ["75hard_state_v1"], by one [setItem] that leaves every other key as it
    was, and it is read back from that key: a load after a save yields the
    saved record at the current schema version, with every weight that is
    not a finite number read back as null -- so the saved record itself
    when all its weights are finite; what a load returns depends on that
    key alone, and without an item under it the load returns null.  The
    updates of days and of the day index persist through the same save. *)
Theorem challenge_stored_under_75hard_state_v1
    (challengeData : ChallengeData) (st : storage) :
  getItem "75hard_state_v1" (saveChallengeData challengeData st)
    = Some (BChallenge challengeData)
  /\ journal (saveChallengeData challengeData st)
     = journal st ++ [SetItem "75hard_state_v1" (BChallenge challengeData)]
  /\ (forall key, key <> "75hard_state_v1" ->
        getItem key (saveChallengeData challengeData st) = getItem key st)
  /\ fst (loadChallengeData (saveChallengeData challengeData st))
     = Some (mkChallengeData CURRENT_VERSION (startDate challengeData)
               (map reread_day (days challengeData))
               (currentDayIndex challengeData))
  /\ (Forall Spec.storable (days challengeData) ->
      fst (loadChallengeData (saveChallengeData challengeData st))
      = Some (mkChallengeData CURRENT_VERSION (startDate challengeData)
                (days challengeData) (currentDayIndex challengeData)))
  /\ (forall st', getItem "75hard_state_v1" st' = getItem "75hard_state_v1" st ->
        fst (loadChallengeData st') = fst (loadChallengeData st))
  /\ (getItem "75hard_state_v1" st = None -> loadChallengeData st = (None, st))
  /\ (forall day ds newIndex,
        snd (updateDay challengeData day st)
          = saveChallengeData (fst (updateDay challengeData day st)) st
        /\ snd (updateDays challengeData ds st)
          = saveChallengeData (with_days ds challengeData) st
        /\ snd (updateCurrentDayIndex challengeData newIndex st)
          = saveChallengeData (fst (updateCurrentDayIndex challengeData newIndex st)) st).
Proof.
  refine (conj _ (conj eq_refl (conj _ (conj _ (conj _ (conj _ (conj _ _))))))).
  - apply getItem_setItem.
  - intros key Hkey. apply getItem_setItem_other.
    intros Heq. apply Hkey. now rewrite <- Heq.
  - apply loadChallengeData_saveChallengeData.
  - intros Hdays. rewrite loadChallengeData_saveChallengeData.
    now rewrite reread_days_storable.
  - apply loadChallengeData_reads_one_key.
  - intros H. unfold loadChallengeData. fold CHALLENGE_DATA in H. now rewrite H.
  - intros day ds newIndex. repeat split.
Qed.

Lemma challenge_stored_under_75hard_state_v1_witness :
  getItem "75hard_state_v1" Sample.emptyStorage = None
  /\ loadChallengeData Sample.emptyStorage = (None, Sample.emptyStorage)
  /\ getItem "75hard_state_v1"
       (saveChallengeData Sample.challenge Sample.emptyStorage)
     = Some (BChallenge Sample.challenge)
  /\ fst (loadChallengeData (saveChallengeData Sample.challenge Sample.emptyStorage))
     = Some Sample.challenge.
Proof.
  destruct (challenge_stored_under_75hard_state_v1 Sample.challenge Sample.emptyStorage)
    as (Hget & _ & _ & _ & Hload & _ & Hnone & _).
  refine (conj eq_refl (conj (Hnone eq_refl) (conj Hget (Hload _)))).
  repeat constructor; intros a w [<-|[]]; intros [= <-]; eexists; reflexivity.
Defined.

(** C9, refuted as stated: after a save nothing is stored under
    ["challenge_data_v1"], and a record stored under that key is not what a
    load returns. *)
Lemma challenge_not_stored_under_challenge_data_v1 :
  getItem "challenge_data_v1"
    (saveChallengeData Sample.challenge Sample.emptyStorage) = None
  /\ fst (loadChallengeData
            (setItem "challenge_data_v1" (BChallenge Sample.challenge)
                     Sample.emptyStorage)) = None.
Proof.
  split.
  - unfold saveChallengeData. rewrite getItem_setItem_other by discriminate.
    reflexivity.
  - rewrite (loadChallengeData_reads_one_key Sample.emptyStorage); [reflexivity|].
    now rewrite getItem_setItem_other by discriminate.
Qed.

End Storage.

(** * Bulk task revision *)
Section BulkRevision.
Import AppContext MainScreen.

Lemma find_first {A : Type} (f : A -> bool) (before after : list A) (x : A) :
  f x = true -> (forall y, In y before -> f y = false) ->
  find f (before ++ x :: after) = Some x.
Proof.
  intros Hx. induction before as [|y before IH]; simpl; intros Hb.
  - now rewrite Hx.
  - rewrite (Hb y) by now left. apply IH. intros z Hz. apply Hb. now right.
Qed.

Lemma find_absent {A : Type} (f : A -> bool) (l : list A) :
  (forall y, In y l -> f y = false) -> find f l = None.
Proof.
  induction l as [|y l IH]; simpl; intros H; [reflexivity|].
  rewrite (H y) by now left. apply IH. intros z Hz. apply H. now right.
Qed.

Lemma rebuildTasks_carried_over (validTasks : list Task.Task)
    (currentAttempt : Attempt.Attempt) :
  Forall2 (Spec.carried_over (Attempt.tasks currentAttempt))
          validTasks (rebuildTasks validTasks currentAttempt).
Proof.
  unfold rebuildTasks.
  induction validTasks as [|t ts IH]; simpl; constructor; [|exact IH].
  unfold Spec.carried_over. simpl.
  refine (conj eq_refl (conj eq_refl (conj _ _))).
  - intros before o after Hold Hid Hbefore. rewrite Hold.
    rewrite (find_first _ before after o); [reflexivity | | ].
    + now apply String.eqb_eq.
    + intros p Hp. apply String.eqb_neq. now apply Hbefore.
  - intros Hnone. rewrite find_absent; [reflexivity|].
    intros o Ho. apply String.eqb_neq. now apply Hnone.
Qed.

(** What [reviseDay] does to a day that has an attempt. *)
Lemma reviseDay_spec (validTasks : list Task.Task) (currentDayIndex index : nat)
    (day : Day.Day) :
  Day.attempts day <> [] ->
  exists day',
    reviseDay validTasks currentDayIndex index day = Normal day'
    /\ (Day.isDayCompleted day = false \/ (currentDayIndex < index)%nat ->
        Spec.revised validTasks day day')
    /\ (Day.isDayCompleted day = true /\ (index <= currentDayIndex)%nat ->
        day' = day).
Proof.
  intros Hne. unfold reviseDay. cbv zeta.
  destruct (exists_last Hne) as (earlier & current & Hday).
  assert (Hcur : Day.getCurrentAttempt day = Normal (Some current)).
  { unfold Day.getCurrentAttempt. rewrite array_get_last, Hday.
    now rewrite last_snoc. }
  rewrite Hcur.
  destruct (negb (Day.isDayCompleted day) || (currentDayIndex <? index)%nat)
    eqn:Hcond.
  - eexists. split; [reflexivity|]. split.
    + intros _. unfold Spec.revised, Day.updateCurrentAttempt. simpl.
      refine (conj eq_refl (conj eq_refl _)).
      exists earlier, current,
        (Attempt.with_tasks (rebuildTasks validTasks current) current).
      split; [exact Hday|]. split; [rewrite Hday; apply array_set_last|].
      refine (conj eq_refl (conj eq_refl (conj eq_refl (conj eq_refl
                (conj eq_refl (conj eq_refl _)))))).
      apply rebuildTasks_carried_over.
    + intros [Hc Hle]. exfalso. rewrite Hc in Hcond. simpl in Hcond.
      apply Nat.ltb_lt in Hcond. lia.
  - exists day. split; [reflexivity|]. split; [|reflexivity].
    intros H. exfalso. apply orb_false_elim in Hcond as [Hc Hlt].
    apply negb_false_iff in Hc. apply Nat.ltb_ge in Hlt.
    destruct H; [congruence | lia].
Qed.

Lemma mapWithIndex_total {A B : Type} (f : nat -> A -> completion B)
    (P : nat -> A -> B -> Prop) (l : list A) (index : nat) :
  (forall j x, l !! j = Some x -> exists y, f (index + j)%nat x = Normal y /\ P (index + j)%nat x y) ->
  exists l', mapWithIndex f index l = Normal l'
    /\ length l' = length l
    /\ forall j x, l !! j = Some x -> exists y, l' !! j = Some y /\ P (index + j)%nat x y.
Proof.
  revert index. induction l as [|x l IH]; intros index H; simpl.
  - exists []. split; [reflexivity|]. split; [reflexivity|].
    intros j y Hj. now rewrite lookup_nil in Hj.
  - destruct (H 0%nat x eq_refl) as (y & Hy & HP).
    rewrite Nat.add_0_r in Hy, HP. rewrite Hy.
    destruct (IH (S index)) as (l' & Hl' & Hlen & Hall).
    { intros j z Hj. destruct (H (S j) z Hj) as (y' & Hy' & HP').
      exists y'. now rewrite Nat.add_succ_comm. }
    rewrite Hl'. exists (y :: l'). split; [reflexivity|].
    split; [simpl; now rewrite Hlen|].
    intros [|j] z Hj; simpl in *.
    + injection Hj as <-. exists y. rewrite Nat.add_0_r. auto.
    + destruct (Hall j z Hj) as (y' & Hy' & HP').
      exists y'. now rewrite <- Nat.add_succ_comm.
Qed.

(** The dispatches of [updateDays] overwrite the days in place, in order. *)
Lemma dispatchEach_spec (ds : list Day.Day) (index : nat) (w : world) :
  (index <= length (days (app w)))%nat ->
  dispatchEach index ds w
  = {| app := mkAppState
                (take index (days (app w)) ++ ds
                 ++ drop (index + length ds) (days (app w)))
                (currentDayIndex (app w)) (startDate (app w))
                (isLoading (app w)) (error (app w));
       disk := disk w |}.
Proof.
  revert index w. induction ds as [|day rest IH]; intros index w Hi; simpl.
  - rewrite Nat.add_0_r, take_drop. now destruct w as [[] ?].
  - rewrite IH.
    + simpl. f_equal. f_equal.
      unfold array_set.
      destruct (Z.ltb_spec (Z.of_nat index) 0); [lia|]. rewrite Nat2Z.id.
      destruct (Nat.eqb_spec index (length (days (app w)))) as [->|Hne].
      * set (l := days (app w)).
        rewrite (take_ge (l ++ [day])) by (rewrite length_app; simpl; lia).
        rewrite (drop_ge (l ++ [day])) by (rewrite length_app; simpl; lia).
        rewrite (take_ge l), (drop_ge l) by lia.
        now rewrite <- app_assoc.
      * rewrite (take_S_r _ _ day) by (apply list_lookup_insert_eq; lia).
        rewrite take_insert_ge, drop_insert_lt by lia.
        replace (index + S (length rest))%nat with (S index + length rest)%nat by lia.
        now rewrite <- app_assoc.
    + simpl. unfold array_set.
      destruct (Z.ltb_spec (Z.of_nat index) 0); [lia|]. rewrite Nat2Z.id.
      destruct (Nat.eqb_spec index (length (days (app w)))).
      * rewrite length_app. simpl. lia.
      * rewrite length_insert. lia.
Qed.

Lemma dispatchEach_all (ds : list Day.Day) (w : world) :
  length ds = length (days (app w)) ->
  dispatchEach 0 ds w
  = {| app := mkAppState ds (currentDayIndex (app w)) (startDate (app w))
                         (isLoading (app w)) (error (app w));
       disk := disk w |}.
Proof.
  intros Hlen. rewrite dispatchEach_spec by lia.
  rewrite take_0, drop_ge by (simpl; lia). simpl. now rewrite app_nil_r.
Qed.

(** C3. A revision with a template that has at least one task with a
    non-blank title, on days that all have an attempt and with a challenge
    in the store: each day that is not completed, or lies strictly after the
    current day index, keeps its index, its date, its earlier attempts and
    every field of its current attempt except the task list, which is
    rebuilt from the template, a task keeping the completion flag of the
    old task of the same id and being not completed otherwise; a completed
    day at or before the current index stays as it is; and the resulting
    days are written by one [setItem] under ["75hard_state_v1"] of a record
    that holds all of them, with the version, the start date and the day
    index of the stored record, every other key staying as it is (the load
    before it writes nothing, or re-persists the stored record once when
    its schema version is not the current one). *)
Theorem bulk_revision (editableTasks : list Task.Task) (w : world)
    (challengeData : StorageService.ChallengeData) (st : StorageService.storage) :
  let template := validTasksOf editableTasks in
  template <> [] ->
  Forall (fun day => Day.attempts day <> []) (days (app w)) ->
  StorageService.loadChallengeData (disk w) = (Some challengeData, st) ->
  exists updatedDays written w',
    saveTasks editableTasks w = (TasksSaved, w')
    /\ app w' = mkAppState updatedDays (currentDayIndex (app w))
                  (startDate (app w)) (isLoading (app w)) (error (app w))
    /\ length updatedDays = length (days (app w))
    /\ (forall i day, days (app w) !! i = Some day ->
          exists day', updatedDays !! i = Some day'
            /\ (Day.isDayCompleted day = false \/ (currentDayIndex (app w) < i)%nat ->
                Spec.revised template day day')
            /\ (Day.isDayCompleted day = true /\ (i <= currentDayIndex (app w))%nat ->
                day' = day))
    /\ StorageService.days written = updatedDays
    /\ StorageService.version written = StorageService.version challengeData
    /\ StorageService.startDate written = StorageService.startDate challengeData
    /\ StorageService.currentDayIndex written
       = StorageService.currentDayIndex challengeData
    /\ StorageService.journal (disk w')
       = StorageService.journal st
         ++ [StorageService.SetItem "75hard_state_v1"
               (StorageService.BChallenge written)]
    /\ StorageService.getItem "75hard_state_v1" (disk w')
       = Some (StorageService.BChallenge written)
    /\ (forall key, key <> "75hard_state_v1" ->
          StorageService.getItem key (disk w') = StorageService.getItem key (disk w))
    /\ (st = disk w \/ st = StorageService.saveChallengeData challengeData (disk w)).
Proof.
  intros template Hne Hdays Hload.
  destruct (mapWithIndex_total
              (reviseDay template (currentDayIndex (app w)))
              (fun i day day' =>
                 (Day.isDayCompleted day = false \/ (currentDayIndex (app w) < i)%nat ->
                  Spec.revised template day day')
                 /\ (Day.isDayCompleted day = true /\ (i <= currentDayIndex (app w))%nat ->
                     day' = day))
              (days (app w)) 0%nat)
    as (updatedDays & Hmap & Hlen & Hall).
  { intros j day Hj. apply reviseDay_spec.
    rewrite Forall_forall in Hdays. apply Hdays.
    apply list_elem_of_lookup. now exists j. }
  pose proof (loadChallengeData_journal _ _ _ Hload) as Hst.
  exists updatedDays, (StorageService.with_days updatedDays challengeData),
    (mkWorld (mkAppState updatedDays (currentDayIndex (app w))
                (startDate (app w)) (isLoading (app w)) (error (app w)))
             (StorageService.saveChallengeData
                (StorageService.with_days updatedDays challengeData) st)).
  cbn [app disk].
  refine (conj _ (conj eq_refl (conj Hlen (conj Hall (conj eq_refl (conj eq_refl
            (conj eq_refl (conj eq_refl (conj eq_refl (conj _ (conj _ Hst))))))))))).
  - unfold saveTasks. fold template.
    destruct (Nat.eqb_spec (length template) 0) as [H0|_].
    { destruct template; [congruence | discriminate]. }
    rewrite Hmap. unfold updateDays.
    rewrite dispatchEach_all by exact Hlen. simpl. rewrite Hload. reflexivity.
  - apply getItem_setItem.
  - intros key Hkey. unfold StorageService.saveChallengeData.
    rewrite getItem_setItem_other by (intros Heq; apply Hkey; now rewrite <- Heq).
    destruct Hst as [->| ->]; [reflexivity|].
    unfold StorageService.saveChallengeData.
    now rewrite getItem_setItem_other by (intros Heq; apply Hkey; now rewrite <- Heq).
Qed.

Lemma bulk_revision_witness :
  exists updatedDays written,
    days (app (snd (saveTasks Sample.template Sample.world))) = updatedDays
    /\ updatedDays !! 0%nat = Some Sample.completedDay
    /\ (exists day', updatedDays !! 1%nat = Some day'
          /\ Spec.revised Sample.template Sample.freshDay day')
    /\ StorageService.days written = updatedDays
    /\ StorageService.getItem "75hard_state_v1"
         (disk (snd (saveTasks Sample.template Sample.world)))
       = Some (StorageService.BChallenge written).
Proof.
  destruct (bulk_revision Sample.template Sample.world Sample.challenge
              (disk Sample.world))
    as (updatedDays & written & w' & Hsave & Happ & _ & Hall & Hwritten & _ & _ & _
        & _ & Hget & _).
  - discriminate.
  - repeat constructor; discriminate.
  - reflexivity.
  - exists updatedDays, written. rewrite Hsave. cbn [snd]. rewrite Happ.
    cbn [days].
    destruct (Hall 0%nat Sample.completedDay eq_refl) as (d0 & Hd0 & _ & Hsame).
    destruct (Hall 1%nat Sample.freshDay eq_refl) as (d1 & Hd1 & Hrev & _).
    refine (conj eq_refl (conj _ (conj _ (conj Hwritten Hget)))).
    + rewrite Hd0. f_equal. apply Hsame. split; [reflexivity | simpl; lia].
    + exists d1. split; [exact Hd1|]. apply Hrev. now left.
Defined.

End BulkRevision.

(** * Import of a backup *)
Section BackupImport.
Import Json DataService.

Lemma validateImportData_day_count (data : json) (days : list json) :
  get "challengeData" data ≫= get "days" = Some (JArr days) ->
  length days <> 75%nat ->
  isValid (validateImportData data) = false.
Proof.
  intros Hdays Hlen. unfold validateImportData.
  destruct (falsy (Some data)); [reflexivity|].
  destruct (negb (is_number (get "version" data))); [reflexivity|].
  destruct (falsy (get "exportDate" data) || _); [reflexivity|].
  destruct (falsy (get "challengeData" data)); [reflexivity|].
  cbv zeta. rewrite Hdays.
  destruct (_ || _); [reflexivity|].
  destruct (Nat.eqb_spec (length days) 75); [contradiction | reflexivity].
Qed.

(** A payload that fails the validation: the import returns the failure
    and the store, items and journal alike, is the one it was given. *)
Lemma importData_invalid (data : json) (confirmed : bool)
    (st : StorageService.storage) :
  isValid (validateImportData data) = false ->
  importData (Parsed data) confirmed st
  = (mkImportResult false (message (validateImportData data)), st).
Proof. intros H. unfold importData. now rewrite H. Qed.

Lemma importData_unparsed (confirmed : bool) (st : StorageService.storage) :
  snd (importData Unreadable confirmed st) = st
  /\ snd (importData NotJson confirmed st) = st.
Proof. split; reflexivity. Qed.

(** C6. A payload whose [challengeData.days] is an array of a length other
    than 75 fails the validation; the import then reports the validation
    message as a failure and returns the store unchanged, with nothing
    written or removed, whatever the user would answer.  The same holds
    for every payload that fails the validation. *)
Theorem import_rejects_wrong_day_count (data : json) (days : list json)
    (confirmed : bool) (st : StorageService.storage) :
  get "challengeData" data ≫= get "days" = Some (JArr days) ->
  length days <> 75%nat ->
  isValid (validateImportData data) = false
  /\ importData (Parsed data) confirmed st
     = (mkImportResult false (message (validateImportData data)), st)
  /\ StorageService.journal (snd (importData (Parsed data) confirmed st))
     = StorageService.journal st
  /\ (forall other,
        isValid (validateImportData other) = false ->
        importData (Parsed other) confirmed st
        = (mkImportResult false (message (validateImportData other)), st)).
Proof.
  intros Hdays Hlen.
  pose proof (validateImportData_day_count data days Hdays Hlen) as Hinvalid.
  refine (conj Hinvalid (conj _ (conj _ _))).
  - now apply importData_invalid.
  - now rewrite importData_invalid.
  - intros other. apply importData_invalid.
Qed.

Lemma import_rejects_wrong_day_count_witness :
  validateImportData (Sample.payload 74)
    = mkValidationResult false "Invalid file format: incorrect number of days."
  /\ isValid (validateImportData (Sample.payload 75)) = true
  /\ importData (Parsed (Sample.payload 74)) true Sample.world.(AppContext.disk)
     = (mkImportResult false "Invalid file format: incorrect number of days.",
        Sample.world.(AppContext.disk)).
Proof.
  refine (conj eq_refl (conj eq_refl _)).
  destruct (import_rejects_wrong_day_count (Sample.payload 74)
              (replicate 74 (JObj [])) true Sample.world.(AppContext.disk))
    as (_ & H & _).
  - reflexivity.
  - rewrite length_replicate. lia.
  - exact H.
Defined.

End BackupImport.

(** * More on days and attempts *)
Section DayOperations.
Import Attempt Day.

Lemma getCurrentAttempt_snoc (i : nat) (d : string) (earlier : list Attempt) (a : Attempt) :
  getCurrentAttempt (mkDay i d (earlier ++ [a])) = Normal (Some a).
Proof.
  unfold getCurrentAttempt. rewrite array_get_last. simpl. now rewrite last_snoc.
Qed.

Lemma getCurrentAttempt_Some (day : Day) (a : Attempt) :
  getCurrentAttempt day = Normal (Some a) ->
  exists earlier, attempts day = earlier ++ [a].
Proof.
  unfold getCurrentAttempt. rewrite array_get_last. intros [= H].
  destruct (attempts day) as [|x l] eqn:E using rev_ind; [discriminate|].
  rewrite last_snoc in H. injection H as ->. now exists l.
Qed.

Lemma updateCurrentAttempt_step (day : Day) (a : Attempt)
    (earlier : list Attempt) (current : Attempt) :
  attempts day = earlier ++ [current] ->
  updateCurrentAttempt day a = mkDay (index day) (date day) (earlier ++ [a])
  /\ getCurrentAttempt (updateCurrentAttempt day a) = Normal (Some a).
Proof.
  intros H. unfold updateCurrentAttempt.
  rewrite H, array_set_last. split; [reflexivity|].
  apply getCurrentAttempt_snoc.
Qed.

(** X1. On a day that has an attempt, [updateCurrentAttempt] replaces the
    last attempt and nothing else: the given attempt is the current one
    afterwards, and the earlier attempts, the number of attempts, the index
    and the date stay.  Putting the current attempt back changes nothing,
    and of two updates in a row the second one wins. *)
Theorem updateCurrentAttempt_replaces_current (day : Day) (a b : Attempt)
    (earlier : list Attempt) (current : Attempt) :
  attempts day = earlier ++ [current] ->
  updateCurrentAttempt day a = mkDay (index day) (date day) (earlier ++ [a])
  /\ getCurrentAttempt (updateCurrentAttempt day a) = Normal (Some a)
  /\ length (attempts (updateCurrentAttempt day a)) = length (attempts day)
  /\ updateCurrentAttempt day current = day
  /\ updateCurrentAttempt (updateCurrentAttempt day a) b = updateCurrentAttempt day b.
Proof.
  intros H.
  destruct (updateCurrentAttempt_step day a earlier current H) as [Ha Hcur].
  destruct (updateCurrentAttempt_step day b earlier current H) as [Hb _].
  destruct (updateCurrentAttempt_step day current earlier current H) as [Hc _].
  refine (conj Ha (conj Hcur (conj _ (conj _ _)))).
  - rewrite Ha, H. cbn [attempts]. now rewrite !length_app.
  - rewrite Hc, <- H. now destruct day.
  - rewrite Hb.
    destruct (updateCurrentAttempt_step (updateCurrentAttempt day a) b earlier a)
      as [Hab _]; [now rewrite Ha|].
    rewrite Hab, Ha. reflexivity.
Qed.

Lemma updateCurrentAttempt_replaces_current_witness :
  updateCurrentAttempt (mkDay 1 "2024-01-01" [Sample.noMoodYet; Sample.almostDone])
                       Sample.done
  = mkDay 1 "2024-01-01" [Sample.noMoodYet; Sample.done].
Proof.
  exact (proj1 (updateCurrentAttempt_replaces_current
                  (mkDay 1 "2024-01-01" [Sample.noMoodYet; Sample.almostDone])
                  Sample.done Sample.done [Sample.noMoodYet] Sample.almostDone
                  eq_refl)).
Defined.

Lemma find_first_split {A : Type} (f : A -> bool) (l : list A) (x : A) :
  find f l = Some x ->
  f x = true /\ exists before after,
    l = before ++ x :: after /\ Forall (fun y => f y = false) before.
Proof.
  induction l as [|y l IH]; simpl; [discriminate|].
  destruct (f y) eqn:Hy.
  - intros [= ->]. split; [exact Hy|]. exists [], l. split; [reflexivity | constructor].
  - intros H. destruct (IH H) as (Hx & before & after & -> & Hb).
    split; [exact Hx|]. exists (y :: before), after. split; [reflexivity|].
    now constructor.
Qed.

(** X2. [getCompletedAttempt] returns an attempt exactly when the day is
    completed, and then it is the first completed attempt of the day: it is
    marked completed and no attempt before it is. *)
Theorem getCompletedAttempt_first_completed (day : Day) :
  (isDayCompleted day = true <-> getCompletedAttempt day <> None)
  /\ (forall a, getCompletedAttempt day = Some a ->
        completed a = true
        /\ exists before after,
             attempts day = before ++ a :: after
             /\ Forall (fun b => completed b = false) before).
Proof.
  unfold isDayCompleted, getCompletedAttempt. split.
  - rewrite existsb_exists. split.
    + intros (a & Hin & Ha) Hnone.
      pose proof (find_none _ _ Hnone a Hin). congruence.
    + destruct (find completed (attempts day)) as [a|] eqn:E; [|congruence].
      intros _. exists a. apply find_some in E. exact E.
  - intros a. apply find_first_split.
Qed.

Lemma getCompletedAttempt_first_completed_witness :
  getCompletedAttempt Sample.completedDay = Some Sample.done
  /\ completed Sample.done = true.
Proof.
  destruct (getCompletedAttempt_first_completed Sample.completedDay) as [_ H].
  destruct (H Sample.done eq_refl) as [Hc _].
  exact (conj eq_refl Hc).
Defined.

End DayOperations.

(** * Progress figures *)
Section Progress.
Import Attempt UseDay.




Lemma filter_length_full {A : Type} (f : A -> bool) (l : list A) :
  length (List.filter f l) <= length l
  /\ (length (List.filter f l) = length l <-> forallb f l = true).
Proof.
  induction l as [|x l [IH1 IH2]]; simpl; [split; [lia | tauto]|].
  destruct (f x); simpl.
  - split; [lia|]. rewrite <- IH2. lia.
  - split; [lia|]. split; [lia | discriminate].
Qed.



End Progress.

(** * More on the field updates *)
Section HookBehaviour.
Import Attempt UseDay.

Lemma incomplete_without_mood (a : Attempt) :
  isAttemptComplete (with_mood None a) = false.
Proof.
  unfold isAttemptComplete, hasMood. simpl.
  now rewrite andb_false_r.
Qed.

Lemma incomplete_without_weight (a : Attempt) :
  isAttemptComplete (with_weight None a) = false.
Proof.
  unfold isAttemptComplete, hasWeight. simpl. now rewrite andb_false_r.
Qed.

Lemma incomplete_without_photo (a : Attempt) :
  isAttemptComplete (with_photoUri None a) = false.
Proof.
  unfold isAttemptComplete, hasPhoto. simpl. now rewrite andb_false_r.
Qed.

(** X5. Clearing the mood, the weight or the photo always leaves the
    attempt unmarked: [completed] is false and the timestamp is null
    afterwards, whatever they were, and no other field changes. *)
Theorem clearing_a_requirement_unmarks (a : Attempt) :
  clearMoodAttempt a
    = mkAttempt (number a) None (photoUri a) None (weight a) (tasks a) false
  /\ clearWeightAttempt a
    = mkAttempt (number a) None (photoUri a) (mood a) None (tasks a) false
  /\ clearPhotoAttempt a
    = mkAttempt (number a) None None (mood a) (weight a) (tasks a) false.
Proof.
  unfold clearMoodAttempt, clearWeightAttempt, clearPhotoAttempt, keepOrUnmark.
  rewrite incomplete_without_mood, incomplete_without_weight,
    incomplete_without_photo, !andb_false_r.
  repeat split.
Qed.

(** X6. [setMood] and [setWeight] on an attempt that is marked completed:
    when the new field combination is still complete they change that field
    only, so the timestamp of the completion is kept; when it is not (a
    weight of zero, say) they unmark the attempt and clear the timestamp. *)
Theorem set_on_completed_keeps_or_unmarks (now : string) (m : Mood)
    (w : jsnumber) (a : Attempt) :
  completed a = true ->
  (isAttemptComplete (with_mood (Some m) a) = true ->
     setMoodAttempt now m a = with_mood (Some m) a)
  /\ (isAttemptComplete (with_mood (Some m) a) = false ->
     setMoodAttempt now m a
     = mkAttempt (number a) None (photoUri a) (Some m) (weight a) (tasks a) false)
  /\ (isAttemptComplete (with_weight (Some w) a) = true ->
     setWeightAttempt now w a = with_weight (Some w) a)
  /\ (isAttemptComplete (with_weight (Some w) a) = false ->
     setWeightAttempt now w a
     = mkAttempt (number a) None (photoUri a) (mood a) (Some w) (tasks a) false).
Proof.
  intros Hc.
  unfold setMoodAttempt, setWeightAttempt, markIfComplete, keepOrUnmark.
  rewrite !isAttemptComplete_with_completion, Hc.
  refine (conj _ (conj _ (conj _ _))); intros H; rewrite H; simpl;
    try rewrite Hc; try reflexivity.
  - destruct a; simpl in *; now subst.
  - destruct a; simpl in *; now subst.
Qed.

Lemma set_on_completed_keeps_or_unmarks_witness :
  setMoodAttempt Sample.now sad Sample.done = with_mood (Some sad) Sample.done
  /\ timestamp (setMoodAttempt Sample.now sad Sample.done)
     = Some "2024-01-01T21:15:00.000Z"
  /\ completed (setWeightAttempt Sample.now Zero Sample.done) = false
  /\ timestamp (setWeightAttempt Sample.now Zero Sample.done) = None.
Proof.
  destruct (set_on_completed_keeps_or_unmarks Sample.now sad Zero Sample.done eq_refl)
    as (Hkeep & _ & _ & Hun).
  rewrite (Hkeep eq_refl), (Hun eq_refl). repeat split.
Defined.

(** X7. [setPhoto] never unmarks: on an attempt that is marked completed it
    changes the photo only, keeping [completed] and the timestamp, also when
    the new photo is the empty string and the attempt no longer satisfies
    [isAttemptComplete]. *)
Theorem setPhoto_keeps_completed (now uri : string) (a : Attempt) :
  completed a = true ->
  setPhotoAttempt now uri a = with_photoUri (Some uri) a
  /\ completed (setPhotoAttempt now uri a) = true
  /\ timestamp (setPhotoAttempt now uri a) = timestamp a
  /\ isAttemptComplete (setPhotoAttempt now "" a) = false.
Proof.
  intros Hc. unfold setPhotoAttempt, markIfComplete. simpl. rewrite Hc.
  rewrite !andb_false_r. refine (conj eq_refl (conj Hc (conj eq_refl _))).
  unfold isAttemptComplete, hasPhoto. simpl. now rewrite andb_false_r.
Qed.

Lemma setPhoto_keeps_completed_witness :
  completed (setPhotoAttempt Sample.now "" Sample.done) = true
  /\ isAttemptComplete (setPhotoAttempt Sample.now "" Sample.done) = false.
Proof.
  destruct (setPhoto_keeps_completed Sample.now "" Sample.done eq_refl)
    as (_ & H & _ & H').
  exact (conj H H').
Defined.

Lemma toggle_twice_tasks (taskId : string) (l : list Task.Task) :
  map (fun task => if String.eqb (Task.id task) taskId
                   then Task.with_completed (negb (Task.completed task)) task
                   else task)
    (map (fun task => if String.eqb (Task.id task) taskId
                      then Task.with_completed (negb (Task.completed task)) task
                      else task) l) = l.
Proof.
  induction l as [|t l IH]; simpl; [reflexivity|]. rewrite IH. f_equal.
  destruct (String.eqb (Task.id t) taskId) eqn:E; simpl; rewrite E; [|reflexivity].
  destruct t; simpl. now rewrite negb_involutive.
Qed.

Lemma toggle_unknown_tasks (taskId : string) (l : list Task.Task) :
  (forall t, In t l -> Task.id t <> taskId) ->
  map (fun task => if String.eqb (Task.id task) taskId
                   then Task.with_completed (negb (Task.completed task)) task
                   else task) l = l.
Proof.
  induction l as [|t l IH]; simpl; intros H; [reflexivity|].
  rewrite IH by (intros; apply H; now right). f_equal.
  assert (String.eqb (Task.id t) taskId = false) as ->; [|reflexivity].
  apply String.eqb_neq, H. now left.
Qed.

(** X8. After a task toggle the [completed] flag always agrees with
    [isAttemptComplete]; a toggle changes the task list only besides the
    flag and the timestamp; toggling the same task twice restores the task
    list; and toggling an id that no task has leaves the task list as it
    is. *)
Theorem toggleTask_resynchronises (taskId : string) (a : Attempt) :
  let a' := toggleTaskAttempt taskId a in
  completed a' = isAttemptComplete a'
  /\ (number a', mood a', weight a', photoUri a')
     = (number a, mood a, weight a, photoUri a)
  /\ tasks (toggleTaskAttempt taskId a') = tasks a
  /\ completed (toggleTaskAttempt taskId a') = isAttemptComplete a
  /\ ((forall t, In t (tasks a) -> Task.id t <> taskId) -> tasks a' = tasks a).
Proof.
  cbv zeta.
  refine (conj eq_refl (conj eq_refl (conj _ (conj _ _)))).
  - unfold toggleTaskAttempt. simpl. apply toggle_twice_tasks.
  - unfold toggleTaskAttempt. simpl. unfold isAttemptComplete, allTasksCompleted.
    simpl. now rewrite toggle_twice_tasks.
  - intros H. unfold toggleTaskAttempt. simpl. now apply toggle_unknown_tasks.
Qed.

Lemma toggleTask_resynchronises_witness :
  tasks (toggleTaskAttempt "nothing" Sample.almostDone) = tasks Sample.almostDone.
Proof.
  destruct (toggleTask_resynchronises "nothing" Sample.almostDone)
    as (_ & _ & _ & _ & H).
  apply H. intros t [<-|[<-|[]]]; discriminate.
Defined.



End HookBehaviour.

Section HookFrame.
Import Attempt UseDay.

Lemma onCurrentAttempt_Updated (day day' : Day.Day) (f : Attempt -> option Attempt) :
  onCurrentAttempt (Some day) f = Updated day' ->
  exists earlier a a',
    Day.attempts day = earlier ++ [a]
    /\ f a = Some a'
    /\ day' = Day.mkDay (Day.index day) (Day.date day) (earlier ++ [a']).
Proof.
  unfold onCurrentAttempt.
  destruct (Day.getCurrentAttempt day) as [[a|]|e] eqn:Hcur; try discriminate.
  destruct (f a) as [a'|] eqn:Hf; [|discriminate].
  intros [= <-].
  destruct (getCurrentAttempt_Some day a Hcur) as (earlier & Hday).
  exists earlier, a, a'. split; [exact Hday|]. split; [exact Hf|].
  now apply (updateCurrentAttempt_step day a' earlier a).
Qed.

Lemma markIfComplete_number (now : string) (a : Attempt) :
  number (markIfComplete now a) = number a.
Proof. unfold markIfComplete. now destruct (_ && _). Qed.

(** X10. No field update and no explicit completion rewrites history: when
    a hook function dispatches an updated day, that day has the index, the
    date and the earlier attempts of the old one, in the same order, and its
    last attempt carries the number of the old last attempt. *)
Theorem hook_updates_keep_history (now taskId uri : string) (m : Mood)
    (w : jsnumber) (day day' : Day.Day) :
  In (Updated day')
     [ toggleTask (Some day) taskId; setMood now (Some day) m;
       setWeight now (Some day) w; setPhoto now (Some day) uri;
       clearMood (Some day); clearWeight (Some day); clearPhoto (Some day);
       completeCurrentAttempt now (Some day) ] ->
  Day.index day' = Day.index day
  /\ Day.date day' = Day.date day
  /\ exists earlier a a',
       Day.attempts day = earlier ++ [a]
       /\ Day.attempts day' = earlier ++ [a']
       /\ number a' = number a.
Proof.
  assert (Hframe : forall f,
            (forall a a', f a = Some a' -> number a' = number a) ->
            onCurrentAttempt (Some day) f = Updated day' ->
            Day.index day' = Day.index day
            /\ Day.date day' = Day.date day
            /\ exists earlier a a',
                 Day.attempts day = earlier ++ [a]
                 /\ Day.attempts day' = earlier ++ [a']
                 /\ number a' = number a).
  { intros f Hnum H.
    destruct (onCurrentAttempt_Updated day day' f H) as (earlier & a & a' & Hd & Hf & ->).
    refine (conj eq_refl (conj eq_refl _)).
    exists earlier, a, a'. refine (conj Hd (conj eq_refl _)). now apply Hnum. }
  cbn [In]. intros [H|[H|[H|[H|[H|[H|[H|[H|[]]]]]]]]].
  - revert H. apply Hframe. now intros a a' [= <-].
  - revert H. apply Hframe. intros a a' [= <-]. unfold setMoodAttempt, setWeightAttempt, setPhotoAttempt. now rewrite markIfComplete_number.
  - revert H. unfold setWeight.
    destruct (negb _); [discriminate|].
    apply Hframe. intros a a' [= <-]. unfold setMoodAttempt, setWeightAttempt, setPhotoAttempt. now rewrite markIfComplete_number.
  - revert H. apply Hframe. intros a a' [= <-]. unfold setMoodAttempt, setWeightAttempt, setPhotoAttempt. now rewrite markIfComplete_number.
  - revert H. apply Hframe. now intros a a' [= <-].
  - revert H. apply Hframe. now intros a a' [= <-].
  - revert H. apply Hframe. now intros a a' [= <-].
  - revert H. apply Hframe. intros a a'.
    destruct (negb _); [discriminate|]. now intros [= <-].
Qed.

Lemma hook_updates_keep_history_witness :
  exists day',
    setMood Sample.now
      (Some (Day.mkDay 3 "2024-01-03" [Sample.done; Sample.noMoodYet])) calm
    = Updated day'
    /\ Day.index day' = 3
    /\ Day.attempts day' !! 0%nat = Some Sample.done.
Proof.
  eexists. split; [reflexivity|].
  destruct (hook_updates_keep_history Sample.now "" "" calm Zero
              (Day.mkDay 3 "2024-01-03" [Sample.done; Sample.noMoodYet])
              (Day.mkDay 3 "2024-01-03"
                 [Sample.done; setMoodAttempt Sample.now calm Sample.noMoodYet]))
    as (Hi & _ & _).
  - right. left. reflexivity.
  - split; [exact Hi | reflexivity].
Defined.

(** X11. Missing data.  Without a day every hook function returns without
    dispatching.  On a day that has no attempt the field updates and the
    explicit completion throw a TypeError (the current attempt is
    [undefined]); [setWeight] validates first, so a rejected weight is still
    answered with [false]; [startNewAttempt] gives the day its first
    attempt. *)
Theorem hook_functions_on_missing_data (now taskId uri : string) (m : Mood)
    (w : jsnumber) (day : Day.Day) :
  Day.attempts day = [] ->
  Forall (fun o => o = Skipped)
    [ toggleTask None taskId; setMood now None m; setWeight now None w;
      setPhoto now None uri; clearMood None; clearWeight None; clearPhoto None;
      completeCurrentAttempt now None; startNewAttempt None ]
  /\ Forall (fun o => o = Threw TypeError)
       [ toggleTask (Some day) taskId; setMood now (Some day) m;
         setPhoto now (Some day) uri; clearMood (Some day);
         clearWeight (Some day); clearPhoto (Some day);
         completeCurrentAttempt now (Some day) ]
  /\ setWeight now (Some day) w
     = (if ValidationService.isValid (ValidationService.validateWeight w)
        then Threw TypeError else Skipped)
  /\ startNewAttempt (Some day)
     = Updated (Day.mkDay (Day.index day) (Day.date day)
                  [createAttempt 1 Task.createDefaultTasks]).
Proof.
  intros Hday.
  assert (Hthrow : forall f, onCurrentAttempt (Some day) f = Threw TypeError).
  { intros f. unfold onCurrentAttempt, Day.getCurrentAttempt. now rewrite Hday. }
  refine (conj _ (conj _ (conj _ _))).
  - repeat constructor.
  - repeat (constructor; [apply Hthrow|]). constructor.
  - unfold setWeight. destruct (ValidationService.isValid _); cbn [negb]; [apply Hthrow | reflexivity].
  - unfold startNewAttempt, Day.addNewAttempt. now rewrite Hday.
Qed.

Lemma hook_functions_on_missing_data_witness :
  toggleTask (Some Sample.emptyDay) "water" = Threw TypeError
  /\ setWeight Sample.now (Some Sample.emptyDay) NaN = Skipped.
Proof.
  destruct (hook_functions_on_missing_data Sample.now "water" "" calm NaN
              Sample.emptyDay eq_refl) as (_ & Hthrow & Hw & _).
  split; [|exact Hw].
  now apply Forall_cons_1 in Hthrow as [H _].
Defined.

End HookFrame.

(** * More on the persisted challenge *)
Section StoreOperations.
Import StorageService.

Lemma getItem_removeItem (key : string) (st : storage) :
  getItem key (removeItem key st) = None.
Proof. unfold getItem, removeItem. simpl. apply lookup_delete_eq. Qed.

Lemma getItem_removeItem_other (key key' : string) (st : storage) :
  key <> key' -> getItem key' (removeItem key st) = getItem key' st.
Proof. intros H. unfold getItem, removeItem. simpl. now apply lookup_delete_ne. Qed.

Lemma replace_by_index (day : Day.Day) (l : list Day.Day) (offset : nat) :
  (forall i d, l !! i = Some d -> Day.index d = S (offset + i)) ->
  map (fun d => if (Day.index d =? Day.index day)%nat then day else d) l
  = if (Day.index day <=? offset)%nat then l
    else <[ Day.index day - 1 - offset := day ]> l.
Proof.
  revert offset. induction l as [|d l IH]; intros offset H; simpl.
  - now destruct (_ <=? _)%nat.
  - rewrite (IH (S offset)).
    2: { intros i d' Hi. rewrite (H (S i) d' Hi). lia. }
    pose proof (H 0%nat d eq_refl) as Hd. rewrite Nat.add_0_r in Hd.
    destruct (Nat.eqb_spec (Day.index d) (Day.index day)) as [He|Hne];
      destruct (Nat.leb_spec (Day.index day) (S offset));
      destruct (Nat.leb_spec (Day.index day) offset); try lia.
    + replace (Day.index day - 1 - offset)%nat with 0%nat by lia. reflexivity.
    + reflexivity.
    + destruct (Day.index day - 1 - offset)%nat as [|k] eqn:Ek; [lia|].
      simpl. do 2 f_equal. lia.
Qed.

(** X12. The stored days carry the indices 1, 2, ... in order.  Then
    [StorageService.updateDay] replaces the day at the position of
    [updatedDay.index] and no other; when no day has that index (0, or past
    the end) the days stay as they are, and the record is written
    nonetheless.  Version, start date and day index are kept. *)
Theorem storage_updateDay_replaces_by_index (challengeData : ChallengeData)
    (updatedDay : Day.Day) (st : storage) :
  (forall i d, days challengeData !! i = Some d -> Day.index d = S i) ->
  let updated := fst (updateDay challengeData updatedDay st) in
  days updated
  = (if (Day.index updatedDay =? 0)%nat then days challengeData
     else <[ Day.index updatedDay - 1 := updatedDay ]> (days challengeData))
  /\ (length (days challengeData) < Day.index updatedDay ->
      days updated = days challengeData)
  /\ (version updated, startDate updated, currentDayIndex updated)
     = (version challengeData, startDate challengeData, currentDayIndex challengeData)
  /\ journal (snd (updateDay challengeData updatedDay st))
     = journal st ++ [SetItem "75hard_state_v1" (BChallenge updated)].
Proof.
  intros Hidx. cbv zeta. unfold updateDay. simpl.
  rewrite (replace_by_index updatedDay (days challengeData) 0 Hidx).
  rewrite Nat.sub_0_r.
  assert (Heq : (Day.index updatedDay <=? 0)%nat = (Day.index updatedDay =? 0)%nat).
  { destruct (Nat.leb_spec (Day.index updatedDay) 0),
      (Nat.eqb_spec (Day.index updatedDay) 0); lia. }
  rewrite Heq. refine (conj eq_refl (conj _ (conj eq_refl eq_refl))).
  intros Hlen. destruct (Nat.eqb_spec (Day.index updatedDay) 0); [reflexivity|].
  apply list_insert_ge. lia.
Qed.

Lemma storage_updateDay_replaces_by_index_witness :
  days (fst (updateDay Sample.challenge
               (Day.addNewAttempt Sample.freshDay) Sample.emptyStorage))
  = [Sample.completedDay; Day.addNewAttempt Sample.freshDay].
Proof.
  destruct (storage_updateDay_replaces_by_index Sample.challenge
              (Day.addNewAttempt Sample.freshDay) Sample.emptyStorage) as (H & _).
  - intros [|[|i]] d; simpl; intros [= <-]; reflexivity.
  - exact H.
Defined.

(** X13. After [clearChallengeData] there is no challenge: a load returns
    null and writes nothing, and [isChallengeInitialized] is false.  The two
    challenge keys are removed, in that order; the weight unit preference
    stays. *)
Theorem clearChallengeData_forgets_the_challenge (st : storage) :
  let cleared := clearChallengeData st in
  loadChallengeData cleared = (None, cleared)
  /\ isChallengeInitialized cleared = (false, cleared)
  /\ loadWeightUnitPreference cleared = loadWeightUnitPreference st
  /\ journal cleared
     = journal st ++ [RemoveItem "75hard_state_v1"; RemoveItem "75hard_start_date_v1"].
Proof.
  cbv zeta.
  assert (Hnone : getItem CHALLENGE_DATA (clearChallengeData st) = None).
  { unfold clearChallengeData.
    rewrite getItem_removeItem_other by discriminate. apply getItem_removeItem. }
  assert (Hload : loadChallengeData (clearChallengeData st)
                  = (None, clearChallengeData st)).
  { unfold loadChallengeData. now rewrite Hnone. }
  refine (conj Hload (conj _ (conj _ _))).
  - unfold isChallengeInitialized. rewrite Hload. reflexivity.
  - unfold loadWeightUnitPreference, clearChallengeData.
    now rewrite !getItem_removeItem_other by discriminate.
  - unfold clearChallengeData, removeItem. simpl. now rewrite <- app_assoc.
Qed.

(** X14. The weight unit preference is read back as it was saved, and is
    ['lbs'] when nothing is stored under its key.  The preference and the
    challenge do not disturb each other: saving one leaves what is loaded
    for the other unchanged. *)
Theorem weight_unit_preference_round_trip (unit : WeightUnit)
    (challengeData : ChallengeData) (st : storage) :
  loadWeightUnitPreference (saveWeightUnitPreference unit st) = unit
  /\ (getItem "75hard_weight_unit_v1" st = None -> loadWeightUnitPreference st = lbs)
  /\ fst (loadChallengeData (saveWeightUnitPreference unit st))
     = fst (loadChallengeData st)
  /\ loadWeightUnitPreference (saveChallengeData challengeData st)
     = loadWeightUnitPreference st.
Proof.
  refine (conj _ (conj _ (conj _ _))).
  - unfold loadWeightUnitPreference, saveWeightUnitPreference.
    now rewrite getItem_setItem.
  - intros H. unfold loadWeightUnitPreference. fold WEIGHT_UNIT_PREFERENCE in H.
    now rewrite H.
  - apply loadChallengeData_reads_one_key. unfold saveWeightUnitPreference.
    now rewrite getItem_setItem_other by discriminate.
  - unfold loadWeightUnitPreference, saveChallengeData.
    now rewrite getItem_setItem_other by discriminate.
Qed.

Lemma weight_unit_preference_round_trip_witness :
  loadWeightUnitPreference Sample.emptyStorage = lbs.
Proof.
  destruct (weight_unit_preference_round_trip kg Sample.challenge Sample.emptyStorage)
    as (_ & H & _).
  exact (H eq_refl).
Defined.

Lemma loadChallengeData_current_version (st st' : storage)
    (challengeData : ChallengeData) :
  loadChallengeData st = (Some challengeData, st') ->
  version challengeData = CURRENT_VERSION.
Proof.
  unfold loadChallengeData.
  destruct (getItem CHALLENGE_DATA st) as [data|]; [|discriminate].
  destruct (JSON_parse data) as [c0|]; [|discriminate].
  destruct (Nat.eqb_spec (version c0) CURRENT_VERSION) as [Hv|Hv]; simpl.
  - now intros [= <- <-].
  - now intros [= <- <-].
Qed.

(** X15. A load that finds a record returns it at the current schema
    version, and leaves the store settled: loading again returns the same
    record and the same store.  The first load either wrote nothing or
    re-persisted the record it returns once. *)
Theorem loadChallengeData_settles (st st' : storage) (challengeData : ChallengeData) :
  loadChallengeData st = (Some challengeData, st') ->
  version challengeData = CURRENT_VERSION
  /\ loadChallengeData st' = (Some challengeData, st')
  /\ (st' = st
      \/ journal st' = journal st ++ [SetItem "75hard_state_v1" (BChallenge challengeData)]).
Proof.
  intros Hload. pose proof Hload as H. revert H. unfold loadChallengeData at 1.
  destruct (getItem CHALLENGE_DATA st) as [data|] eqn:Hget; [|discriminate].
  destruct (JSON_parse data) as [c0|] eqn:Hparse; [|discriminate].
  destruct (Nat.eqb_spec (version c0) CURRENT_VERSION) as [Hv|Hv]; simpl.
  - intros [= <- <-]. refine (conj Hv (conj Hload (or_introl eq_refl))).
  - intros [= <- <-]. refine (conj eq_refl (conj _ (or_intror eq_refl))).
    apply loadChallengeData_saved; [reflexivity|].
    cbn [days]. now apply (JSON_parse_reread data).
Qed.

Lemma loadChallengeData_settles_witness :
  let stale := mkChallengeData 0 "2024-01-01T00:00:00.000Z" [Sample.completedDay] 1 in
  exists c st',
    loadChallengeData (saveChallengeData stale Sample.emptyStorage) = (Some c, st')
    /\ version c = 1
    /\ loadChallengeData st' = (Some c, st').
Proof.
  cbv zeta.
  set (stale := mkChallengeData 0 "2024-01-01T00:00:00.000Z" [Sample.completedDay] 1).
  set (c := mkChallengeData 1 "2024-01-01T00:00:00.000Z" [Sample.completedDay] 1).
  set (st := saveChallengeData stale Sample.emptyStorage).
  exists c, (saveChallengeData c st).
  assert (Hload : loadChallengeData st = (Some c, saveChallengeData c st))
    by reflexivity.
  destruct (loadChallengeData_settles st (saveChallengeData c st) c Hload)
    as (Hv & Hs & _).
  exact (conj Hload (conj Hv Hs)).
Defined.

End StoreOperations.

Section MemoryAndStore.
Import AppContext.



End MemoryAndStore.

(** * Streak and navigation *)
Section Streak.
Import AppContext MainScreen.

Lemma streak_le_count (ds : list Day.Day) :
  streak ds <= length (List.filter Day.isDayCompleted ds) <= length ds.
Proof.
  induction ds as [|d ds IH]; simpl; [lia|].
  destruct (Day.isDayCompleted d); simpl; lia.
Qed.

Lemma streak_prefix (ds : list Day.Day) :
  forallb Day.isDayCompleted (take (streak ds) ds) = true
  /\ (forall d, ds !! streak ds = Some d -> Day.isDayCompleted d = false).
Proof.
  induction ds as [|d ds [IH1 IH2]]; simpl; [split; [reflexivity | discriminate]|].
  destruct (Day.isDayCompleted d) eqn:E; simpl.
  - rewrite E. split; [exact IH1 | exact IH2].
  - split; [reflexivity|]. now intros d' [= <-].
Qed.

Lemma streak_full (ds : list Day.Day) :
  streak ds = length ds <-> forallb Day.isDayCompleted ds = true.
Proof.
  induction ds as [|d ds IH]; simpl; [tauto|].
  destruct (Day.isDayCompleted d); simpl.
  - rewrite <- IH. lia.
  - split; [lia | discriminate].
Qed.

(** X17. The streak counts the completed days at the start of the list: the
    first [streak] days are all completed, the day after them (if there is
    one) is not, the streak never exceeds the number of completed days, which
    never exceeds the number of days, and the streak is the whole list
    exactly when every day is completed. *)
Theorem streak_is_the_completed_prefix (state : AppState) :
  getStreakCount state <= getCompletedDaysCount state <= length (days state)
  /\ (forall i d, i < getStreakCount state -> days state !! i = Some d ->
        Day.isDayCompleted d = true)
  /\ (forall d, days state !! getStreakCount state = Some d ->
        Day.isDayCompleted d = false)
  /\ (getStreakCount state = length (days state)
      <-> getCompletedDaysCount state = length (days state)).
Proof.
  unfold getStreakCount, getCompletedDaysCount.
  destruct (streak_prefix (days state)) as [Hpre Hnext].
  refine (conj (streak_le_count _) (conj _ (conj Hnext _))).
  - now apply forallb_take_lookup.
  - rewrite streak_full.
    destruct (filter_length_full Day.isDayCompleted (days state)) as [_ H].
    now rewrite H.
Qed.

Lemma streak_is_the_completed_prefix_witness :
  getStreakCount (app Sample.world) = 1
  /\ Day.isDayCompleted Sample.freshDay = false.
Proof.
  destruct (streak_is_the_completed_prefix (app Sample.world)) as (_ & _ & H & _).
  split; [reflexivity|]. exact (H Sample.freshDay eq_refl).
Defined.

Lemma forallb_take_streak (ds : list Day.Day) (d : nat) :
  forallb Day.isDayCompleted (take d ds) = true
  <-> Nat.min d (length ds) <= streak ds.
Proof.
  revert d. induction ds as [|x ds IH]; intros d.
  - rewrite take_nil. simpl. split; [lia | reflexivity].
  - destruct d as [|d]; simpl; [split; [lia | reflexivity]|].
    destruct (Day.isDayCompleted x); simpl.
    + rewrite IH. lia.
    + split; [discriminate | lia].
Qed.

(** X18. Navigation and the streak.  A day can be opened exactly when the
    time gate admits it and all days before it lie within the streak; so the
    days that can be opened form an initial segment: if a day can be opened,
    so can every earlier one.  [handleDayPress] changes the current day
    index at most: the days, the start date and the store stay as they
    are. *)
Theorem navigation_follows_the_streak (tz : Date.TimeZone) (now : Z)
    (w : world) (start : string) (dayIndex : nat) :
  startDate (app w) = Some start ->
  (canNavigate tz now (app w) dayIndex = true
   <-> DateService.isDayUnlockedByTime tz now (Z.of_nat dayIndex + 1) start = true
       /\ Nat.min dayIndex (length (days (app w))) <= getStreakCount (app w))
  /\ (canNavigate tz now (app w) dayIndex = true ->
      forall earlier, earlier <= dayIndex ->
                      canNavigate tz now (app w) earlier = true)
  /\ days (app (handleDayPress tz now dayIndex w)) = days (app w)
  /\ startDate (app (handleDayPress tz now dayIndex w)) = Some start
  /\ disk (handleDayPress tz now dayIndex w) = disk w
  /\ (currentDayIndex (app (handleDayPress tz now dayIndex w)) = dayIndex
      \/ currentDayIndex (app (handleDayPress tz now dayIndex w))
         = currentDayIndex (app w)).
Proof.
  intros Hs.
  assert (Hiff : forall d,
    canNavigate tz now (app w) d = true
    <-> DateService.isDayUnlockedByTime tz now (Z.of_nat d + 1) start = true
        /\ Nat.min d (length (days (app w))) <= getStreakCount (app w)).
  { intros d. unfold canNavigate. rewrite Hs.
    rewrite negb_true_iff, orb_false_iff, !negb_false_iff.
    now rewrite forallb_take_streak. }
  refine (conj (Hiff dayIndex) (conj _ _)).
  - intros Hnav earlier Hle. apply Hiff. apply Hiff in Hnav as [Htime Hstreak].
    split; [|lia].
    revert Htime. unfold DateService.isDayUnlockedByTime.
    destruct (DateService.getMaxUnlockedDay tz now start); [|discriminate].
    rewrite !Z.leb_le. lia.
  - unfold handleDayPress.
    destruct (canNavigate tz now (app w) dayIndex); simpl; auto.
Qed.

Lemma navigation_follows_the_streak_witness :
  canNavigate (Date.fixedZone 0) 1704268800000 (app Sample.world) 0 = true.
Proof.
  destruct (navigation_follows_the_streak (Date.fixedZone 0) 1704268800000
              Sample.world "2024-01-01T00:00:00.000Z" 1 eq_refl) as (_ & H & _).
  apply (H eq_refl 0%nat). lia.
Defined.

End Streak.

(** * More on the bulk revision *)
Section RevisionBehaviour.
Import AppContext MainScreen.

Lemma mapWithIndex_throws {A B : Type} (f : nat -> A -> completion B)
    (l : list A) (index j : nat) (x : A) (e : js_error) :
  l !! j = Some x -> f (index + j)%nat x = Throw e ->
  exists e', mapWithIndex f index l = Throw e'.
Proof.
  revert index j. induction l as [|y l IH]; intros index j Hj Hf; [discriminate|].
  simpl. destruct j as [|j]; simpl in Hj.
  - injection Hj as ->. rewrite Nat.add_0_r in Hf. rewrite Hf. eauto.
  - destruct (f index y); [|eauto].
    destruct (IH (S index) j Hj) as (e' & He').
    { now rewrite Nat.add_succ_comm. }
    rewrite He'. eauto.
Qed.

Lemma mapWithIndex_related {A B : Type} (f : nat -> A -> completion B)
    (R : nat -> A -> B -> Prop) (l : list A) (l' : list B) (index : nat) :
  (forall i x y, f i x = Normal y -> R i x y) ->
  mapWithIndex f index l = Normal l' ->
  length l' = length l
  /\ forall j x, l !! j = Some x ->
       exists y, l' !! j = Some y /\ f (index + j)%nat x = Normal y
                 /\ R (index + j)%nat x y.
Proof.
  intros HR. revert index l'. induction l as [|x l IH]; intros index l'; simpl.
  - intros [= <-]. split; [reflexivity | intros j y; discriminate].
  - destruct (f index x) as [y|] eqn:Hy; [|discriminate].
    destruct (mapWithIndex f (S index) l) as [ys|] eqn:Hys; [|discriminate].
    intros [= <-]. destruct (IH (S index) ys Hys) as [Hlen Hall].
    split; [simpl; now rewrite Hlen|].
    intros [|j] z Hj; simpl in *.
    + injection Hj as <-. exists y. rewrite Nat.add_0_r. auto.
    + destruct (Hall j z Hj) as (y' & ? & ? & ?). exists y'.
      rewrite <- Nat.add_succ_comm. auto.
Qed.

Lemma mapWithIndex_fixed {A : Type} (f : nat -> A -> completion A)
    (l : list A) (index : nat) :
  (forall j x, l !! j = Some x -> f (index + j)%nat x = Normal x) ->
  mapWithIndex f index l = Normal l.
Proof.
  revert index. induction l as [|x l IH]; intros index H; simpl; [reflexivity|].
  pose proof (H 0%nat x eq_refl) as H0. rewrite Nat.add_0_r in H0. rewrite H0.
  rewrite IH; [reflexivity|].
  intros j y Hj. rewrite Nat.add_succ_comm. now apply (H (S j)).
Qed.

Lemma app_updateDays (ds : list Day.Day) (w : world) :
  app (updateDays ds w) = app (dispatchEach 0 ds w).
Proof.
  unfold updateDays.
  destruct (StorageService.loadChallengeData (disk (dispatchEach 0 ds w))) as [[c|] st];
    reflexivity.
Qed.

Lemma saveTasks_saved (editableTasks : list Task.Task) (w w' : world) :
  saveTasks editableTasks w = (TasksSaved, w') ->
  exists updatedDays,
    mapWithIndex (reviseDay (validTasksOf editableTasks) (currentDayIndex (app w)))
                 0 (days (app w)) = Normal updatedDays
    /\ w' = updateDays updatedDays w.
Proof.
  unfold saveTasks. destruct (_ =? 0)%nat; [discriminate|].
  destruct (mapWithIndex _ _ _) as [updatedDays|]; [|discriminate].
  intros [= <-]. eauto.
Qed.

(** What a revised day shares with the day it comes from. *)
Lemma reviseDay_keeps (validTasks : list Task.Task) (currentDayIndex index : nat)
    (day day' : Day.Day) :
  reviseDay validTasks currentDayIndex index day = Normal day' ->
  Day.index day' = Day.index day
  /\ Day.date day' = Day.date day
  /\ Forall2 (fun a a' => a' = Attempt.with_tasks (Attempt.tasks a') a)
             (Day.attempts day) (Day.attempts day')
  /\ Day.isDayCompleted day' = Day.isDayCompleted day.
Proof.
  assert (Hsame : forall l : list Attempt.Attempt,
             Forall2 (fun a a' => a' = Attempt.with_tasks (Attempt.tasks a') a) l l).
  { induction l as [|a l IH]; constructor; [now destruct a | exact IH]. }
  unfold reviseDay. destruct (negb _ || _).
  - destruct (Day.getCurrentAttempt day) as [[a|]|] eqn:Hcur; try discriminate.
    intros [= <-].
    destruct (getCurrentAttempt_Some day a Hcur) as (earlier & Hday).
    destruct (updateCurrentAttempt_step day
                (Attempt.with_tasks (rebuildTasks validTasks a) a) earlier a Hday)
      as [-> _].
    simpl. refine (conj eq_refl (conj eq_refl (conj _ _))).
    + rewrite Hday. apply Forall2_app; [apply Hsame|]. now repeat constructor.
    + unfold Day.isDayCompleted. simpl. rewrite Hday, !existsb_app. reflexivity.
  - intros [= <-]. refine (conj eq_refl (conj eq_refl (conj (Hsame _) eq_refl))).
Qed.

Lemma lookup_related_map {A B : Type} (f : A -> B) (l l' : list A) :
  length l' = length l ->
  (forall j x, l !! j = Some x -> exists y, l' !! j = Some y /\ f y = f x) ->
  map f l' = map f l.
Proof.
  revert l'. induction l as [|x l IH]; intros [|y l'] Hlen H; try discriminate;
    [reflexivity|].
  simpl. destruct (H 0%nat x eq_refl) as (y' & [= <-] & Hy). rewrite Hy. f_equal.
  apply IH; [simpl in Hlen; lia|]. intros j z Hj. exact (H (S j) z Hj).
Qed.

Lemma streak_map (ds ds' : list Day.Day) :
  map Day.isDayCompleted ds' = map Day.isDayCompleted ds ->
  streak ds' = streak ds
  /\ length (List.filter Day.isDayCompleted ds')
     = length (List.filter Day.isDayCompleted ds)
  /\ forall d, forallb Day.isDayCompleted (take d ds')
               = forallb Day.isDayCompleted (take d ds).
Proof.
  revert ds'. induction ds as [|x ds IH]; intros [|y ds'] H; try discriminate.
  - repeat split. 
  - simpl in H. injection H as Hxy H. destruct (IH ds' H) as (Hs & Hc & Hf).
    simpl. rewrite Hxy. destruct (Day.isDayCompleted x) eqn:Hx; simpl.
    + rewrite Hs, Hc. refine (conj eq_refl (conj eq_refl _)).
      intros [|d]; simpl; [reflexivity|]. now rewrite Hxy, Hx, Hf.
    + refine (conj eq_refl (conj Hc _)).
      intros [|d]; simpl; [reflexivity|]. now rewrite Hxy, Hx.
Qed.

(** X19. A bulk revision that fails changes nothing.  When no task of the
    edited list has a non-blank title the user is told so; when some day has
    no attempt the rebuild throws and the failure is reported; in both cases
    memory and store are exactly as before. *)
Theorem saveTasks_failures_change_nothing (editableTasks : list Task.Task) (w : world) :
  (validTasksOf editableTasks = [] ->
     saveTasks editableTasks w = (AlertNoTask, w))
  /\ (validTasksOf editableTasks <> [] ->
      (exists j day, days (app w) !! j = Some day /\ Day.attempts day = []) ->
      saveTasks editableTasks w = (AlertSaveFailed, w)).
Proof.
  unfold saveTasks. split.
  - intros ->. reflexivity.
  - intros Hne (j & day & Hj & Hnone).
    destruct (Nat.eqb_spec (length (validTasksOf editableTasks)) 0) as [H0|_].
    { destruct (validTasksOf editableTasks); [congruence | discriminate]. }
    destruct (mapWithIndex_throws
                (reviseDay (validTasksOf editableTasks) (currentDayIndex (app w)))
                (days (app w)) 0 j day TypeError Hj) as (e & ->); [|reflexivity].
    unfold reviseDay, Day.isDayCompleted, Day.getCurrentAttempt.
    rewrite Hnone. reflexivity.
Qed.

Lemma saveTasks_failures_change_nothing_witness :
  saveTasks [Task.mkTask "a" "   " false] Sample.world = (AlertNoTask, Sample.world)
  /\ saveTasks Sample.template
       {| app := mkAppState [Sample.emptyDay] 0 None false None;
          disk := Sample.emptyStorage |}
     = (AlertSaveFailed,
        {| app := mkAppState [Sample.emptyDay] 0 None false None;
           disk := Sample.emptyStorage |}).
Proof.
  split.
  - apply (proj1 (saveTasks_failures_change_nothing _ _)). reflexivity.
  - apply (proj2 (saveTasks_failures_change_nothing _ _)); [discriminate|].
    exists 0%nat, Sample.emptyDay. split; reflexivity.
Defined.

(** X20. A bulk revision touches task lists only.  After a successful
    [saveTasks] every day has its index, its date and its attempts as
    before, attempt by attempt, except for the task lists; so the same days
    are completed, the streak and the number of completed days are the same,
    and exactly the same days can be opened.  The current day index and the
    start date are kept. *)
Theorem saveTasks_touches_task_lists_only (editableTasks : list Task.Task)
    (w w' : world) :
  saveTasks editableTasks w = (TasksSaved, w') ->
  Forall2 (fun day day' =>
             Day.index day' = Day.index day
             /\ Day.date day' = Day.date day
             /\ Forall2 (fun a a' => a' = Attempt.with_tasks (Attempt.tasks a') a)
                        (Day.attempts day) (Day.attempts day')
             /\ Day.isDayCompleted day' = Day.isDayCompleted day)
          (days (app w)) (days (app w'))
  /\ getStreakCount (app w') = getStreakCount (app w)
  /\ getCompletedDaysCount (app w') = getCompletedDaysCount (app w)
  /\ currentDayIndex (app w') = currentDayIndex (app w)
  /\ startDate (app w') = startDate (app w)
  /\ (forall tz now dayIndex,
        canNavigate tz now (app w') dayIndex = canNavigate tz now (app w) dayIndex).
Proof.
  intros Hsave.
  destruct (saveTasks_saved _ _ _ Hsave) as (updatedDays & Hmap & ->).
  destruct (mapWithIndex_related _
              (fun _ day day' =>
                 Day.index day' = Day.index day
                 /\ Day.date day' = Day.date day
                 /\ Forall2 (fun a a' => a' = Attempt.with_tasks (Attempt.tasks a') a)
                            (Day.attempts day) (Day.attempts day')
                 /\ Day.isDayCompleted day' = Day.isDayCompleted day)
              _ _ _ (reviseDay_keeps _ _) Hmap) as [Hlen Hall].
  rewrite app_updateDays, dispatchEach_all by exact Hlen. simpl.
  assert (Hcompleted : map Day.isDayCompleted updatedDays
                       = map Day.isDayCompleted (days (app w))).
  { apply lookup_related_map; [exact Hlen|].
    intros j x Hj. destruct (Hall j x Hj) as (y & Hy & _ & _ & _ & _ & Hc). eauto. }
  destruct (streak_map _ _ Hcompleted) as (Hs & Hc & Hf).
  refine (conj _ (conj Hs (conj Hc (conj eq_refl (conj eq_refl _))))).
  - apply Forall2_same_length_lookup. split; [now rewrite Hlen|].
    intros i x y Hx Hy. destruct (Hall i x Hx) as (y' & Hy' & _ & HR).
    rewrite Hy in Hy'. injection Hy' as <-. exact HR.
  - intros tz now dayIndex. unfold canNavigate. simpl. now rewrite Hf.
Qed.

Lemma saveTasks_touches_task_lists_only_witness :
  getStreakCount (app (snd (saveTasks Sample.template Sample.world))) = 1.
Proof.
  destruct (saveTasks_touches_task_lists_only Sample.template Sample.world
              (snd (saveTasks Sample.template Sample.world)) eq_refl)
    as (_ & H & _).
  rewrite H. reflexivity.
Defined.

End RevisionBehaviour.

Section RevisionTwice.
Import AppContext MainScreen.

Lemma find_map_compose {A B : Type} (p : B -> bool) (g : A -> B) (l : list A) :
  find p (map g l) = option_map g (find (fun x => p (g x)) l).
Proof.
  induction l as [|x l IH]; simpl; [reflexivity|].
  destruct (p (g x)); [reflexivity | exact IH].
Qed.

Lemma rebuildTasks_twice (validTasks : list Task.Task) (a : Attempt.Attempt) :
  rebuildTasks validTasks (Attempt.with_tasks (rebuildTasks validTasks a) a)
  = rebuildTasks validTasks a.
Proof.
  unfold rebuildTasks at 1 3. simpl. apply map_ext_in. intros t Ht. f_equal.
  unfold rebuildTasks. rewrite find_map_compose. simpl.
  destruct (find (fun x => String.eqb (Task.id x) (Task.id t)) validTasks)
    as [t0|] eqn:E.
  - apply find_some in E as [_ E]. apply String.eqb_eq in E. simpl.
    now rewrite E.
  - exfalso. pose proof (find_none _ _ E t Ht) as H. simpl in H.
    now rewrite String.eqb_refl in H.
Qed.

Lemma reviseDay_twice (validTasks : list Task.Task) (currentDayIndex index : nat)
    (day day' : Day.Day) :
  reviseDay validTasks currentDayIndex index day = Normal day' ->
  reviseDay validTasks currentDayIndex index day' = Normal day'.
Proof.
  intros H. destruct (reviseDay_keeps _ _ _ _ _ H) as (_ & _ & _ & Hc).
  revert H. unfold reviseDay. rewrite Hc.
  destruct (negb _ || _); [|now intros [= <-]].
  destruct (Day.getCurrentAttempt day) as [[a|]|] eqn:Hcur; try discriminate.
  intros [= <-].
  destruct (getCurrentAttempt_Some day a Hcur) as (earlier & Hday).
  destruct (updateCurrentAttempt_step day
              (Attempt.with_tasks (rebuildTasks validTasks a) a) earlier a Hday)
    as [Hupd Hget].
  rewrite Hget. f_equal. rewrite Hupd at 1.
  unfold Day.updateCurrentAttempt at 1. simpl.
  rewrite array_set_last, rebuildTasks_twice. rewrite Hupd. reflexivity.
Qed.

Lemma loadChallengeData_none (st st' : StorageService.storage) :
  StorageService.loadChallengeData st = (None, st') -> st' = st.
Proof.
  unfold StorageService.loadChallengeData.
  destruct (StorageService.getItem _ st) as [data|]; [|now intros [= <-]].
  destruct (StorageService.JSON_parse data); [|now intros [= <-]].
  destruct (negb _); discriminate.
Qed.

(** X21. A bulk revision is idempotent.  When [saveTasks] has succeeded,
    saving the same edited list again succeeds, leaves the state in memory
    exactly as the first save left it, and a load of the store returns the
    same record as after the first save. *)
Theorem saveTasks_twice (editableTasks : list Task.Task) (w w1 : world) :
  saveTasks editableTasks w = (TasksSaved, w1) ->
  exists w2,
    saveTasks editableTasks w1 = (TasksSaved, w2)
    /\ app w2 = app w1
    /\ fst (StorageService.loadChallengeData (disk w2))
       = fst (StorageService.loadChallengeData (disk w1)).
Proof.
  intros Hsave.
  destruct (saveTasks_saved _ _ _ Hsave) as (updatedDays & Hmap & Hw1).
  destruct (mapWithIndex_related _ (fun _ _ _ => True) _ _ _
              (fun _ _ _ _ => I) Hmap) as [Hlen Hall].
  assert (Happ1 : app w1 = mkAppState updatedDays (currentDayIndex (app w))
                    (startDate (app w)) (isLoading (app w)) (error (app w))).
  { rewrite Hw1, app_updateDays, dispatchEach_all by exact Hlen. reflexivity. }
  assert (Hmap1 : mapWithIndex (reviseDay (validTasksOf editableTasks)
                                  (currentDayIndex (app w1))) 0 (days (app w1))
                  = Normal updatedDays).
  { rewrite Happ1. simpl. apply mapWithIndex_fixed. intros j y Hy.
    assert (Hj : j < length (days (app w))).
    { rewrite <- Hlen. apply lookup_lt_is_Some. eauto. }
    apply lookup_lt_is_Some in Hj as [x Hx].
    destruct (Hall j x Hx) as (y' & Hy' & Hrev & _).
    rewrite Hy in Hy'. injection Hy' as <-.
    now apply reviseDay_twice with (day := x). }
  exists (updateDays updatedDays w1). split; [|split].
  - revert Hsave. unfold saveTasks.
    destruct (_ =? 0)%nat; [discriminate|]. intros _. now rewrite Hmap1.
  - rewrite app_updateDays, dispatchEach_all by (rewrite Happ1; reflexivity).
    rewrite Happ1. reflexivity.
  - assert (Hdisk : forall v, disk (updateDays updatedDays v)
              = match StorageService.loadChallengeData (disk v) with
                | (Some c, st) =>
                    StorageService.saveChallengeData
                      (StorageService.with_days updatedDays c) st
                | (None, st) => st
                end).
    { intros v. unfold updateDays.
      replace (disk (dispatchEach 0 updatedDays v)) with (disk v).
      - now destruct (StorageService.loadChallengeData (disk v)) as [[c|] st].
      - clear. generalize 0%nat. revert v.
        induction updatedDays as [|d l IH]; intros v n; simpl; [reflexivity|].
        now rewrite <- IH. }
    rewrite Hdisk, Hw1, Hdisk.
    destruct (StorageService.loadChallengeData (disk w)) as [[c|] st] eqn:Hload.
    + pose proof (loadChallengeData_current_version _ _ _ Hload) as Hv.
      rewrite (loadChallengeData_saved_current
                 (StorageService.with_days updatedDays c) st Hv).
      cbv beta iota zeta. rewrite loadChallengeData_saveChallengeData.
      cbn [fst StorageService.reread StorageService.with_days
           StorageService.version StorageService.startDate StorageService.days
           StorageService.currentDayIndex].
      unfold StorageService.reread, StorageService.with_days. cbn. now rewrite Hv.
    + pose proof (loadChallengeData_none _ _ Hload) as ->.
      repeat (rewrite Hload; cbv beta iota zeta). reflexivity.
Qed.

Lemma saveTasks_twice_witness :
  exists w2,
    saveTasks Sample.template (snd (saveTasks Sample.template Sample.world))
    = (TasksSaved, w2)
    /\ app w2 = app (snd (saveTasks Sample.template Sample.world)).
Proof.
  destruct (saveTasks_twice Sample.template Sample.world
              (snd (saveTasks Sample.template Sample.world)) eq_refl)
    as (w2 & H & Happ & _).
  exists w2. exact (conj H Happ).
Defined.

Lemma findWithIndex_after (current : nat) (l : list Day.Day) (index : nat) :
  (index <= S current)%nat ->
  findWithIndex (fun index _ => (current <? index)%nat) index l
  = l !! (S current - index)%nat.
Proof.
  revert index. induction l as [|x l IH]; intros index Hi; [reflexivity|].
  cbn [findWithIndex]. destruct (Nat.ltb_spec current index) as [Hlt|Hge].
  - now replace (S current - index)%nat with 0%nat by lia.
  - rewrite IH by lia.
    now replace (S current - index)%nat with (S (S current - S index)) by lia.
Qed.

Lemma removeTask_app (taskId : string) (l l' : list Task.Task) :
  removeTask taskId (l ++ l') = removeTask taskId l ++ removeTask taskId l'.
Proof. unfold removeTask. apply List.filter_app. Qed.

(** X22. The editor.  It opens with the tasks of the first attempt of the
    day after the current one, when that day exists and has an attempt.
    [removeTask] drops every task with the given id and keeps the other
    tasks, each as often as it occurs and in their order; [updateTaskTitle]
    changes titles only, and only of the tasks with the given id; [addTask]
    appends one task, not completed, with an empty title and the clock in
    its id, and a task left like that does not reach the template that
    [saveTasks] applies. *)
Theorem editor_operations (now : N) (taskId title : string)
    (editableTasks : list Task.Task) :
  (forall state day firstAttempt,
      days state !! S (currentDayIndex state) = Some day ->
      head (Day.attempts day) = Some firstAttempt ->
      openModifyTasksModal state = Attempt.tasks firstAttempt)
  /\ removeTask taskId [] = []
  /\ (forall before t after,
        editableTasks = before ++ t :: after ->
        removeTask taskId editableTasks
        = removeTask taskId before
          ++ (if String.eqb (Task.id t) taskId then [] else [t])
          ++ removeTask taskId after)
  /\ (forall t, In t (removeTask taskId editableTasks)
                <-> In t editableTasks /\ Task.id t <> taskId)
  /\ map (fun t => (Task.id t, Task.completed t))
         (updateTaskTitle taskId title editableTasks)
     = map (fun t => (Task.id t, Task.completed t)) editableTasks
  /\ (forall i t, editableTasks !! i = Some t ->
        exists t', updateTaskTitle taskId title editableTasks !! i = Some t'
          /\ Task.title t' = if String.eqb (Task.id t) taskId then title
                             else Task.title t)
  /\ (exists newTask,
        addTask now editableTasks = editableTasks ++ [newTask]
        /\ Task.id newTask
           = ("task-" ++ NilZero.string_of_uint (N.to_uint now))%string
        /\ Task.title newTask = ""
        /\ Task.completed newTask = false)
  /\ validTasksOf (addTask now editableTasks) = validTasksOf editableTasks.
Proof.
  refine (conj _ (conj eq_refl (conj _ (conj _ (conj _ (conj _ (conj _ _))))))).
  - intros state day firstAttempt Hday Hfirst. unfold openModifyTasksModal.
    rewrite findWithIndex_after by lia. rewrite Nat.sub_0_r, Hday.
    cbn [mbind option_bind]. now rewrite Hfirst.
  - intros before t after ->.
    rewrite removeTask_app. f_equal.
    change (t :: after) with ([t] ++ after). rewrite removeTask_app. f_equal.
    unfold removeTask. cbn [List.filter].
    now destruct (String.eqb (Task.id t) taskId).
  - intros t. unfold removeTask. rewrite filter_In, negb_true_iff.
    now rewrite String.eqb_neq.
  - unfold updateTaskTitle. rewrite map_map. apply map_ext. intros t.
    now destruct (String.eqb (Task.id t) taskId).
  - unfold updateTaskTitle. revert editableTasks.
    induction editableTasks as [|x l IH]; intros [|i] t; simpl; try discriminate.
    + intros [= <-]. eexists. split; [reflexivity|].
      now destruct (String.eqb (Task.id x) taskId).
    + apply IH.
  - eexists. split; [reflexivity|]. now split.
  - unfold validTasksOf, addTask. rewrite List.filter_app. simpl.
    now rewrite app_nil_r.
Qed.

Lemma editor_operations_witness :
  openModifyTasksModal
    (mkAppState [Sample.completedDay; Sample.freshDay] 0 None false None)
  = Task.createDefaultTasks
  /\ removeTask "a" Sample.template = [Task.mkTask "b" "B" false]
  /\ exists t', updateTaskTitle "a" "Walk" Sample.template !! 0%nat = Some t'
               /\ Task.title t' = "Walk".
Proof.
  destruct (editor_operations 0 "a" "Walk" Sample.template)
    as (Hopen & _ & Hremove & _ & _ & Htitle & _).
  refine (conj _ (conj _ _)).
  - exact (Hopen (mkAppState [Sample.completedDay; Sample.freshDay] 0 None false None)
             Sample.freshDay
             (Attempt.createAttempt 1 Task.createDefaultTasks) eq_refl eq_refl).
  - exact (Hremove [] (Task.mkTask "a" "A2" false) [Task.mkTask "b" "B" false] eq_refl).
  - exact (Htitle 0%nat (Task.mkTask "a" "A2" false) eq_refl).
Defined.

End RevisionTwice.

(** * More on the import of a backup *)
Section ImportBehaviour.
Import Json DataService.

Lemma is_number_object (key : string) (value : json) :
  is_number (get key value) = true -> falsy (Some value) = false.
Proof. destruct value; simpl; try discriminate. reflexivity. Qed.

(** X23. What the validation of a backup checks, and no more: [version] is
    a number, [exportDate] a non-empty string, and [challengeData] has a
    number as [version], a truthy [startDate], an array of exactly 75
    elements as [days] and a number as [currentDayIndex].  The elements of
    [days] are not looked at. *)
Theorem validateImportData_accepts_exactly (data : json) :
  isValid (validateImportData data) = true
  <-> is_number (get "version" data) = true
      /\ (exists text, get "exportDate" data = Some (JStr text) /\ text <> "")
      /\ exists challengeData,
           get "challengeData" data = Some challengeData
           /\ is_number (get "version" challengeData) = true
           /\ falsy (get "startDate" challengeData) = false
           /\ (exists days, get "days" challengeData = Some (JArr days)
                            /\ length days = 75)
           /\ is_number (get "currentDayIndex" challengeData) = true.
Proof.
  unfold validateImportData. split.
  - destruct (falsy (Some data)) eqn:Hdata; [discriminate|].
    destruct (is_number (get "version" data)) eqn:Hversion; [|discriminate].
    simpl negb. cbv iota.
    destruct (falsy (get "exportDate" data)) eqn:Hdate; [discriminate|].
    destruct (is_string (get "exportDate" data)) eqn:Hstring; [|discriminate].
    simpl. destruct (get "challengeData" data) as [cd|] eqn:Hcd; [|discriminate].
    destruct (falsy (Some cd)) eqn:Hcdt; [discriminate|]. simpl.
    destruct (is_number (get "version" cd)) eqn:Hv; [|discriminate].
    destruct (falsy (get "startDate" cd)) eqn:Hstart; [discriminate|].
    destruct (isArray (get "days" cd)) eqn:Harr; [|discriminate].
    destruct (is_number (get "currentDayIndex" cd)) eqn:Hidx; [|discriminate].
    simpl.
    destruct (get "days" cd) as [[| | | |days|]|] eqn:Hdays; try discriminate.
    destruct (Nat.eqb_spec (length days) 75) as [Hlen|]; [|discriminate].
    intros _. split; [reflexivity|]. split.
    + destruct (get "exportDate" data) as [[| | |text| |]|]; try discriminate.
      exists text. split; [reflexivity|]. intros ->. discriminate.
    + exists cd. repeat split; eauto.
  - intros (Hversion & (text & Hdate & Htext) & cd & Hcd & Hv & Hstart
            & (days & Hdays & Hlen) & Hidx).
    rewrite (is_number_object _ _ Hversion), Hversion, Hdate, Hcd,
      (is_number_object _ _ Hv).
    simpl. apply String.eqb_neq in Htext. rewrite Htext. simpl.
    rewrite Hv, Hstart, Hdays, Hidx. simpl. now rewrite Hlen.
Qed.

Lemma validateImportData_accepts_exactly_witness :
  isValid (validateImportData (Sample.payload 75)) = true.
Proof.
  apply validateImportData_accepts_exactly. split; [reflexivity|].
  split; [eexists; split; [reflexivity | discriminate]|].
  eexists. split; [reflexivity|]. repeat split.
  eexists. split; [reflexivity|]. apply length_replicate.
Defined.

(** X24. An import that passes the validation.  If the user cancels,
    nothing is touched.  If the user confirms, the two challenge keys are
    removed and the challenge of the payload is written under
    ["75hard_state_v1"], in that order; afterwards that key holds the
    imported challenge, the start-date key is empty, and every other key --
    the weight unit preference among them -- holds what it held. *)
Theorem importData_replaces_the_challenge (data challengeData : json)
    (st : StorageService.storage) :
  isValid (validateImportData data) = true ->
  get "challengeData" data = Some challengeData ->
  importData (Parsed data) false st
    = (mkImportResult false "Import cancelled by user.", st)
  /\ let imported := snd (importData (Parsed data) true st) in
     success (fst (importData (Parsed data) true st)) = true
     /\ StorageService.journal imported
        = StorageService.journal st
          ++ [StorageService.RemoveItem "75hard_state_v1";
              StorageService.RemoveItem "75hard_start_date_v1";
              StorageService.SetItem "75hard_state_v1"
                (StorageService.BImported challengeData)]
     /\ StorageService.getItem "75hard_state_v1" imported
        = Some (StorageService.BImported challengeData)
     /\ StorageService.getItem "75hard_start_date_v1" imported = None
     /\ (forall key, key <> "75hard_state_v1" -> key <> "75hard_start_date_v1" ->
           StorageService.getItem key imported = StorageService.getItem key st)
     /\ StorageService.loadWeightUnitPreference imported
        = StorageService.loadWeightUnitPreference st.
Proof.
  intros Hvalid Hcd. unfold importData. rewrite Hvalid, Hcd. simpl negb. cbv iota.
  split; [reflexivity|]. cbv zeta. simpl fst. simpl snd.
  unfold StorageService.saveImportedChallengeData, StorageService.clearChallengeData.
  assert (Hother : forall key, key <> "75hard_state_v1" -> key <> "75hard_start_date_v1" ->
    StorageService.getItem key
      (StorageService.setItem StorageService.CHALLENGE_DATA
         (StorageService.BImported challengeData)
         (StorageService.removeItem StorageService.CHALLENGE_START_DATE
            (StorageService.removeItem StorageService.CHALLENGE_DATA st)))
    = StorageService.getItem key st).
  { intros key H1 H2.
    rewrite getItem_setItem_other by (intros E; apply H1; now rewrite <- E).
    rewrite getItem_removeItem_other by (intros E; apply H2; now rewrite <- E).
    now rewrite getItem_removeItem_other by (intros E; apply H1; now rewrite <- E). }
  refine (conj eq_refl (conj _ (conj _ (conj _ (conj Hother _))))).
  - unfold StorageService.setItem, StorageService.removeItem. simpl.
    now rewrite <- !app_assoc.
  - apply getItem_setItem.
  - rewrite getItem_setItem_other by discriminate. apply getItem_removeItem.
  - unfold StorageService.loadWeightUnitPreference.
    now rewrite Hother by discriminate.
Qed.

Lemma importData_replaces_the_challenge_witness :
  StorageService.getItem "75hard_start_date_v1"
    (snd (importData (Parsed (Sample.payload 75)) true Sample.emptyStorage)) = None
  /\ importData (Parsed (Sample.payload 75)) false Sample.emptyStorage
     = (mkImportResult false "Import cancelled by user.", Sample.emptyStorage).
Proof.
  edestruct (importData_replaces_the_challenge (Sample.payload 75) _
               Sample.emptyStorage eq_refl eq_refl) as (Hcancel & _ & _ & _ & Hnone & _).
  exact (conj Hnone Hcancel).
Defined.

End ImportBehaviour.

(** * Calendar arithmetic and ISO strings *)
Section Calendar.
Import Date IsoString.
Local Open Scope Z_scope.

Lemma civil_round_trip (z : Z) :
  let '(y, m, d) := civil_from_days z in
  days_from_civil y m d = z /\ 1 <= m <= 12 /\ 1 <= d <= 31.
Proof.
  unfold civil_from_days, days_from_civil.
  set (doe := z + 719468 - (z + 719468) / 146097 * 146097).
  set (yoe := (doe - doe / 1460 + doe / 36524 - doe / 146096) / 365).
  set (doy := doe - (365 * yoe + yoe / 4 - yoe / 100)).
  set (mp := (5 * doy + 2) / 153).
  assert (Hdoe : 0 <= doe < 146097) by (unfold doe; Z.div_mod_to_equations; lia).
  assert (Hy : 0 <= yoe <= 399 /\ 0 <= doy <= 365).
  { unfold doy, yoe. Z.div_mod_to_equations. lia. }
  assert (Hmp : 0 <= mp <= 11) by (unfold mp; Z.div_mod_to_equations; lia).
  destruct (Z.ltb_spec mp 10) as [H10|H10].
  - destruct (Z.leb_spec (mp + 3) 2); [lia|].
    replace ((mp + 3 + 9) mod 12) with mp by (Z.div_mod_to_equations; lia).
    replace ((yoe + (z + 719468) / 146097 * 400) / 400) with ((z + 719468) / 146097)
      by (Z.div_mod_to_equations; lia).
    repeat split; try lia.
    + unfold doy, doe. Z.div_mod_to_equations. lia.
    + unfold mp. Z.div_mod_to_equations. lia.
    + unfold mp. Z.div_mod_to_equations. lia.
  - destruct (Z.leb_spec (mp - 9) 2); [|lia].
    replace ((mp - 9 + 9) mod 12) with mp by (Z.div_mod_to_equations; lia).
    replace ((yoe + (z + 719468) / 146097 * 400 + 1 - 1) / 400)
      with ((z + 719468) / 146097) by (Z.div_mod_to_equations; lia).
    repeat split; try lia.
    + unfold doy, doe. Z.div_mod_to_equations. lia.
    + unfold mp. Z.div_mod_to_equations. lia.
    + unfold mp. Z.div_mod_to_equations. lia.
Qed.

Lemma civil_year_range (z : Z) :
  -719528 <= z <= 2932896 ->
  let '(y, m, d) := civil_from_days z in 0 <= y <= 9999.
Proof.
  intros Hz. unfold civil_from_days.
  set (doe := z + 719468 - (z + 719468) / 146097 * 146097).
  set (yoe := (doe - doe / 1460 + doe / 36524 - doe / 146096) / 365).
  set (doy := doe - (365 * yoe + yoe / 4 - yoe / 100)).
  set (mp := (5 * doy + 2) / 153).
  destruct (Z.ltb_spec mp 10) as [H10|H10].
  - destruct (Z.leb_spec (mp + 3) 2); unfold mp, doy, yoe, doe in *;
      Z.div_mod_to_equations; lia.
  - destruct (Z.leb_spec (mp - 9) 2); unfold mp, doy, yoe, doe in *;
      Z.div_mod_to_equations; lia.
Qed.

Lemma string_cons_append (x : ascii) (a b : string) :
  (String x a ++ b)%string = String x (a ++ b)%string.
Proof. reflexivity. Qed.

Lemma string_nil_append (b : string) : ("" ++ b)%string = b.
Proof. reflexivity. Qed.

Lemma string_append_assoc (a b c : string) :
  ((a ++ b) ++ c = a ++ (b ++ c))%string.
Proof.
  induction a as [|x a IH]; [reflexivity|].
  now rewrite !string_cons_append, IH.
Qed.

Lemma digit_of_digit_char (x : Z) :
  0 <= x < 10 -> digit (digit_char x) = Some x.
Proof.
  intros H.
  assert (x = 0 \/ x = 1 \/ x = 2 \/ x = 3 \/ x = 4 \/ x = 5 \/ x = 6 \/ x = 7
          \/ x = 8 \/ x = 9) as Hx by lia.
  repeat (destruct Hx as [-> | Hx]; [reflexivity|]). now subst.
Qed.

Lemma digit_char_not_T (x : Z) : 0 <= x < 10 -> Ascii.eqb (digit_char x) "T" = false.
Proof.
  intros H.
  assert (x = 0 \/ x = 1 \/ x = 2 \/ x = 3 \/ x = 4 \/ x = 5 \/ x = 6 \/ x = 7
          \/ x = 8 \/ x = 9) as Hx by lia.
  repeat (destruct Hx as [-> | Hx]; [reflexivity|]). now subst.
Qed.

(** Reading back the digits [padded] writes. *)
Lemma fixed_digits_padded (width more : nat) (acc v : Z) (rest : string) :
  0 <= v < 10 ^ Z.of_nat width ->
  fixed_digits (width + more) acc (padded width v ++ rest)%string
  = fixed_digits more (acc * 10 ^ Z.of_nat width + v) rest.
Proof.
  revert more acc v rest. induction width as [|width IH]; intros more acc v rest Hv.
  - simpl in *. f_equal. lia.
  - cbn [padded]. rewrite string_append_assoc, string_cons_append, string_nil_append.
    replace (S width + more)%nat with (width + S more)%nat by lia.
    rewrite Nat2Z.inj_succ, Z.pow_succ_r in Hv by lia.
    rewrite IH by (Z.div_mod_to_equations; lia).
    cbn [fixed_digits]. rewrite digit_of_digit_char by (Z.div_mod_to_equations; lia).
    f_equal. rewrite Nat2Z.inj_succ, Z.pow_succ_r by lia.
    Z.div_mod_to_equations. lia.
Qed.

Lemma fixed_digits_padded_all (width : nat) (v : Z) (rest : string) :
  0 <= v < 10 ^ Z.of_nat width ->
  fixed_digits width 0 (padded width v ++ rest)%string = Some (v, rest).
Proof.
  intros Hv. rewrite <- (Nat.add_0_r width) at 1.
  rewrite fixed_digits_padded by exact Hv. simpl. f_equal.
Qed.

Lemma padded_no_T (width : nat) (v : Z) : has_char "T" (padded width v) = false.
Proof.
  revert v. induction width as [|width IH]; intros v; [reflexivity|].
  cbn [padded]. rewrite has_char_append, IH. cbn [has_char orb].
  rewrite digit_char_not_T by (Z.div_mod_to_equations; lia). reflexivity.
Qed.

Lemma bind_Some_eq {A B : Type} (f : A -> option B) (x : A) : Some x ≫= f = f x.
Proof. reflexivity. Qed.

Lemma expect_here (c : ascii) (rest : string) : expect c (String c rest) = Some rest.
Proof. unfold expect. now rewrite Ascii.eqb_refl. Qed.

Lemma parse_time_string (t : Z) :
  parse_time (time_string t ++ "Z")%string = Some (t mod MS_PER_DAY, Some 0).
Proof.
  unfold time_string, parse_time. set (ms := t mod MS_PER_DAY).
  assert (Hms : 0 <= ms < 86400000) by (apply Z.mod_pos_bound; reflexivity).
  rewrite !string_append_assoc, ?string_cons_append, ?string_nil_append.
  assert (H10 : 10 ^ Z.of_nat 2 = 100) by reflexivity.
  assert (H1000 : 10 ^ Z.of_nat 3 = 1000) by reflexivity.
  rewrite (fixed_digits_padded_all 2) by (rewrite H10; Z.div_mod_to_equations; lia).
  rewrite bind_Some_eq. cbv beta iota. rewrite expect_here, bind_Some_eq. cbv beta.
  rewrite (fixed_digits_padded_all 2) by (rewrite H10; Z.div_mod_to_equations; lia).
  rewrite bind_Some_eq. cbv beta iota. rewrite expect_here. cbv iota.
  rewrite (fixed_digits_padded_all 2) by (rewrite H10; Z.div_mod_to_equations; lia).
  rewrite bind_Some_eq. cbv beta iota. rewrite expect_here. cbv iota.
  rewrite (fixed_digits_padded_all 3) by (rewrite H1000; Z.div_mod_to_equations; lia).
  rewrite !bind_Some_eq. cbv beta iota.
  change (parse_designator "Z") with (Some (Some 0)). rewrite bind_Some_eq. cbv beta.
  destruct (Z.leb_spec (ms / 3600000) 23); [|Z.div_mod_to_equations; lia].
  destruct (Z.leb_spec (ms / 60000 mod 60) 59); [|Z.div_mod_to_equations; lia].
  destruct (Z.leb_spec (ms / 1000 mod 60) 59); [|Z.div_mod_to_equations; lia].
  cbn [andb]. do 2 f_equal. Z.div_mod_to_equations. lia.
Qed.

(** The ISO string of an instant in the years 0 to 9999 is read back as
    that instant, in every time zone. *)
Lemma parse_toISOString (tz : TimeZone) (t : Z) :
  -62167219200000 <= t <= 253402300799999 ->
  exists text, toISOString t = Some text /\ Date.parse tz text = Some t.
Proof.
  intros Ht. unfold toISOString.
  destruct (Z.leb_spec (- MAX_TIME) t); [|unfold MAX_TIME in *; lia].
  destruct (Z.leb_spec t MAX_TIME); [|unfold MAX_TIME in *; lia].
  eexists. split; [reflexivity|].
  unfold date_string, Date.parse.
  pose proof (civil_round_trip (t / MS_PER_DAY)) as Hrt.
  pose proof (civil_year_range (t / MS_PER_DAY)) as Hyr.
  destruct (civil_from_days (t / MS_PER_DAY)) as [[y m] d].
  destruct Hrt as (Hdays & Hm & Hd).
  assert (Hy : 0 <= y <= 9999).
  { apply Hyr. unfold MS_PER_DAY. Z.div_mod_to_equations. lia. }
  unfold year_string.
  destruct (Z.leb_spec 0 y); [|lia]. destruct (Z.leb_spec y 9999); [|lia].
  cbn [andb]. cbv iota.
  rewrite !string_append_assoc, ?string_cons_append, ?string_nil_append.
  assert (H10 : 10 ^ Z.of_nat 2 = 100) by reflexivity.
  assert (H10000 : 10 ^ Z.of_nat 4 = 10000) by reflexivity.
  rewrite (fixed_digits_padded_all 4) by (rewrite H10000; lia).
  rewrite bind_Some_eq. cbv beta iota. rewrite expect_here, bind_Some_eq. cbv beta.
  rewrite (fixed_digits_padded_all 2) by (rewrite H10; lia).
  rewrite bind_Some_eq. cbv beta iota. rewrite expect_here, bind_Some_eq. cbv beta.
  rewrite (fixed_digits_padded_all 2) by (rewrite H10; lia).
  rewrite bind_Some_eq. cbv beta iota.
  destruct (Z.leb_spec 1 m); [|lia]. destruct (Z.leb_spec m 12); [|lia].
  destruct (Z.leb_spec 1 d); [|lia]. destruct (Z.leb_spec d 31); [|lia].
  cbn [andb]. cbv iota zeta.
  rewrite parse_time_string, bind_Some_eq. cbv beta iota.
  f_equal. rewrite Hdays. unfold MS_PER_DAY. Z.div_mod_to_equations. lia.
Qed.

End Calendar.

(** * The clock of the time gate *)
Section UnlockClock.
Import Date DateService.
Local Open Scope Z_scope.

Lemma startOfDay_fixed (offset t : Z) :
  startOfDay (fixedZone offset) t = (t + offset) / MS_PER_DAY * MS_PER_DAY - offset.
Proof.
  cbn [startOfDay fixedZone]. unfold MS_PER_DAY. Z.div_mod_to_equations. lia.
Qed.

Lemma addLocalDays_fixed (offset n d : Z) :
  addLocalDays (fixedZone offset) n d = d + n * MS_PER_DAY.
Proof. unfold addLocalDays. cbn [fromLocal toLocal fixedZone]. ring. Qed.

Lemma getMaxUnlockedDayFrom_fixed (offset now start : Z) :
  getMaxUnlockedDayFrom (fixedZone offset) now start
  = Z.min 75 (Z.max 1 ((now + offset) / MS_PER_DAY - (start + offset) / MS_PER_DAY + 1)).
Proof.
  unfold getMaxUnlockedDayFrom. rewrite !startOfDay_fixed.
  set (a := (now + offset) / MS_PER_DAY). set (b := (start + offset) / MS_PER_DAY).
  replace (a * MS_PER_DAY - offset - (b * MS_PER_DAY - offset))
    with ((a - b) * (1000 * 60 * 60 * 24)) by (unfold MS_PER_DAY; ring).
  now rewrite Z.div_mul by discriminate.
Qed.

Lemma isNewDayAvailable_fixed (offset now lastCheck : Z) :
  isNewDayAvailable (fixedZone offset) now lastCheck = true
  <-> (lastCheck + offset) / MS_PER_DAY < (now + offset) / MS_PER_DAY.
Proof.
  unfold isNewDayAvailable. rewrite Z.ltb_lt, !startOfDay_fixed.
  unfold MS_PER_DAY. lia.
Qed.

(** X25. In a zone at a constant offset from UTC the unlocked day counts
    local calendar days: it is one more than the number of local midnights
    between the start and now, kept within 1..75.  So it never goes down as
    time passes, it is 1 at any time up to the start, and it is 75 from 74
    days after the start on. *)
Theorem unlocked_day_counts_local_days (offset now start : Z) :
  let tz := fixedZone offset in
  let localDay := fun t => (t + offset) / MS_PER_DAY in
  getMaxUnlockedDayFrom tz now start
  = Z.min 75 (Z.max 1 (localDay now - localDay start + 1))
  /\ (forall later, now <= later ->
      getMaxUnlockedDayFrom tz now start <= getMaxUnlockedDayFrom tz later start)
  /\ (now <= start -> getMaxUnlockedDayFrom tz now start = 1)
  /\ (start + 74 * MS_PER_DAY <= now -> getMaxUnlockedDayFrom tz now start = 75).
Proof.
  cbv zeta. refine (conj (getMaxUnlockedDayFrom_fixed _ _ _) (conj _ (conj _ _))).
  - intros later Hl. rewrite !getMaxUnlockedDayFrom_fixed.
    assert ((now + offset) / MS_PER_DAY <= (later + offset) / MS_PER_DAY)
      by (apply Z.div_le_mono; [reflexivity | lia]).
    lia.
  - intros Hs. rewrite getMaxUnlockedDayFrom_fixed.
    assert ((now + offset) / MS_PER_DAY <= (start + offset) / MS_PER_DAY)
      by (apply Z.div_le_mono; [reflexivity | lia]).
    lia.
  - intros Hs. rewrite getMaxUnlockedDayFrom_fixed.
    assert ((start + offset) / MS_PER_DAY + 74 <= (now + offset) / MS_PER_DAY).
    { rewrite <- Z.div_add by discriminate.
      apply Z.div_le_mono; [reflexivity | lia]. }
    lia.
Qed.

Lemma unlocked_day_counts_local_days_witness :
  getMaxUnlockedDayFrom (fixedZone 3600000) 1704236400000 1704063600000 = 3
  /\ getMaxUnlockedDayFrom (fixedZone 3600000) 1704236400000 1704063600000
     <= getMaxUnlockedDayFrom (fixedZone 3600000) 1704236400001 1704063600000
  /\ getMaxUnlockedDayFrom (fixedZone 3600000) 1704063600000 1704063600000 = 1
  /\ getMaxUnlockedDayFrom (fixedZone 3600000) 1710457200000 1704063600000 = 75.
Proof.
  destruct (unlocked_day_counts_local_days 3600000 1704236400000 1704063600000)
    as (H1 & H2 & _ & _).
  destruct (unlocked_day_counts_local_days 3600000 1704063600000 1704063600000)
    as (_ & _ & H3 & _).
  destruct (unlocked_day_counts_local_days 3600000 1710457200000 1704063600000)
    as (_ & _ & _ & H4).
  refine (conj H1 (conj (H2 1704236400001 _) (conj (H3 _) (H4 _)))).
  - lia.
  - lia.
  - vm_compute. discriminate.
Defined.

(** X26. In a zone at a constant offset, a new day is available since the
    last check exactly when now falls on a later local calendar day, and
    that is exactly when, for a challenge started at the time of the last
    check, the second day is unlocked by time. *)
Theorem new_day_available_iff_later_local_day (offset now lastCheck : Z) :
  let tz := fixedZone offset in
  (isNewDayAvailable tz now lastCheck = true
   <-> (lastCheck + offset) / MS_PER_DAY < (now + offset) / MS_PER_DAY)
  /\ (isNewDayAvailable tz now lastCheck = true
      <-> 2 <= getMaxUnlockedDayFrom tz now lastCheck).
Proof.
  cbv zeta. split; [apply isNewDayAvailable_fixed|].
  rewrite isNewDayAvailable_fixed, getMaxUnlockedDayFrom_fixed. lia.
Qed.

(** X27. In a zone at a constant offset the countdown to the next unlock
    is well formed: the time remaining is more than nothing and at most a
    day, the minutes and seconds are below 60, the hours are at most 24 and
    are 24 only at a local midnight, and the three together are the whole
    seconds remaining.  The countdown ends at a local midnight, which is the
    first instant at which a new day is available. *)
Theorem countdown_ends_at_next_local_midnight (offset now : Z) :
  let tz := fixedZone offset in
  let remaining := startOfDay tz (now + MS_PER_DAY) - now in
  let '(hours, minutes, seconds) := getTimeUntilNextUnlock tz now in
  0 < remaining <= MS_PER_DAY
  /\ 0 <= hours <= 24 /\ 0 <= minutes < 60 /\ 0 <= seconds < 60
  /\ hours * 3600 + minutes * 60 + seconds = remaining / 1000
  /\ (hours = 24 <-> startOfDay tz now = now)
  /\ startOfDay tz (now + remaining) = now + remaining
  /\ isNewDayAvailable tz (now + remaining) now = true
  /\ (forall t, now <= t < now + remaining -> isNewDayAvailable tz t now = false).
Proof.
  cbv zeta. unfold getTimeUntilNextUnlock. rewrite addLocalDays_fixed, Z.mul_1_l.
  set (remaining := startOfDay (fixedZone offset) (now + MS_PER_DAY) - now).
  assert (Hr : remaining
               = ((now + offset) / MS_PER_DAY + 1) * MS_PER_DAY - (now + offset)).
  { unfold remaining. rewrite startOfDay_fixed.
    replace (now + MS_PER_DAY + offset) with (now + offset + 1 * MS_PER_DAY) by ring.
    rewrite Z.div_add by discriminate. ring. }
  assert (Hb : 0 < remaining <= MS_PER_DAY).
  { rewrite Hr. unfold MS_PER_DAY. Z.div_mod_to_equations. lia. }
  assert (Hmid : (now + remaining + offset) / MS_PER_DAY = (now + offset) / MS_PER_DAY + 1).
  { replace (now + remaining + offset)
      with (0 + ((now + offset) / MS_PER_DAY + 1) * MS_PER_DAY) by (rewrite Hr; ring).
    now rewrite Z.div_add by discriminate. }
  rewrite !Z.rem_mod_nonneg by lia.
  refine (conj Hb (conj _ (conj _ (conj _ (conj _ (conj _ (conj _ (conj _ _)))))))).
  - unfold MS_PER_DAY in Hb. Z.div_mod_to_equations. lia.
  - Z.div_mod_to_equations. lia.
  - Z.div_mod_to_equations. lia.
  - unfold MS_PER_DAY in Hb. Z.div_mod_to_equations. lia.
  - rewrite startOfDay_fixed. rewrite Hr. unfold MS_PER_DAY in *.
    Z.div_mod_to_equations. lia.
  - rewrite startOfDay_fixed, Hmid, Hr. ring.
  - apply isNewDayAvailable_fixed. rewrite Hmid. lia.
  - intros t Ht. apply not_true_is_false. rewrite isNewDayAvailable_fixed.
    assert ((t + offset) / MS_PER_DAY < (now + offset) / MS_PER_DAY + 1); [|lia].
    apply Z.div_lt_upper_bound; [reflexivity|]. rewrite Hr in Ht. lia.
Qed.

Lemma countdown_ends_at_next_local_midnight_witness :
  getTimeUntilNextUnlock (fixedZone 3600000) 1704268800000 = (15, 0, 0)
  /\ isNewDayAvailable (fixedZone 3600000) 1704322799999 1704268800000 = false.
Proof.
  pose proof (countdown_ends_at_next_local_midnight 3600000 1704268800000) as H.
  cbv zeta in H.
  change (getTimeUntilNextUnlock (fixedZone 3600000) 1704268800000)
    with (15, 0, 0) in H.
  cbv beta iota in H.
  destruct H as (_ & _ & _ & _ & _ & _ & _ & _ & H).
  refine (conj eq_refl (H 1704322799999 _)).
  vm_compute. split; [discriminate | reflexivity].
Defined.

End UnlockClock.

(** * A new challenge *)
Section NewChallenge.
Import Date IsoString InitialDays StorageService AppContext.
Local Open Scope Z_scope.

Lemma year_string_no_T (y : Z) : has_char "T" (year_string y) = false.
Proof.
  unfold year_string.
  destruct ((0 <=? y) && (y <=? 9999)); [apply padded_no_T|].
  destruct (y <? 0); rewrite string_cons_append, string_nil_append;
    cbn [has_char]; now rewrite padded_no_T.
Qed.

Lemma date_string_no_T (t : Z) : has_char "T" (date_string t) = false.
Proof.
  unfold date_string. destruct (civil_from_days (t / MS_PER_DAY)) as [[y m] d].
  rewrite !has_char_append, year_string_no_T, !padded_no_T. reflexivity.
Qed.

Lemma toISOString_is_Some (t : Z) :
  is_Some (toISOString t) <-> - MAX_TIME <= t <= MAX_TIME.
Proof.
  unfold toISOString.
  destruct (Z.leb_spec (- MAX_TIME) t), (Z.leb_spec t MAX_TIME); cbn [andb];
    split; try lia; try (intros _; eexists; reflexivity);
    intros [x Hx]; discriminate.
Qed.

Lemma initialDay_in_range (tz : TimeZone) (startDate : Z) (i : nat) :
  - MAX_TIME <= addLocalDays tz (Z.of_nat i - 1) startDate <= MAX_TIME ->
  initialDay tz startDate i
  = Some (Day.createDay i
            (date_string (addLocalDays tz (Z.of_nat i - 1) startDate))).
Proof.
  intros [Hlo Hhi]. unfold initialDay, toISOString.
  apply Z.leb_le in Hlo, Hhi. rewrite Hlo, Hhi. cbn [andb].
  rewrite bind_Some_eq. do 2 f_equal.
  rewrite string_cons_append, string_nil_append, split_on_append_sep
    by apply date_string_no_T.
  reflexivity.
Qed.

Lemma initialDay_is_Some (tz : TimeZone) (startDate : Z) (i : nat) :
  is_Some (initialDay tz startDate i)
  <-> - MAX_TIME <= addLocalDays tz (Z.of_nat i - 1) startDate <= MAX_TIME.
Proof.
  split.
  - intros [day Hday]. apply toISOString_is_Some. unfold initialDay in Hday.
    destruct (toISOString _); [now eexists | discriminate].
  - intros H. rewrite (initialDay_in_range _ _ _ H). now eexists.
Qed.

Lemma mapM_Some_map {A B : Type} (f : A -> option B) (g : A -> B) (l : list A) :
  (forall x, In x l -> f x = Some (g x)) -> mapM f l = Some (map g l).
Proof.
  induction l as [|x l IH]; intros H; [reflexivity|].
  cbn [mapM map]. rewrite (H x (or_introl eq_refl)), bind_Some_eq.
  rewrite IH by (intros y Hy; apply H; now right). reflexivity.
Qed.

(** When [createInitialDays] returns, it returns these days. *)
Lemma createInitialDays_Some (tz : TimeZone) (startDate : Z) (days : list Day.Day) :
  createInitialDays tz startDate = Some days ->
  days = map (fun i => Day.createDay i
                         (date_string (addLocalDays tz (Z.of_nat i - 1) startDate)))
             (seq 1 75).
Proof.
  intros Hdays. unfold createInitialDays in Hdays.
  assert (His : is_Some (mapM (initialDay tz startDate) (seq 1 75)))
    by (exists days; exact Hdays).
  apply mapM_is_Some in His. rewrite Forall_forall in His.
  rewrite (mapM_Some_map _
             (fun i => Day.createDay i
                         (date_string (addLocalDays tz (Z.of_nat i - 1) startDate))))
    in Hdays.
  - now apply (inj Some) in Hdays.
  - intros i Hi. apply initialDay_in_range, initialDay_is_Some.
    apply (His i). now apply list_elem_of_In.
Qed.

Lemma createInitialDays_is_Some (tz : TimeZone) (startDate : Z) :
  is_Some (createInitialDays tz startDate)
  <-> forall i, (i < 75)%nat ->
        - MAX_TIME <= addLocalDays tz (Z.of_nat i) startDate <= MAX_TIME.
Proof.
  unfold createInitialDays. rewrite mapM_is_Some, Forall_forall. split.
  - intros H i Hi.
    assert (Hin : S i ∈ seq 1 75) by (apply elem_of_seq; lia).
    apply H in Hin. cbn [compose] in Hin. apply initialDay_is_Some in Hin.
    now replace (Z.of_nat (S i) - 1) with (Z.of_nat i) in Hin by lia.
  - intros H i Hi%elem_of_seq. cbn [compose]. apply initialDay_is_Some.
    replace (Z.of_nat i - 1) with (Z.of_nat (i - 1)) by lia. apply H. lia.
Qed.

Lemma fresh_days_not_completed (g : nat -> string) (l : list nat) :
  List.filter Day.isDayCompleted (map (fun i => Day.createDay i (g i)) l) = []
  /\ streak (map (fun i => Day.createDay i (g i)) l) = 0%nat
  /\ map reread_day (map (fun i => Day.createDay i (g i)) l)
     = map (fun i => Day.createDay i (g i)) l.
Proof.
  refine (conj _ (conj _ _)).
  - induction l as [|i l IH]; [reflexivity|]. cbn [map List.filter]. exact IH.
  - destruct l; reflexivity.
  - rewrite map_map. apply map_ext. reflexivity.
Qed.

(** X28. [createInitialDays] in any time zone: it returns exactly when
    each of the 75 instants reached from the start by 0, 1, ..., 74 local
    calendar days, at the local time of day of the start, is one a [Date]
    can hold, and otherwise throws.  It returns 75 days; the day at position
    [i] has the index [i + 1], one first attempt, and as its date the UTC
    calendar date of the instant [i] local calendar days after the start.
    In a zone at a constant offset that instant is [i] times 24 hours after
    the start, and the function returns exactly when the start and the
    instant 74 days later are in range. *)
Theorem createInitialDays_builds_75_consecutive_days (tz : TimeZone) (startDate : Z) :
  (is_Some (createInitialDays tz startDate)
   <-> forall i, (i < 75)%nat ->
         - MAX_TIME <= fromLocal tz (toLocal tz startDate + Z.of_nat i * MS_PER_DAY)
                    <= MAX_TIME)
  /\ (forall days, createInitialDays tz startDate = Some days ->
      length days = 75%nat
      /\ forall i, (i < 75)%nat ->
           days !! i
           = Some (Day.mkDay (S i)
                     (date_string
                        (fromLocal tz (toLocal tz startDate + Z.of_nat i * MS_PER_DAY)))
                     [Attempt.createAttempt 1 Task.createDefaultTasks]))
  /\ (forall offset i, tz = fixedZone offset ->
        fromLocal tz (toLocal tz startDate + Z.of_nat i * MS_PER_DAY)
        = startDate + Z.of_nat i * MS_PER_DAY)
  /\ (forall offset, tz = fixedZone offset ->
        (is_Some (createInitialDays tz startDate)
         <-> - MAX_TIME <= startDate /\ startDate + 74 * MS_PER_DAY <= MAX_TIME)).
Proof.
  refine (conj (createInitialDays_is_Some tz startDate) (conj _ (conj _ _))).
  - intros days Hdays. apply createInitialDays_Some in Hdays. subst days. split.
    + now rewrite length_map, length_seq.
    + intros i Hi. rewrite list_lookup_fmap, lookup_seq_lt by exact Hi.
      cbn [fmap option_fmap option_map]. unfold Day.createDay, addLocalDays.
      do 4 f_equal. lia.
  - intros offset i ->. apply addLocalDays_fixed.
  - intros offset ->. rewrite createInitialDays_is_Some. split.
    + intros H. pose proof (H 0%nat ltac:(lia)) as H0.
      pose proof (H 74%nat ltac:(lia)) as H74.
      rewrite addLocalDays_fixed in H0, H74. unfold MS_PER_DAY in *. lia.
    + intros [Hlo Hhi] i Hi. rewrite addLocalDays_fixed.
      unfold MS_PER_DAY in *. lia.
Qed.

Lemma createInitialDays_builds_75_consecutive_days_witness :
  (exists days,
     createInitialDays (fixedZone 3600000) 1704268800000 = Some days
     /\ length days = 75%nat
     /\ days !! 74%nat = Some (Day.createDay 75 "2024-03-17"))
  /\ (exists days,
        createInitialDays Sample.newYork 1710030600000 = Some days
        /\ days !! 0%nat = Some (Day.createDay 1 "2024-03-10")
        /\ days !! 1%nat = Some (Day.createDay 2 "2024-03-10")
        /\ days !! 2%nat = Some (Day.createDay 3 "2024-03-11")).
Proof.
  split.
  - destruct (createInitialDays_builds_75_consecutive_days
                (fixedZone 3600000) 1704268800000) as (_ & Hdays & _ & Hiff).
    destruct (proj2 (Hiff 3600000 eq_refl)) as [days Hsome];
      [vm_compute; split; discriminate|].
    destruct (Hdays days Hsome) as [Hlen Hlookup].
    exists days. refine (conj Hsome (conj Hlen _)).
    rewrite (Hlookup 74%nat) by lia. reflexivity.
  - destruct (createInitialDays_builds_75_consecutive_days
                Sample.newYork 1710030600000) as (_ & Hdays & _).
    destruct (createInitialDays Sample.newYork 1710030600000) as [days|] eqn:E;
      [|vm_compute in E; discriminate].
    destruct (Hdays days eq_refl) as [_ Hlookup].
    exists days. refine (conj eq_refl (conj _ (conj _ _))).
    + rewrite (Hlookup 0%nat) by lia. reflexivity.
    + rewrite (Hlookup 1%nat) by lia. reflexivity.
    + rewrite (Hlookup 2%nat) by lia. reflexivity.
Defined.

End NewChallenge.

(** * Starting and restarting *)
Section FirstLaunch.
Import Date DateService IsoString InitialDays StorageService AppContext MainScreen.
Local Open Scope Z_scope.

Lemma initializeChallenge_Some (tz : TimeZone) (now : Z) (st : storage)
    (iso : string) (days : list Day.Day) :
  toISOString now = Some iso ->
  createInitialDays tz now = Some days ->
  head days
  = Some (Day.createDay 1 (date_string (fromLocal tz (toLocal tz now))))
  /\ List.filter Day.isDayCompleted days = []
  /\ streak days = 0%nat
  /\ map reread_day days = days
  /\ initializeChallenge tz now st
     = Some (mkChallengeData 1 iso days 1,
             saveChallengeData (mkChallengeData 1 iso days 1) st).
Proof.
  intros Hiso Hdays.
  assert (Hinit : initializeChallenge tz now st
                  = Some (mkChallengeData 1 iso days 1,
                          saveChallengeData (mkChallengeData 1 iso days 1) st)).
  { unfold initializeChallenge. now rewrite Hdays, bind_Some_eq, Hiso, bind_Some_eq. }
  apply createInitialDays_Some in Hdays. subst days.
  refine (conj _ (conj _ (conj _ (conj _ Hinit))));
    try apply fresh_days_not_completed.
  cbn [seq map head]. unfold addLocalDays. do 4 f_equal. lia.
Qed.

Lemma initializeChallenge_fixed (offset now : Z) :
  - MAX_TIME <= now -> now + 74 * MS_PER_DAY <= MAX_TIME ->
  exists iso days,
    toISOString now = Some iso
    /\ createInitialDays (fixedZone offset) now = Some days.
Proof.
  intros Hlo Hhi.
  destruct (proj2 (toISOString_is_Some now)) as [iso Hiso];
    [unfold MS_PER_DAY in *; lia|].
  destruct (proj2 (createInitialDays_is_Some (fixedZone offset) now))
    as [days Hdays].
  { intros i Hi. rewrite addLocalDays_fixed. unfold MS_PER_DAY in *. lia. }
  now exists iso, days.
Qed.

Lemma loadDays_stored (tz : TimeZone) (now : Z) (w : world)
    (challengeData : ChallengeData) :
  loadChallengeData (disk w) = (Some challengeData, disk w) ->
  loadDays tz now w
  = showChallenge challengeData (dispatch (SET_LOADING true) w).
Proof.
  intros Hload. unfold loadDays, isChallengeInitialized.
  cbn [dispatch disk app]. rewrite Hload. cbv beta iota zeta.
  rewrite bool_decide_eq_true_2 by (now eexists).
  rewrite Hload. reflexivity.
Qed.

Lemma canNavigate_first (tz : TimeZone) (now start : Z) (state : AppState)
    (startDate : string) :
  AppContext.startDate state = Some startDate ->
  Date.parse tz startDate = Some start ->
  canNavigate tz now state 0 = true.
Proof.
  intros Hs Hp. unfold canNavigate, isDayUnlockedByTime, getMaxUnlockedDay.
  rewrite Hs, Hp. cbn [fmap option_fmap option_map take forallb].
  pose proof (getMaxUnlockedDayFrom_range tz now start) as Hr.
  destruct (Z.leb_spec (Z.of_nat 0 + 1) (getMaxUnlockedDayFrom tz now start));
    [reflexivity | lia].
Qed.

Lemma canNavigate_behind_open_day (tz : TimeZone) (now : Z) (state : AppState)
    (day : Day.Day) (dayIndex : nat) :
  head (AppContext.days state) = Some day ->
  Day.isDayCompleted day = false ->
  (0 < dayIndex)%nat ->
  canNavigate tz now state dayIndex = false.
Proof.
  intros Hhead Hday Hpos. unfold canNavigate.
  destruct (AppContext.startDate state); [|reflexivity].
  destruct (AppContext.days state) as [|d rest]; [discriminate|].
  injection Hhead as ->. destruct dayIndex as [|dayIndex]; [lia|].
  cbn [take forallb]. rewrite Hday. cbn [andb negb]. now rewrite orb_true_r.
Qed.

(** X29. The first launch, in a zone at a constant offset.  When the store
    holds no challenge and the clock shows a date of the years 0 to 9999,
    [loadDays] starts one: it stores a record of the current schema version
    with the start instant as ISO string, 75 new days and the current day
    1, and shows these days with the first one as the current day, not
    loading and without error.  Loading again, at any later time, shows the
    same and writes nothing.  Day 1 is the one day unlocked by time at that
    instant; day 1 can be opened at any time, and no other day can be opened
    at any time while the days are as the first launch left them. *)
Theorem first_launch_starts_a_challenge (offset now : Z) (w : world) :
  fst (loadChallengeData (disk w)) = None ->
  -62167219200000 <= now <= 253402300799999 ->
  exists iso days,
    toISOString now = Some iso
    /\ createInitialDays (fixedZone offset) now = Some days
    /\ let fresh := mkChallengeData 1 iso days 1 in
       let shown := mkAppState days 0 (Some iso) false None in
       let started := mkWorld shown (saveChallengeData fresh (disk w)) in
       let tz := fixedZone offset in
       loadDays tz now w = Some started
       /\ (forall later, loadDays tz later started = Some started)
       /\ getCurrentDay shown = Some (Day.createDay 1 (date_string now))
       /\ getMaxUnlockedDay tz now iso = Some 1
       /\ (forall later, canNavigate tz later shown 0 = true)
       /\ (forall later dayIndex, (0 < dayIndex)%nat ->
           canNavigate tz later shown dayIndex = false).
Proof.
  intros Hnone Hnow.
  destruct (initializeChallenge_fixed offset now) as (iso & days & Hiso & Hdays);
    [unfold MAX_TIME; lia | unfold MAX_TIME, MS_PER_DAY; lia |].
  destruct (initializeChallenge_Some (fixedZone offset) now (disk w) iso days Hiso Hdays)
    as (Hhead & _ & _ & Hstored & Hinit).
  change (fromLocal (fixedZone offset) (toLocal (fixedZone offset) now))
    with (now + offset - offset) in Hhead.
  replace (now + offset - offset) with now in Hhead by ring.
  destruct (parse_toISOString (fixedZone offset) now Hnow) as (iso' & Hiso' & Hparse).
  rewrite Hiso in Hiso'. injection Hiso' as <-.
  exists iso, days. refine (conj Hiso (conj Hdays _)). cbv zeta.
  refine (conj _ (conj _ (conj _ (conj _ (conj _ _))))).
  - unfold loadDays, isChallengeInitialized. cbn [dispatch disk app].
    destruct (loadChallengeData (disk w)) as [data st] eqn:Hload.
    cbn [fst] in Hnone. subst data.
    apply loadChallengeData_none in Hload. subst st.
    rewrite bool_decide_eq_false_2 by (intros [x Hx]; discriminate).
    rewrite Hinit. reflexivity.
  - intros later.
    rewrite (loadDays_stored _ later _ (mkChallengeData 1 iso days 1))
      by (apply loadChallengeData_saved; [reflexivity | exact Hstored]).
    reflexivity.
  - unfold getCurrentDay. cbn [AppContext.days AppContext.currentDayIndex].
    destruct days; [discriminate | exact Hhead].
  - unfold getMaxUnlockedDay. rewrite Hparse. cbn [fmap option_fmap option_map].
    f_equal. rewrite getMaxUnlockedDayFrom_fixed. lia.
  - intros later. now apply (canNavigate_first _ _ now _ iso).
  - intros later dayIndex Hpos.
    now apply (canNavigate_behind_open_day _ _ _ (Day.createDay 1 (date_string now))).
Qed.

Lemma first_launch_starts_a_challenge_witness :
  exists started,
    loadDays (fixedZone 3600000) 1704268800000
             (mkWorld initialState Sample.emptyStorage) = Some started
    /\ AppContext.startDate (app started) = Some "2024-01-03T08:00:00.000Z"
    /\ canNavigate (fixedZone 3600000) 1704355200000 (app started) 1 = false.
Proof.
  destruct (first_launch_starts_a_challenge 3600000 1704268800000
              (mkWorld initialState Sample.emptyStorage))
    as (iso & days & Hiso & Hdays & Hload & _ & _ & _ & _ & Hnav).
  - reflexivity.
  - lia.
  - eexists. refine (conj Hload (conj _ (Hnav 1704355200000 1%nat _))).
    + cbn [app AppContext.startDate]. rewrite <- Hiso. reflexivity.
    + lia.
Defined.

(** X30. Starting over, in a zone at a constant offset.  Whatever the
    state and the store were, [resetChallenge] leaves a new challenge like
    the one of a first launch: 75 new days, none completed, the first as the
    current day, no error, the record stored and read back by a load.  The
    weight unit preference survives.  In any zone, when the dates of the
    new challenge cannot be built, the stored challenge is already gone
    while the days in memory are still the old ones, with the error set. *)
Theorem resetChallenge_starts_over (tz : TimeZone) (now : Z) (w : world) :
  (forall offset, tz = fixedZone offset ->
   - MAX_TIME <= now -> now + 74 * MS_PER_DAY <= MAX_TIME ->
   exists iso days started,
     toISOString now = Some iso
     /\ createInitialDays tz now = Some days
     /\ resetChallenge tz now w = Some started
     /\ app started = mkAppState days 0 (Some iso) false None
     /\ loadChallengeData (disk started)
        = (Some (mkChallengeData 1 iso days 1), disk started)
     /\ getCompletedDaysCount (app started) = 0%nat
     /\ getStreakCount (app started) = 0%nat
     /\ loadWeightUnitPreference (disk started) = loadWeightUnitPreference (disk w))
  /\ (createInitialDays tz now = None ->
      exists failed,
        resetChallenge tz now w = Some failed
        /\ AppContext.error (app failed) = Some "Failed to reset challenge"
        /\ AppContext.days (app failed) = AppContext.days (app w)
        /\ isLoading (app failed) = false
        /\ loadChallengeData (disk failed) = (None, disk failed)).
Proof.
  split.
  - intros offset -> Hlo Hhi.
    destruct (initializeChallenge_fixed offset now Hlo Hhi)
      as (iso & days & Hiso & Hdays).
    destruct (initializeChallenge_Some (fixedZone offset) now
                (clearChallengeData (disk w)) iso days Hiso Hdays)
      as (_ & Hfilter & Hstreak & Hstored & Hinit).
    exists iso, days,
      (mkWorld (mkAppState days 0 (Some iso) false None)
         (saveChallengeData (mkChallengeData 1 iso days 1) (clearChallengeData (disk w)))).
    refine (conj Hiso (conj Hdays (conj _ _))).
    + unfold resetChallenge. cbn [dispatch disk app]. rewrite Hinit. reflexivity.
    + cbn [app disk].
      refine (conj eq_refl (conj _ (conj _ (conj _ _)))).
      * apply loadChallengeData_saved; [reflexivity | exact Hstored].
      * unfold getCompletedDaysCount. cbn [AppContext.days]. now rewrite Hfilter.
      * exact Hstreak.
      * unfold loadWeightUnitPreference, saveChallengeData, clearChallengeData.
        rewrite getItem_setItem_other by discriminate.
        now rewrite !getItem_removeItem_other by discriminate.
  - intros Hnone.
    exists (mkWorld (mkAppState (AppContext.days (app w))
                       (AppContext.currentDayIndex (app w))
                       (AppContext.startDate (app w)) false
                       (Some "Failed to reset challenge"))
              (clearChallengeData (disk w))).
    split.
    + unfold resetChallenge, initializeChallenge. rewrite Hnone. reflexivity.
    + cbn [app disk AppContext.error AppContext.days isLoading].
      refine (conj eq_refl (conj eq_refl (conj eq_refl _))).
      unfold loadChallengeData, clearChallengeData.
      rewrite getItem_removeItem_other by discriminate.
      now rewrite getItem_removeItem.
Qed.

Lemma resetChallenge_starts_over_witness :
  (exists started,
     resetChallenge (fixedZone 3600000) 1704268800000 Sample.world = Some started
     /\ getCompletedDaysCount (app started) = 0%nat)
  /\ (exists failed,
        resetChallenge (fixedZone 3600000) 8640000000000000 Sample.world = Some failed
        /\ fst (loadChallengeData (disk failed)) = None).
Proof.
  destruct (resetChallenge_starts_over (fixedZone 3600000) 1704268800000 Sample.world)
    as [Hok _].
  destruct (resetChallenge_starts_over (fixedZone 3600000) 8640000000000000 Sample.world)
    as [_ Hfail].
  split.
  - destruct (Hok 3600000 eq_refl) as (iso & days & started & _ & _ & Hreset & _ & _ & Hcount & _).
    + vm_compute. discriminate.
    + vm_compute. discriminate.
    + exists started. exact (conj Hreset Hcount).
  - destruct Hfail as (failed & Hreset & _ & _ & _ & Hload).
    + reflexivity.
    + exists failed. split; [exact Hreset | now rewrite Hload].
Defined.

End FirstLaunch.
